(** * sgrequests-cache: an HTTP response cache in front of an HTTP client

    A shallow embedding of the cache layer (`sgrequests_cache/cache.py`,
    `circuit_breaker.py`, `serializers.py`, `backends/memory.py`,
    `stats.py`, `patterns.py`) together with the properties its
    specification states about it.

    Conventions of the embedding.
    - Python `int` is [Z]; `time.time()` readings are rationals [Q]
      (seconds); `bytes` is [list byte]; `str` is [string], read as a
      sequence of code points below 256.
    - A call that may raise returns a [Result]; `try/except` is a match
      on it.
    - Mutable objects (`self.failures`, the backend's dictionary, the
      statistics) are threaded explicitly: every method takes the object
      and returns its new value.
    - The libraries the package calls (httpx, msgpack, hashlib, gzip, lz4,
      zstandard, fnmatch) are interfaces: type classes whose methods the
      code calls, with the laws a proof needs stated next to them. *)

From Stdlib Require Import ZArith QArith Lia Bool List.
From Stdlib.Strings Require Import Ascii String Byte.
From stdpp Require Import base option list strings pretty gmap sorting.

Open Scope Z_scope.

(** ** Exceptions and results *)

(** The exception classes the code distinguishes. `except Exception`
    catches every one of them; `except CircuitBreakerOpenError` only the
    first. *)
Inductive Exn : Type :=
| CircuitBreakerOpenError
| ImportError (msg : string)
| ValueError (msg : string)
| KeyError (key : string)
| OtherError (cls : string).

Inductive Result (A : Type) : Type :=
| Ok (a : A)
| Raise (e : Exn).
Arguments Ok {A} a.
Arguments Raise {A} e.

Definition is_ok {A} (r : Result A) : bool :=
  match r with Ok _ => true | Raise _ => false end.

Definition is_CircuitBreakerOpenError (e : Exn) : bool :=
  match e with CircuitBreakerOpenError => true | _ => false end.

(** ** Clock readings *)

Definition Time := Q.

(** `a <= b` and `a > b` on floats, as the tests the code branches on.
    A comparison of two doubles, or of a double with an `int`, is
    exact. *)
Definition time_le (a b : Time) : bool := Qle_bool a b.
Definition time_gt (a b : Time) : bool := negb (Qle_bool a b).

(** `time.time()` returns a double, and a double is the rational
    `m * 2^e` it denotes. The difference of two doubles and the sum of a
    double and an `int` are doubles again: the exact result rounded to
    the nearest double, ties to the even significand (IEEE 754 binary64:
    53 bits of significand, exponents from -1074 on; readings stay far
    from the largest double). *)
Definition pow2 (e : Z) : Q :=
  if 0 <=? e then inject_Z (2 ^ e) else (1 # Z.to_pos (2 ^ (- e)))%Q.

(** `n / d` rounded to the nearest integer, ties to even, for `n >= 0`
    and `d > 0`. *)
Definition round_half_even (n d : Z) : Z :=
  let q := n / d in
  let r := n mod d in
  match 2 * r ?= d with
  | Lt => q
  | Gt => q + 1
  | Eq => if Z.even q then q else q + 1
  end.

(** The double nearest to a rational, in lowest terms. *)
Definition fl64 (x : Q) : Q :=
  let n := Z.abs (Qnum x) in
  let d := Z.pos (Qden x) in
  if n =? 0 then 0%Q
  else
    let k := Z.log2 n - Z.log2 d in
    let lg :=
      if (if 0 <=? k then d * 2 ^ k <=? n else d <=? n * 2 ^ (- k))
      then k else k - 1 in
    let e := Z.max (lg - 52) (-1074) in
    let m :=
      if 0 <=? e then round_half_even n (d * 2 ^ e)
      else round_half_even (n * 2 ^ (- e)) d in
    let r := (inject_Z m * pow2 e)%Q in
    Qred (if Qnum x <? 0 then (- r)%Q else r).

(** `a - b` on doubles, and `a + n` for a double and an `int` (the `int`
    is converted to a double first). A reading that is not a double
    stands for the double nearest to it, as a decimal literal does:
    wherever the code computes with a reading or compares it, the model
    takes [fl64] of it. *)
Definition fsub (a b : Time) : Time := fl64 (fl64 a - fl64 b).
Definition fadd (a : Time) (n : Z) : Time :=
  fl64 (fl64 a + fl64 (inject_Z n)).
Arguments fsub : simpl never.
Arguments fadd : simpl never.

(** ** circuit_breaker.py *)

Module CircuitBreaker.

Inductive State : Type := CLOSED | OPEN | HALF_OPEN.

Definition State_eqb (a b : State) : bool :=
  match a, b with
  | CLOSED, CLOSED | OPEN, OPEN | HALF_OPEN, HALF_OPEN => true
  | _, _ => false
  end.

Record t : Type := mk {
  threshold : Z;
  timeout : Z;
  failures : Z;
  last_failure_time : Time;
  state : State
}.

(** `__init__` *)
Definition init (threshold timeout : Z) : t :=
  mk threshold timeout 0 0%Q CLOSED.

Definition with_state (s : State) (cb : t) : t :=
  mk (threshold cb) (timeout cb) (failures cb) (last_failure_time cb) s.

Definition with_failures (n : Z) (cb : t) : t :=
  mk (threshold cb) (timeout cb) n (last_failure_time cb) (state cb).

Definition with_last_failure_time (x : Time) (cb : t) : t :=
  mk (threshold cb) (timeout cb) (failures cb) x (state cb).

(** The first critical section of `call`: an OPEN breaker either moves
    to HALF_OPEN (the timeout has passed) or raises. *)
Definition enter_call (now : Time) (cb : t) : Result t :=
  match state cb with
  | OPEN =>
      if time_gt (fsub now (last_failure_time cb)) (inject_Z (timeout cb))
      then Ok (with_state HALF_OPEN cb)
      else Raise CircuitBreakerOpenError
  | _ => Ok cb
  end.

(** The critical section after `fn()` returned. *)
Definition on_success (cb : t) : t :=
  match state cb with
  | HALF_OPEN => with_failures 0 (with_state CLOSED cb)
  | _ => cb
  end.

(** The critical section of the `except Exception` handler. *)
Definition on_failure (now : Time) (cb : t) : t :=
  let cb1 := with_last_failure_time now (with_failures (failures cb + 1) cb) in
  if threshold cb1 <=? failures cb1 then with_state OPEN cb1 else cb1.

(** `call(fn)`. The operation works on a world [W] (for the facade:
    the backend and the clock); `time_time` reads the clock of a
    world, so an operation that takes time is seen by the handler. *)
Definition call {W A : Type} (time_time : W -> Time)
    (fn : W -> Result A * W) (cb : t) (w : W) : Result A * t * W :=
  match enter_call (time_time w) cb with
  | Raise e => (Raise e, cb, w)
  | Ok cb1 =>
      match fn w with
      | (Ok result, w') => (Ok result, on_success cb1, w')
      | (Raise e, w') => (Raise e, on_failure (time_time w') cb1, w')
      end
  end.

(** `reset` *)
Definition reset (cb : t) : t := with_failures 0 (with_state CLOSED cb).

(** `get_state` *)
Definition get_state (cb : t) : State := state cb.

(** What every breaker built by `__init__` and driven through `call`
    and `reset` satisfies: the circuit is only ever away from CLOSED
    with the failure count at the threshold or above. *)
Definition tripped_only_at_threshold (cb : t) : Prop :=
  state cb <> CLOSED -> threshold cb <= failures cb.

End CircuitBreaker.

(** ** Strings and bytes as the code uses them *)

Definition bytes := list byte.

Definition len_bytes (b : bytes) : Z := Z.of_nat (length b).

(** `str.lower()` on code points below 256: the ASCII capitals and the
    Latin-1 capitals (U+00C0..U+00DE without the multiplication sign). *)
Definition lower_char (c : ascii) : ascii :=
  let n := N_of_ascii c in
  if ((65 <=? n) && (n <=? 90) ||
      (192 <=? n) && (n <=? 222) && negb (n =? 215))%N
  then ascii_of_N (n + 32) else c.

Fixpoint str_lower (s : string) : string :=
  match s with
  | EmptyString => EmptyString
  | String c s' => String (lower_char c) (str_lower s')
  end.

(** `s.startswith(p)` *)
Definition startswith (s p : string) : bool := String.prefix p s.

(** Truth value of a `str` and of a `bytes`. *)
Definition str_truthy (s : string) : bool :=
  match s with EmptyString => false | _ => true end.

Definition bytes_truthy (b : bytes) : bool :=
  match b with [] => false | _ => true end.

(** `sep.join(parts)` *)
Definition join (sep : string) (parts : list string) : string :=
  String.concat sep parts.

(** Python dictionaries from header names to values, in insertion
    order; a name occurs once. *)
Definition Dict := list (string * string).

(** `d[k] += ", " + v` when the name is there, `d[k] = v` otherwise. *)
Fixpoint dict_merge (d : Dict) (k v : string) : Dict :=
  match d with
  | [] => [(k, v)]
  | (k', v') :: d' =>
      if String.eqb k' k then (k', v' +:+ ", " +:+ v) :: d'
      else (k', v') :: dict_merge d' k v
  end.

(** `d.pop(k, None)` *)
Fixpoint dict_pop (d : Dict) (k : string) : Dict :=
  match d with
  | [] => []
  | (k', v') :: d' =>
      if String.eqb k' k then d' else (k', v') :: dict_pop d' k
  end.

(** `d.get(k)` *)
Fixpoint dict_get (d : Dict) (k : string) : option string :=
  match d with
  | [] => None
  | (k', v') :: d' => if String.eqb k' k then Some v' else dict_get d' k
  end.

(** ** httpx.Headers and httpx.Response, as far as the cache reads them *)

(** The header list of a message, in arrival order, names as received. *)
Definition Headers := list (string * string).

Definition header_is (key : string) (kv : string * string) : bool :=
  String.eqb (str_lower (fst kv)) (str_lower key).

(** All values carried under a name, compared without case. *)
Definition header_values (h : Headers) (key : string) : list string :=
  map snd (List.filter (header_is key) h).

(** `headers.get(key, default)`: the values under the name joined by a
    comma and a space, or the default when there is none. *)
Definition Headers_get (h : Headers) (key default : string) : string :=
  match header_values h key with
  | [] => default
  | vs => join ", " vs
  end.

Record Response : Type := mkResponse {
  status_code : Z;
  headers : Headers;
  content : bytes;
  url : string;
  http_version : string;
  reason_phrase : string;
  encoding : option string
}.

(** ** cache.py: CacheConfig *)

(** The `headers` keyword of a request: a plain dictionary, whose `get`
    compares names as they are, or an `httpx.Headers`. *)
Inductive RequestHeaders : Type :=
| DictHeaders (d : Dict)
| HttpxHeaders (h : Headers).

(** A caller-supplied fingerprint function. Python passes it the
    configuration as a fifth argument; a configuration is fixed for the
    life of a facade, so the value kept here is the callable with that
    argument already given. *)
Definition KeyBuilder : Type :=
  string -> string -> option bytes -> option RequestHeaders -> string.

(** The dataclass. [S] is the type of `cacheable_status_codes`: an
    optional set as the constructor receives it, a set once
    `__post_init__` has run. *)
Record CacheConfigOf (S : Type) : Type := mkCacheConfig {
  namespace : string;
  ttl_seconds : Z;
  max_bytes : Z;
  vary_user_agent : bool;
  vary_cookies : bool;
  enable_logging : bool;
  cache_by_default : bool;
  cache_version : string;
  cache_patterns : list string;
  exclude_patterns : list string;
  enable_request_deduplication : bool;
  deduplication_timeout_seconds : Z;
  stale_while_revalidate_seconds : Z;
  serve_stale_on_error : bool;
  max_stale_age_seconds : Z;
  respect_cache_headers : bool;
  min_ttl : Z;
  max_ttl : Z;
  enable_circuit_breaker : bool;
  circuit_breaker_threshold : Z;
  circuit_breaker_timeout : Z;
  key_builder : option KeyBuilder;
  compression : string;
  cacheable_status_codes : S
}.
Arguments mkCacheConfig {S}.
Arguments namespace {S}.
Arguments ttl_seconds {S}.
Arguments max_bytes {S}.
Arguments vary_user_agent {S}.
Arguments vary_cookies {S}.
Arguments enable_logging {S}.
Arguments cache_by_default {S}.
Arguments cache_version {S}.
Arguments cache_patterns {S}.
Arguments exclude_patterns {S}.
Arguments enable_request_deduplication {S}.
Arguments deduplication_timeout_seconds {S}.
Arguments stale_while_revalidate_seconds {S}.
Arguments serve_stale_on_error {S}.
Arguments max_stale_age_seconds {S}.
Arguments respect_cache_headers {S}.
Arguments min_ttl {S}.
Arguments max_ttl {S}.
Arguments enable_circuit_breaker {S}.
Arguments circuit_breaker_threshold {S}.
Arguments circuit_breaker_timeout {S}.
Arguments key_builder {S}.
Arguments compression {S}.
Arguments cacheable_status_codes {S}.

(** What the generated `__init__` has stored when `__post_init__` starts. *)
Definition CacheConfigInit : Type := CacheConfigOf (option (gset Z)).

(** A constructed configuration. *)
Definition CacheConfig : Type := CacheConfigOf (gset Z).

Definition with_status_codes {S T} (codes : T) (c : CacheConfigOf S)
  : CacheConfigOf T :=
  mkCacheConfig (namespace c) (ttl_seconds c) (max_bytes c)
    (vary_user_agent c) (vary_cookies c) (enable_logging c)
    (cache_by_default c) (cache_version c) (cache_patterns c)
    (exclude_patterns c) (enable_request_deduplication c)
    (deduplication_timeout_seconds c) (stale_while_revalidate_seconds c)
    (serve_stale_on_error c) (max_stale_age_seconds c)
    (respect_cache_headers c) (min_ttl c) (max_ttl c)
    (enable_circuit_breaker c) (circuit_breaker_threshold c)
    (circuit_breaker_timeout c) (key_builder c) (compression c) codes.

(** `set(range(200, 300))` *)
Definition default_status_codes : gset Z := list_to_set (seqZ 200 100).

(** The keys of `serializers.COMPRESSORS`. *)
Definition COMPRESSORS_keys : list string := ["gzip"; "lz4"; "zstd"; "none"]%string.

Definition in_COMPRESSORS (name : string) : bool :=
  existsb (String.eqb name) COMPRESSORS_keys.

(** `CacheConfig.__post_init__`: fill in the default status codes, then
    the checks in the order of the source; the first that fails raises
    `ValueError`. *)
Definition __post_init__ (self : CacheConfigInit) : Result CacheConfig :=
  let codes := match cacheable_status_codes self with
               | None => default_status_codes
               | Some s => s
               end in
  if ttl_seconds self <? 0 then
    Raise (ValueError ("ttl_seconds must be >= 0, got " +:+ pretty (ttl_seconds self)))
  else if max_bytes self <? 0 then
    Raise (ValueError ("max_bytes must be >= 0, got " +:+ pretty (max_bytes self)))
  else if negb (in_COMPRESSORS (compression self)) then
    Raise (ValueError ("Invalid compression '" +:+ compression self +:+
                       "'. Valid options: " +:+ join ", " COMPRESSORS_keys))
  else if (min_ttl self <? 0) || (max_ttl self <? 0) then
    Raise (ValueError "min_ttl and max_ttl must be >= 0")
  else if max_ttl self <? min_ttl self then
    Raise (ValueError ("min_ttl (" +:+ pretty (min_ttl self) +:+
                       ") cannot be greater than max_ttl (" +:+
                       pretty (max_ttl self) +:+ ")"))
  else if circuit_breaker_threshold self <? 1 then
    Raise (ValueError "circuit_breaker_threshold must be >= 1")
  else if deduplication_timeout_seconds self <? 1 then
    Raise (ValueError "deduplication_timeout_seconds must be >= 1")
  else Ok (with_status_codes codes self).

(** The field defaults of the dataclass with an empty environment. *)
Definition CacheConfig_defaults : CacheConfigInit :=
  mkCacheConfig "default" 86400 (2 * 1024 * 1024) false false false true
    "v1" [] [] true 10 0 false 86400 false 60 (86400 * 7) true 5 30
    None "gzip" None.

(** ** cache.py: the cacheability predicate *)

Definition _is_cacheable (resp : Response) (config : CacheConfig) : bool :=
  if negb (bool_decide (status_code resp ∈ cacheable_status_codes config))
  then false
  else if status_code resp =? 204 then false
  else
    let ctype := str_lower (Headers_get (headers resp) "content-type" EmptyString) in
    if str_truthy ctype &&
       negb (startswith ctype "text/" ||
             startswith ctype "application/json" ||
             startswith ctype "application/xhtml")
    then false
    else if max_bytes config <? len_bytes (content resp) then false
    else true.

(** ** httpx *)

(** httpx, as far as the package uses it: the parts of a parsed URL, the
    parameters `QueryParams` reads out of a query string, the body a
    request built from `data=` or `json=` sends, and what a response
    built by `httpx.Response(...)` reports of itself: the reason phrase
    of its status code (`codes.get_reason_phrase`) and the charset its
    content-type header names (`Response.charset_encoding`). The calls
    are taken on arguments they accept: a URL `httpx.URL` rejects is
    outside the model. *)
Record URL : Type := mkURL {
  scheme : string;
  host : string;
  path : string;
  query : string
}.

Class Httpx : Type := {
  (** the type of a `data=` or `json=` argument *)
  Data : Type;
  (** `httpx.URL(url)` *)
  URL_parse : string -> URL;
  (** `httpx.QueryParams(query).multi_items()` *)
  QueryParams_multi_items : string -> list (string * string);
  (** `httpx.Request(method, url, headers=, data=, json=).read()` *)
  Request_read :
    string -> string -> option RequestHeaders -> option Data -> option Data -> bytes;
  (** `httpx.codes.get_reason_phrase(status_code)` *)
  get_reason_phrase : Z -> string;
  (** `Response.charset_encoding` for the headers of a response *)
  charset_encoding : Headers -> option string
}.

(** ** serializers.py *)

(** The compression libraries. gzip is part of the standard library;
    lz4 and zstandard are optional imports, [HAS_LZ4] and [HAS_ZSTD]
    record whether the import succeeded. Decompression of bytes a codec
    did not produce may raise. *)
Class Codecs : Type := {
  gzip_write : bytes -> bytes;
  gzip_read : bytes -> Result bytes;
  HAS_LZ4 : bool;
  lz4_frame_compress : bytes -> bytes;
  lz4_frame_decompress : bytes -> Result bytes;
  HAS_ZSTD : bool;
  zstd_compress : bytes -> bytes;
  zstd_decompress : bytes -> Result bytes
}.

(** The contract of the three libraries: what one compresses it reads
    back. *)
Class CodecsLawful (C : Codecs) : Prop := {
  gzip_read_write : forall b, gzip_read (gzip_write b) = Ok b;
  lz4_decompress_compress :
    forall b, lz4_frame_decompress (lz4_frame_compress b) = Ok b;
  zstd_decompress_compress :
    forall b, zstd_decompress (zstd_compress b) = Ok b
}.

(** The map `serialize_response` packs and `deserialize_response`
    unpacks. A field is optional because a stored map (a legacy entry,
    one written by another version) may lack it; fields the reader does
    not know are not represented. *)
Record Payload : Type := mkPayload {
  p_status : option Z;
  p_url : option string;
  p_http_version : option string;
  p_reason : option string;
  p_headers : option (list (string * string));
  p_encoding : option string;
  p_cached_at : option Time;
  p_compression : option string;
  p_body_compressed : option bytes;
  p_body_gzip : option bytes
}.

(** A stored byte string, seen through msgpack: `unpackb` either reads a
    map out of it, and `packb` of that map is the byte string, or it
    rejects the bytes. *)
Inductive Blob : Type :=
| Packed (payload : Payload)
| Unreadable (raw : bytes).

(** msgpack, as the serializer uses it. [packed_len] is the length of
    `packb(payload)`; an encoded map has at least its header byte. *)
Class Msgpack : Type := {
  packed_len : Payload -> Z
}.

Definition packb (payload : Payload) : Blob := Packed payload.

Definition unpackb (data : Blob) : Result Payload :=
  match data with
  | Packed payload => Ok payload
  | Unreadable _ => Raise (OtherError "msgpack.exceptions.UnpackException")
  end.

(** `len(blob)` and the truth value of a blob. *)
Definition len_blob `{Msgpack} (data : Blob) : Z :=
  match data with
  | Packed payload => packed_len payload
  | Unreadable raw => len_bytes raw
  end.

Definition blob_truthy (data : Blob) : bool :=
  match data with
  | Packed _ => true
  | Unreadable raw => bytes_truthy raw
  end.

(** `headers.items()`: one entry per lower-cased name, repeated values
    joined. *)
Definition Headers_items_from (acc : Dict) (h : Headers) : Dict :=
  fold_left (fun d kv => dict_merge d (str_lower (fst kv)) (snd kv)) h acc.

Definition Headers_items (h : Headers) : Dict := Headers_items_from [] h.

Section Serializers.
Context `{Httpx} `{Codecs}.

Definition _gzip_compress (data : bytes) : Result bytes :=
  Ok (gzip_write data).

Definition _gzip_decompress (data : bytes) : Result bytes :=
  gzip_read data.

Definition _lz4_compress (data : bytes) : Result bytes :=
  if negb HAS_LZ4 then Raise (ImportError "lz4 not installed")
  else Ok (lz4_frame_compress data).

Definition _lz4_decompress (data : bytes) : Result bytes :=
  if negb HAS_LZ4 then Raise (ImportError "lz4 not installed")
  else lz4_frame_decompress data.

Definition _zstd_compress (data : bytes) : Result bytes :=
  if negb HAS_ZSTD then Raise (ImportError "zstandard not installed")
  else Ok (zstd_compress data).

Definition _zstd_decompress (data : bytes) : Result bytes :=
  if negb HAS_ZSTD then Raise (ImportError "zstandard not installed")
  else zstd_decompress data.

(** `COMPRESSORS.get(compression, COMPRESSORS["gzip"])`: the pair of
    functions under a tag, gzip's for a tag that is no key. *)
Definition COMPRESSORS_get (compression : string)
  : (bytes -> Result bytes) * (bytes -> Result bytes) :=
  if String.eqb compression "gzip" then (_gzip_compress, _gzip_decompress)
  else if String.eqb compression "lz4" then (_lz4_compress, _lz4_decompress)
  else if String.eqb compression "zstd" then (_zstd_compress, _zstd_decompress)
  else if String.eqb compression "none" then (Ok, Ok)
  else (_gzip_compress, _gzip_decompress).

(** `serialize_response(resp, compression)`, called when the clock
    reads [now]. *)
Definition serialize_response (now : Time) (resp : Response)
    (compression : string) : Result Blob :=
  let headers0 := Headers_items (headers resp) in
  let headers1 := dict_pop headers0 "content-encoding" in
  let headers2 := dict_pop headers1 "content-length" in
  let compress_fn := fst (COMPRESSORS_get compression) in
  match compress_fn (content resp) with
  | Raise e => Raise e
  | Ok body_compressed =>
      Ok (packb {|
        p_status := Some (status_code resp);
        p_url := Some (url resp);
        p_http_version := Some (http_version resp);
        p_reason := Some (reason_phrase resp);
        p_headers := Some headers2;
        p_encoding := encoding resp;
        p_cached_at := Some now;
        p_compression := Some compression;
        p_body_compressed := Some body_compressed;
        p_body_gzip := None |})
  end.

(** The body of a payload: the new format first, the legacy field
    otherwise. *)
Definition payload_body (payload : Payload) : Result bytes :=
  match p_body_compressed payload with
  | Some body_compressed =>
      let compression := default "gzip"%string (p_compression payload) in
      snd (COMPRESSORS_get compression) body_compressed
  | None =>
      match p_body_gzip payload with
      | Some body_gzip => _gzip_decompress body_gzip
      | None => Raise (KeyError "body_gzip")
      end
  end.

(** The headers of `httpx.Response(headers=stored, content=body)`: for
    a body that is not empty httpx sets `Content-Length` to its length
    unless the stored headers carry one (`setdefault`). *)
Definition response_headers (stored : Headers) (body : bytes) : Headers :=
  if bytes_truthy body then
    match header_values stored "content-length" with
    | [] => stored ++ [("Content-Length"%string, pretty (len_bytes body))]
    | _ => stored
    end
  else stored.

(** `Response.encoding` of a response whose encoding has not been set:
    the charset of the content type, else `utf-8`. *)
Definition default_encoding (h : Headers) : string :=
  match charset_encoding h with
  | Some c => if str_truthy c then c else "utf-8"%string
  | None => "utf-8"%string
  end.

(** `deserialize_response(data)`: the response and `cached_at`. The
    response is the one `httpx.Response(status_code, request=, headers=,
    content=)` builds: the stored headers with the content length httpx
    adds, version HTTP/1.1, the reason phrase of httpx's status table,
    and the stored encoding when there is one. *)
Definition deserialize_response (data : Blob) : Result (Response * Time) :=
  match unpackb data with
  | Raise e => Raise e
  | Ok payload =>
      match payload_body payload with
      | Raise e => Raise e
      | Ok body =>
          match p_url payload with
          | None => Raise (KeyError "url")
          | Some u =>
              match p_status payload with
              | None => Raise (KeyError "status")
              | Some st =>
                  let headers1 :=
                    response_headers (default [] (p_headers payload)) body in
                  let response := {|
                    status_code := st;
                    headers := headers1;
                    content := body;
                    url := u;
                    http_version := "HTTP/1.1";
                    reason_phrase := get_reason_phrase st;
                    encoding :=
                      match p_encoding payload with
                      | Some e =>
                          if str_truthy e then Some e
                          else Some (default_encoding headers1)
                      | None => Some (default_encoding headers1)
                      end |} in
                  Ok (response, default 0%Q (p_cached_at payload))
              end
          end
      end
  end.

End Serializers.

(** ** cache.py: the fingerprint *)

(** hashlib *)
Class Hashlib : Type := {
  sha256_hexdigest : bytes -> string
}.

(** *** Order of `str` and of pairs of `str` *)

Fixpoint str_leb (a b : string) : bool :=
  match a, b with
  | EmptyString, _ => true
  | String _ _, EmptyString => false
  | String x a', String y b' =>
      if (N_of_ascii x <? N_of_ascii y)%N then true
      else if (N_of_ascii x =? N_of_ascii y)%N then str_leb a' b'
      else false
  end.

(** `a <= b` on 2-tuples: the first components decide unless equal. *)
Definition pair_leb (a b : string * string) : bool :=
  if String.eqb (fst a) (fst b) then str_leb (snd a) (snd b)
  else str_leb (fst a) (fst b).

Definition pair_le (a b : string * string) : Prop := pair_leb a b = true.

#[global] Instance pair_le_dec a b : Decision (pair_le a b).
Proof. unfold pair_le. apply _. Defined.

(** `sorted(items)` *)
Definition sorted (items : list (string * string)) : list (string * string) :=
  merge_sort pair_le items.

(** *** `json.dumps` of a list of pairs of strings *)

(** The double quote, as a one-character string. *)
Definition dquote : string := String (ascii_of_N 34) EmptyString.

Definition hex_digit (n : N) : ascii :=
  if (n <? 10)%N then ascii_of_N (48 + n) else ascii_of_N (87 + n).

(** One character of a string, with `ensure_ascii`: printable ASCII
    stands for itself, the quote, the backslash and five control
    characters have short escapes, anything else is `\u00xx`. *)
Definition json_char (c : ascii) : string :=
  let n := N_of_ascii c in
  if (n =? 34)%N then "\" +:+ dquote
  else if (n =? 92)%N then "\\"
  else if (n =? 10)%N then "\n"
  else if (n =? 13)%N then "\r"
  else if (n =? 9)%N then "\t"
  else if (n =? 8)%N then "\b"
  else if (n =? 12)%N then "\f"
  else if ((32 <=? n) && (n <=? 126))%N then String c EmptyString
  else "\u00" +:+ String (hex_digit (n / 16)) (String (hex_digit (n mod 16)) EmptyString).

Fixpoint json_chars (s : string) : string :=
  match s with
  | EmptyString => EmptyString
  | String c s' => json_char c +:+ json_chars s'
  end.

Definition json_str (s : string) : string := dquote +:+ json_chars s +:+ dquote.

(** `["name","value"]` *)
Definition json_pair (kv : string * string) : string :=
  "[" +:+ json_str (fst kv) +:+ "," +:+ json_str (snd kv) +:+ "]".

(** `json.dumps(items, separators=(",", ":"))` for a list of 2-tuples. *)
Definition json_dumps (items : list (string * string)) : string :=
  "[" +:+ join "," (map json_pair items) +:+ "]".

Definition method_has_body (method : string) : bool :=
  String.eqb method "POST" || String.eqb method "PUT" || String.eqb method "PATCH".

Section Fingerprint.
Context `{Httpx} `{Hashlib}.

Definition _hash_bytes (data : option bytes) : string :=
  match data with
  | None => EmptyString
  | Some b => if bytes_truthy b then sha256_hexdigest b else EmptyString
  end.

Definition _sorted_query (u : URL) : string :=
  if negb (str_truthy (query u)) then EmptyString
  else json_dumps (sorted (QueryParams_multi_items (query u))).

(** `h_get(name, empty) or empty` for either kind of `headers` argument. *)
Definition h_get (hs : RequestHeaders) (name : string) : string :=
  match hs with
  | DictHeaders d => default EmptyString (dict_get d name)
  | HttpxHeaders h => Headers_get h name EmptyString
  end.

(** Truth value of the `headers` argument: `None` and the empty
    mapping are false. *)
Definition headers_truthy (hs : option RequestHeaders) : bool :=
  match hs with
  | None => false
  | Some (DictHeaders d) => match d with [] => false | _ => true end
  | Some (HttpxHeaders h) => match h with [] => false | _ => true end
  end.

Definition _build_key {S} (method url : string) (content : option bytes)
    (hs : option RequestHeaders) (cfg : CacheConfigOf S) : string :=
  let u := URL_parse url in
  let normalized := scheme u +:+ "://" +:+ host u +:+ path u in
  let q := _sorted_query u in
  let body_hash :=
    if method_has_body method &&
       match content with Some b => bytes_truthy b | None => false end
    then _hash_bytes content else EmptyString in
  let ua :=
    match hs with
    | Some h =>
        if headers_truthy hs && vary_user_agent cfg
        then h_get h "user-agent" else EmptyString
    | None => EmptyString
    end in
  let ck :=
    match hs with
    | Some h =>
        if headers_truthy hs && vary_cookies cfg
        then h_get h "cookie" else EmptyString
    | None => EmptyString
    end in
  let parts := [
    "ver:" +:+ cache_version cfg;
    "ns:" +:+ namespace cfg;
    "m:" +:+ method;
    "u:" +:+ normalized;
    "q:" +:+ q;
    "b:" +:+ body_hash;
    "ua:" +:+ ua;
    "ck:" +:+ ck ]%string in
  join "|" parts.

End Fingerprint.

(** ** stats.py *)

Module CacheStats.

Record t : Type := mk {
  hits : Z;
  misses : Z;
  errors : Z;
  writes : Z;
  bytes_saved : Z;
  bytes_written : Z;
  total_requests : Z
}.

Definition init : t := mk 0 0 0 0 0 0 0.

Definition increment_hit (saved : Z) (s : t) : t :=
  mk (hits s + 1) (misses s) (errors s) (writes s)
     (bytes_saved s + saved) (bytes_written s) (total_requests s + 1).

Definition increment_miss (s : t) : t :=
  mk (hits s) (misses s + 1) (errors s) (writes s)
     (bytes_saved s) (bytes_written s) (total_requests s + 1).

Definition increment_error (s : t) : t :=
  mk (hits s) (misses s) (errors s + 1) (writes s)
     (bytes_saved s) (bytes_written s) (total_requests s).

Definition increment_write (written : Z) (s : t) : t :=
  mk (hits s) (misses s) (errors s) (writes s + 1)
     (bytes_saved s) (bytes_written s + written) (total_requests s).

End CacheStats.

(** ** patterns.py *)

(** `re.compile(fnmatch.translate(pattern)).match(url)` *)
Class Fnmatch : Type := {
  fnmatch_match : string -> string -> bool
}.

Module URLMatcher.

Record t : Type := mk {
  include_patterns : list string;
  exclude_patterns : list string
}.

Definition should_cache `{Fnmatch} (self : t) (url : string) : bool :=
  if existsb (fun p => fnmatch_match p url) (exclude_patterns self) then false
  else
    match include_patterns self with
    | [] => true
    | ps => existsb (fun p => fnmatch_match p url) ps
    end.

End URLMatcher.

(** ** backends/base.py and backends/memory.py *)

(** The `CacheBackend` protocol over a backend state [B]. An
    implementation may raise from any method; `set` is told the clock
    reading because the memory backend stores an expiry time. *)
Class CacheBackend (B : Type) : Type := {
  backend_get : string -> B -> Result (option Blob) * B;
  backend_set : string -> Blob -> Z -> Time -> B -> Result unit * B;
  backend_delete : string -> B -> Result unit * B
}.

Module MemoryCacheBackend.

(** `self._data`: key to (value, expiry timestamp). *)
Abbreviation t := (gmap string (Blob * Time)).

Definition init : t := ∅.

(** `get` returns the value whether or not it has expired. *)
Definition get (key : string) (self : t) : option Blob :=
  match self !! key with
  | Some (value, expires_at) => Some value
  | None => None
  end.

(** `time.time() >= expires_at`, the reading [now] taken as the double
    `time.time()` returns. *)
Definition is_expired (now : Time) (key : string) (self : t) : bool :=
  match self !! key with
  | Some (_, expires_at) => time_le expires_at (fl64 now)
  | None => true
  end.

Definition set (key : string) (value : Blob) (ttl_seconds : Z)
    (now : Time) (self : t) : t :=
  <[key := (value, fadd now ttl_seconds)]> self.

Definition delete (key : string) (self : t) : t := base.delete key self.

Definition clear (self : t) : t := ∅.

End MemoryCacheBackend.

#[global] Instance MemoryCacheBackend_backend
  : CacheBackend (gmap string (Blob * Time)) := {
  backend_get key self := (Ok (MemoryCacheBackend.get key self), self);
  backend_set key value ttl now self :=
    (Ok tt, MemoryCacheBackend.set key value ttl now self);
  backend_delete key self := (Ok tt, MemoryCacheBackend.delete key self)
}.

(** ** deduplication.py, one caller at a time *)

Module RequestDeduplicator.

(** The three tables. An event carries no data of its own here: a key
    of `_in_flight` is a fetch somebody has announced and not finished.
    [timers] lists the keys whose 50 ms cleanup timer has been started
    and has not fired yet. *)
Record t (R : Type) : Type := mk {
  _in_flight : gset string;
  _results : gmap string R;
  _errors : gmap string (option Exn);
  _timeout : Z;
  timers : list string
}.
Arguments mk {R}.
Arguments _in_flight {R}.
Arguments _results {R}.
Arguments _errors {R}.
Arguments _timeout {R}.
Arguments timers {R}.

Definition init {R} (timeout_seconds : Z) : t R :=
  mk ∅ ∅ ∅ timeout_seconds [].

(** `_cleanup(key)`, the body of the timer. *)
Definition _cleanup {R} (key : string) (self : t R) : t R :=
  mk (_in_flight self) (base.delete key (_results self))
     (base.delete key (_errors self)) (_timeout self) (timers self).

(** The fetcher's bookkeeping once `fetch_fn()` has returned or
    raised, the `finally` clause included. *)
Definition finish {R} (key : string) (outcome : Result R) (self : t R) : t R :=
  match outcome with
  | Ok result =>
      mk (_in_flight self ∖ {[key]}) (<[key := result]> (_results self))
         (<[key := None]> (_errors self)) (_timeout self)
         (timers self ++ [key])
  | Raise e =>
      mk (_in_flight self ∖ {[key]}) (_results self)
         (<[key := Some e]> (_errors self)) (_timeout self)
         (timers self ++ [key])
  end.

(** What a caller that found the key in flight does after its wait:
    the recorded error, the recorded result, or its own fetch. *)
Inductive Woken (R : Type) : Type :=
| RaiseRecorded (e : Exn)
| ReturnRecorded (r : R)
| FetchOurselves.
Arguments RaiseRecorded {R} e.
Arguments ReturnRecorded {R} r.
Arguments FetchOurselves {R}.

Definition after_wait {R} (key : string) (self : t R) : Woken R :=
  match _errors self !! key with
  | Some (Some e) => RaiseRecorded e
  | _ =>
      match _results self !! key with
      | Some r => ReturnRecorded r
      | None => FetchOurselves
      end
  end.

(** `get_or_fetch(key, fetch_fn)` run by a single thread: nobody else
    touches the tables while it runs, so a caller that finds the key in
    flight sees its wait time out and the tables as they were.
    `fetch_fn` works on a world [W]. *)
Definition get_or_fetch {R W} (key : string) (fetch_fn : W -> Result R * W)
    (self : t R) (w : W) : Result R * t R * W :=
  if bool_decide (key ∈ _in_flight self) then
    match after_wait key self with
    | RaiseRecorded e => (Raise e, self, w)
    | ReturnRecorded r => (Ok r, self, w)
    | FetchOurselves => let '(r, w') := fetch_fn w in (r, self, w')
    end
  else
    let self1 :=
      mk (_in_flight self ∪ {[key]}) (_results self) (_errors self)
         (_timeout self) (timers self) in
    let '(r, w') := fetch_fn w in
    (r, finish key r self1, w').

End RequestDeduplicator.


(** ** cache.py: adaptive TTL *)

(** `s.upper()` on ASCII method names. *)
Definition upper_char (c : ascii) : ascii :=
  let n := N_of_ascii c in
  if ((97 <=? n) && (n <=? 122))%N then ascii_of_N (n - 32) else c.

Fixpoint str_upper (s : string) : string :=
  match s with
  | EmptyString => EmptyString
  | String c s' => String (upper_char c) (str_upper s')
  end.

(** `needle in s` *)
Definition str_contains (needle s : string) : bool :=
  match String.index 0 needle s with Some _ => true | None => false end.

(** The two header parsers `_calculate_adaptive_ttl` relies on:
    `int(re.search(r"max-age=(\d+)", s).group(1))`, with [None] for no
    match, and `int((parsedate_to_datetime(s) - now).total_seconds())`,
    which raises on a date it cannot read. *)
Class HeaderParsers : Type := {
  re_search_max_age : string -> option Z;
  expires_in : string -> Time -> Result Z
}.

Definition clamp_ttl (ttl min_ttl max_ttl : Z) : Z :=
  Z.max min_ttl (Z.min ttl max_ttl).

Definition _calculate_adaptive_ttl `{HeaderParsers} (now : Time)
    (resp : Response) (default_ttl min_ttl max_ttl : Z) : Z :=
  let cache_control := Headers_get (headers resp) "cache-control" EmptyString in
  let from_expires :=
    match header_values (headers resp) "expires" with
    | [] => default_ttl
    | vs =>
        let expires := join ", " vs in
        if str_truthy expires then
          match expires_in expires now with
          | Ok ttl => clamp_ttl ttl min_ttl max_ttl
          | Raise _ => default_ttl
          end
        else default_ttl
    end in
  if str_contains "max-age=" cache_control then
    match re_search_max_age cache_control with
    | Some ttl => clamp_ttl ttl min_ttl max_ttl
    | None => from_expires
    end
  else from_expires.

(** ** cache.py: the facade *)

(** The keyword arguments of a request the cache looks at. For `data`
    and `json` the outer option says whether the keyword was given, the
    inner one whether its value is `None`. *)
Record Kwargs `{Httpx} : Type := mkKwargs {
  kw_content : option bytes;
  kw_data : option (option Data);
  kw_json : option (option Data);
  kw_headers : option RequestHeaders
}.
Arguments mkKwargs {_} _ _ _ _.

(** The wrapped client over its state [I]: `inner.request(method, url,
    **kwargs)` called when the clock reads the given time; it returns or
    raises, and the clock reads the returned time afterwards. *)
Class HttpClient `{Httpx} (I : Type) : Type := {
  inner_request :
    string -> string -> Kwargs -> Time -> I -> Result Response * I * Time
}.

(** A thread started for `_background_refresh`, with its arguments. *)
Record RefreshTask `{Httpx} : Type := mkRefreshTask {
  task_method : string;
  task_url : string;
  task_key : string;
  task_kwargs : Kwargs
}.
Arguments mkRefreshTask {_} _ _ _ _.

Section Facade.
Context `{Httpx} `{Hashlib} `{Codecs} `{Msgpack} `{Fnmatch} `{HeaderParsers}.
Context {B I : Type} `{CacheBackend B} `{!HttpClient I}.

(** A `CachedSgRequests` object with what it acts on: the clock, the
    calls the wrapped client has received (method and URL, oldest
    first) and the refresh threads started so far. *)
Record CachedSgRequests : Type := mkFacade {
  inner : I;
  backend : B;
  config : CacheConfig;
  stats : CacheStats.t;
  url_matcher : URLMatcher.t;
  deduplicator : option (RequestDeduplicator.t Response);
  circuit_breaker : option CircuitBreaker.t;
  clock : Time;
  upstream_calls : list (string * string);
  threads : list RefreshTask
}.

(** `CachedSgRequests.__init__` *)
Definition __init__ (inner0 : I) (backend0 : B) (cfg : CacheConfig)
    (now : Time) : CachedSgRequests :=
  {| inner := inner0;
     backend := backend0;
     config := cfg;
     stats := CacheStats.init;
     url_matcher := URLMatcher.mk (cache_patterns cfg) (exclude_patterns cfg);
     deduplicator :=
       if enable_request_deduplication cfg
       then Some (RequestDeduplicator.init (deduplication_timeout_seconds cfg))
       else None;
     circuit_breaker :=
       if enable_circuit_breaker cfg
       then Some (CircuitBreaker.init (circuit_breaker_threshold cfg)
                                      (circuit_breaker_timeout cfg))
       else None;
     clock := now;
     upstream_calls := [];
     threads := [] |}.

Definition with_backend (b : B) (s : CachedSgRequests) : CachedSgRequests :=
  mkFacade (inner s) b (config s) (stats s) (url_matcher s) (deduplicator s)
    (circuit_breaker s) (clock s) (upstream_calls s) (threads s).

Definition with_breaker (cb : option CircuitBreaker.t) (s : CachedSgRequests)
  : CachedSgRequests :=
  mkFacade (inner s) (backend s) (config s) (stats s) (url_matcher s)
    (deduplicator s) cb (clock s) (upstream_calls s) (threads s).

Definition with_stats (st : CacheStats.t) (s : CachedSgRequests)
  : CachedSgRequests :=
  mkFacade (inner s) (backend s) (config s) st (url_matcher s)
    (deduplicator s) (circuit_breaker s) (clock s) (upstream_calls s)
    (threads s).

Definition with_deduplicator (d : option (RequestDeduplicator.t Response))
    (s : CachedSgRequests) : CachedSgRequests :=
  mkFacade (inner s) (backend s) (config s) (stats s) (url_matcher s) d
    (circuit_breaker s) (clock s) (upstream_calls s) (threads s).

Definition with_thread (t : RefreshTask) (s : CachedSgRequests)
  : CachedSgRequests :=
  mkFacade (inner s) (backend s) (config s) (stats s) (url_matcher s)
    (deduplicator s) (circuit_breaker s) (clock s) (upstream_calls s)
    (threads s ++ [t]).

(** Time passes between two calls. *)
Definition with_clock (now : Time) (s : CachedSgRequests) : CachedSgRequests :=
  mkFacade (inner s) (backend s) (config s) (stats s) (url_matcher s)
    (deduplicator s) (circuit_breaker s) now (upstream_calls s) (threads s).

(** The wrapped client is replaced, as a test does with a mock. *)
Definition with_inner (i : I) (s : CachedSgRequests) : CachedSgRequests :=
  mkFacade i (backend s) (config s) (stats s) (url_matcher s)
    (deduplicator s) (circuit_breaker s) (clock s) (upstream_calls s)
    (threads s).

(** The wrapped client has been called: its new state, the clock after
    the call, one more entry in the log. *)
Definition after_upstream (method url : string) (i : I) (now : Time)
    (s : CachedSgRequests) : CachedSgRequests :=
  mkFacade i (backend s) (config s) (stats s) (url_matcher s)
    (deduplicator s) (circuit_breaker s) now
    (upstream_calls s ++ [(method, url)]) (threads s).

(** `_get_from_cache(key)` *)
Definition _get_from_cache (key : string) (self : CachedSgRequests)
  : Result (option Blob) * CachedSgRequests :=
  match circuit_breaker self with
  | Some cb =>
      let '(r, cb', b') :=
        CircuitBreaker.call (fun _ => clock self) (backend_get key) cb
          (backend self) in
      let self' := with_breaker (Some cb') (with_backend b' self) in
      match r with
      | Ok blob => (Ok blob, self')
      | Raise e =>
          if is_CircuitBreakerOpenError e then (Ok None, self')
          else (Raise e, self')
      end
  | None =>
      let '(r, b') := backend_get key (backend self) in
      (r, with_backend b' self)
  end.

(** `_set_to_cache(key, value, ttl)` *)
Definition _set_to_cache (key : string) (value : Blob) (ttl : Z)
    (self : CachedSgRequests) : Result unit * CachedSgRequests :=
  match circuit_breaker self with
  | Some cb =>
      let '(r, cb', b') :=
        CircuitBreaker.call (fun _ => clock self)
          (backend_set key value ttl (clock self)) cb (backend self) in
      let self' := with_breaker (Some cb') (with_backend b' self) in
      match r with
      | Ok _ => (Ok tt, self')
      | Raise e =>
          if is_CircuitBreakerOpenError e then (Ok tt, self')
          else (Raise e, self')
      end
  | None =>
      let '(r, b') := backend_set key value ttl (clock self) (backend self) in
      (r, with_backend b' self)
  end.

(** The body bytes that vary the key, as `request` and
    `_fetch_response` both compute them. *)
Definition content_for_key (method url : string) (kwargs : Kwargs)
  : option bytes :=
  if method_has_body method then
    match kw_content kwargs with
    | Some c =>
        if bytes_truthy c then Some c
        else
          match kw_data kwargs, kw_json kwargs with
          | None, None => None
          | d, j =>
              Some (Request_read method url (kw_headers kwargs)
                      (mjoin d) (mjoin j))
          end
    | None =>
        match kw_data kwargs, kw_json kwargs with
        | None, None => None
        | d, j =>
            Some (Request_read method url (kw_headers kwargs)
                    (mjoin d) (mjoin j))
        end
    end
  else None.


(** The key a request is cached under: the configured `key_builder`
    when there is one, the built-in fingerprint otherwise. *)
Definition request_key (method url : string) (kwargs : Kwargs)
    (self : CachedSgRequests) : string :=
  let content_bytes := content_for_key method url kwargs in
  match key_builder (config self) with
  | Some kb => kb method url content_bytes (kw_headers kwargs)
  | None =>
      _build_key method url content_bytes (kw_headers kwargs) (config self)
  end.

(** `_fetch_response(method, url, **kwargs)` *)
Definition _fetch_response (method url : string) (kwargs : Kwargs)
    (self : CachedSgRequests) : Result Response * CachedSgRequests :=
  let '(r, i', now') := inner_request method url kwargs (clock self) (inner self) in
  let self1 := after_upstream method url i' now' self in
  match r with
  | Ok resp => (Ok resp, self1)
  | Raise e =>
      if serve_stale_on_error (config self1) then
        let content_bytes := content_for_key method url kwargs in
        let key :=
          _build_key method url content_bytes (kw_headers kwargs)
            (config self1) in
        let '(g, b') := backend_get key (backend self1) in
        let self2 := with_backend b' self1 in
        match g with
        | Raise e' => (Raise e', self2)
        | Ok None => (Raise e, self2)
        | Ok (Some stale_blob) =>
            if blob_truthy stale_blob then
              match deserialize_response stale_blob with
              | Ok (resp, cached_at) =>
                  let age := fsub (clock self2) cached_at in
                  if time_le age (inject_Z (max_stale_age_seconds (config self2)))
                  then (Ok resp, self2)
                  else (Raise e, self2)
              | Raise _ => (Raise e, self2)
              end
            else (Raise e, self2)
        end
      else (Raise e, self1)
  end.

(** The TTL an entry is written with. *)
Definition write_ttl (resp : Response) (self : CachedSgRequests) : Z :=
  if respect_cache_headers (config self) then
    _calculate_adaptive_ttl (clock self) resp (ttl_seconds (config self))
      (min_ttl (config self)) (max_ttl (config self))
  else ttl_seconds (config self).

(** The "Write to cache" block of `request`. *)
Definition write_to_cache (cache_write : bool) (key : string)
    (resp : Response) (self : CachedSgRequests) : CachedSgRequests :=
  if cache_write && _is_cacheable resp (config self) then
    let ttl := write_ttl resp self in
    match serialize_response (clock self) resp (compression (config self)) with
    | Raise _ => with_stats (CacheStats.increment_error (stats self)) self
    | Ok blob =>
        match _set_to_cache key blob ttl self with
        | (Ok _, self1) =>
            with_stats (CacheStats.increment_write (len_blob blob) (stats self1)) self1
        | (Raise _, self1) =>
            with_stats (CacheStats.increment_error (stats self1)) self1
        end
    end
  else self.

(** How the "Try cache read" block of `request` ends. *)
Inductive ReadOutcome : Type :=
| FreshHit (resp : Response) (self : CachedSgRequests)
| StaleHit (resp : Response) (self : CachedSgRequests)
| Missed (self : CachedSgRequests)
| ReadRaised (e : Exn) (self : CachedSgRequests).

Definition record_hit (blob : Blob) (self : CachedSgRequests) : CachedSgRequests :=
  with_stats (CacheStats.increment_hit (len_blob blob) (stats self)) self.

(** The "Try cache read" block of `request`. *)
Definition read_from_cache (cache_read force_refresh : bool)
    (method url key : string) (kwargs : Kwargs) (self : CachedSgRequests)
  : ReadOutcome :=
  if cache_read && negb force_refresh then
    match _get_from_cache key self with
    | (Raise e, self1) => ReadRaised e self1
    | (Ok None, self1) => Missed self1
    | (Ok (Some blob), self1) =>
        if blob_truthy blob then
          match deserialize_response blob with
          | Ok (resp, cached_at) =>
              let age := fsub (clock self1) cached_at in
              let ttl := ttl_seconds (config self1) in
              let swr := stale_while_revalidate_seconds (config self1) in
              if time_le age (inject_Z ttl) then
                FreshHit resp (record_hit blob self1)
              else if (0 <? swr) && time_le age (inject_Z (ttl + swr)) then
                StaleHit resp
                  (with_thread (mkRefreshTask method url key kwargs)
                     (record_hit blob self1))
              else Missed self1
          | Raise _ =>
              let self2 :=
                with_stats (CacheStats.increment_error (stats self1)) self1 in
              match backend_delete key (backend self2) with
              | (Ok _, b') => Missed (with_backend b' self2)
              | (Raise e', b') => ReadRaised e' (with_backend b' self2)
              end
          end
        else Missed self1
    end
  else Missed self.

(** The fetch on a miss: through the deduplicator when there is one,
    caching is active and no refresh is forced; directly otherwise. *)
Definition fetch_on_miss (cache_read cache_write force_refresh : bool)
    (method url key : string) (kwargs : Kwargs) (self : CachedSgRequests)
  : Result Response * CachedSgRequests :=
  match deduplicator self with
  | Some d =>
      if (cache_read || cache_write) && negb force_refresh then
        let '(r, d', self1) :=
          RequestDeduplicator.get_or_fetch key
            (_fetch_response method url kwargs) d self in
        (r, with_deduplicator (Some d') self1)
      else _fetch_response method url kwargs self
  | None => _fetch_response method url kwargs self
  end.

(** The rest of `request` after the read block has found nothing to
    return: count the miss, fetch, write. *)
Definition fetch_and_store (cache_read cache_write force_refresh : bool)
    (method url key : string) (kwargs : Kwargs) (self : CachedSgRequests)
  : Result Response * CachedSgRequests :=
  let self1 := with_stats (CacheStats.increment_miss (stats self)) self in
  match fetch_on_miss cache_read cache_write force_refresh method url key
          kwargs self1 with
  | (Raise e, self2) => (Raise e, self2)
  | (Ok resp, self2) => (Ok resp, write_to_cache cache_write key resp self2)
  end.

(** `cache_read` and `cache_write` as `request` resolves them: the
    keyword, else `cache_by_default`, and never for a URL the patterns
    exclude. *)
Definition effective_flag (flag : option bool) (url : string)
    (self : CachedSgRequests) : bool :=
  default (cache_by_default (config self)) flag &&
  URLMatcher.should_cache (url_matcher self) url.

(** `request(method, url, cache_read=, cache_write=, force_refresh=,
    **kwargs)`. [None] for `cache_read` or `cache_write` is the keyword
    left out. *)
Definition request (method0 url : string) (cache_read0 cache_write0 : option bool)
    (force_refresh : bool) (kwargs : Kwargs) (self : CachedSgRequests)
  : Result Response * CachedSgRequests :=
  let method := str_upper method0 in
  let cache_read := effective_flag cache_read0 url self in
  let cache_write := effective_flag cache_write0 url self in
  let key := request_key method url kwargs self in
  match read_from_cache cache_read force_refresh method url key kwargs self with
  | FreshHit resp self1 => (Ok resp, self1)
  | StaleHit resp self1 => (Ok resp, self1)
  | ReadRaised e self1 => (Raise e, self1)
  | Missed self1 =>
      fetch_and_store cache_read cache_write force_refresh method url key
        kwargs self1
  end.

(** `_background_refresh(method, url, key, kwargs)`, the body of a
    refresh thread; nothing it raises leaves it. *)
Definition _background_refresh (task : RefreshTask) (self : CachedSgRequests)
  : CachedSgRequests :=
  match _fetch_response (task_method task) (task_url task) (task_kwargs task) self with
  | (Raise _, self1) => self1
  | (Ok resp, self1) =>
      if _is_cacheable resp (config self1) then
        let ttl := write_ttl resp self1 in
        match serialize_response (clock self1) resp (compression (config self1)) with
        | Raise _ => self1
        | Ok blob => snd (_set_to_cache (task_key task) blob ttl self1)
        end
      else self1
  end.

End Facade.

(** ** A concrete environment

    Instances of the library interfaces on which the model can be run:
    URLs of the plain shape `scheme://host/path?query` (no escapes,
    port, user or fragment), a query split at `&` and at the first `=`,
    codecs that store the bytes as they are, and the `DummyHttp` client
    of the test suite. *)

Module Plain.

(** The part of a string before the first [c] and, when [c] occurs, the
    part after it. *)
Fixpoint split_first (c : ascii) (s : string) : string * option string :=
  match s with
  | EmptyString => (EmptyString, None)
  | String x s' =>
      if Ascii.eqb x c then (EmptyString, Some s')
      else let '(a, b) := split_first c s' in (String x a, b)
  end.

(** `s.split(c)` *)
Fixpoint split_all (c : ascii) (s : string) : list string :=
  match s with
  | EmptyString => [EmptyString]
  | String x s' =>
      if Ascii.eqb x c then EmptyString :: split_all c s'
      else
        match split_all c s' with
        | [] => [String x EmptyString]
        | w :: ws => String x w :: ws
        end
  end.

(** The text up to the first `/` or `?`, and the rest. *)
Fixpoint split_host (s : string) : string * string :=
  match s with
  | EmptyString => (EmptyString, EmptyString)
  | String x s' =>
      if Ascii.eqb x "/" || Ascii.eqb x "?" then (EmptyString, s)
      else let '(a, b) := split_host s' in (String x a, b)
  end.

Definition skip_slashes (s : string) : string :=
  match s with
  | String "/" (String "/" s') => s'
  | _ => s
  end.

Definition parse (u : string) : URL :=
  let '(sch, rest) := split_first ":" u in
  let '(h, tail) := split_host (skip_slashes (default EmptyString rest)) in
  let '(p, q) := split_first "?" tail in
  mkURL sch h p (default EmptyString q).

Definition parse_pair (nv : string) : string * string :=
  let '(n, v) := split_first "=" nv in (n, default EmptyString v).

Definition multi_items (q : string) : list (string * string) :=
  map parse_pair (List.filter str_truthy (split_all "&" q)).

Definition bytes_of_string (s : string) : bytes :=
  map byte_of_ascii (list_ascii_of_string s).

Definition string_of_bytes (b : bytes) : string :=
  string_of_list_ascii (map ascii_of_byte b).

#[export] Instance httpx : Httpx := {
  Data := string;
  URL_parse := parse;
  QueryParams_multi_items := multi_items;
  Request_read _ _ _ data json :=
    bytes_of_string (default EmptyString data +:+ default EmptyString json);
  get_reason_phrase st :=
    if st =? 200 then "OK"%string
    else if st =? 404 then "Not Found"%string
    else EmptyString;
  charset_encoding _ := None
}.

(** A stand-in digest: the bytes themselves, as text. *)
#[export] Instance hashlib : Hashlib := {
  sha256_hexdigest := string_of_bytes
}.

#[export] Instance codecs : Codecs := {
  gzip_write b := b;
  gzip_read b := Ok b;
  HAS_LZ4 := true;
  lz4_frame_compress b := b;
  lz4_frame_decompress b := Ok b;
  HAS_ZSTD := true;
  zstd_compress b := b;
  zstd_decompress b := Ok b
}.

#[export] Instance msgpack : Msgpack := {
  packed_len payload :=
    1 + len_bytes (default [] (p_body_compressed payload))
}.

(** Patterns match literally. *)
#[export] Instance fnmatch : Fnmatch := {
  fnmatch_match pattern url := String.eqb pattern url
}.

#[export] Instance header_parsers : HeaderParsers := {
  re_search_max_age _ := None;
  expires_in _ _ := Raise (ValueError "unparsed date")
}.

(** `DummyHttp` of the tests: it counts its calls and answers with its
    status code and the body `ok-<calls>`; [None] as status makes it
    raise instead. *)
Record DummyHttp : Type := mkDummyHttp {
  calls : N;
  dummy_status : option Z
}.

Definition DummyHttp_request (self : DummyHttp) : Result Response * DummyHttp :=
  let n := (calls self + 1)%N in
  let self' := mkDummyHttp n (dummy_status self) in
  match dummy_status self with
  | Some st =>
      (Ok (mkResponse st [] (bytes_of_string ("ok-" +:+ pretty n))
             "https://example.com/" "HTTP/1.1" "OK" (Some "utf-8"%string)),
       self')
  | None => (Raise (OtherError "httpx.ConnectError"), self')
  end.

#[export] Instance dummy_client : HttpClient DummyHttp := {
  inner_request _ _ _ now self :=
    let '(r, self') := DummyHttp_request self in (r, self', now)
}.

(** A client patched to give one outcome, as the tests do with
    `patch.object(http, "request", return_value=resp)`. *)
Record Canned : Type := mkCanned {
  canned : Result Response;
  canned_calls : N
}.

#[export] Instance canned_client : HttpClient Canned := {
  inner_request _ _ _ now self :=
    (canned self, mkCanned (canned self) (canned_calls self + 1), now)
}.

(** A backend whose every `get` fails, as a store that cannot be
    reached does when its client does not catch the failure. *)
Inductive Unreachable : Type := unreachable.

#[export] Instance unreachable_backend : CacheBackend Unreachable := {
  backend_get _ self := (Raise (OtherError "ConnectionError"), self);
  backend_set _ _ _ _ self := (Raise (OtherError "ConnectionError"), self);
  backend_delete _ self := (Raise (OtherError "ConnectionError"), self)
}.

(** A memory backend behind a connection that fails a number of times
    before it works: while [outage] is positive every operation raises
    and uses one of the failures up. *)
Record Flaky : Type := mkFlaky {
  outage : nat;
  flaky_data : gmap string (Blob * Time)
}.

Definition flaky {A : Type} (self : Flaky)
    (op : gmap string (Blob * Time) -> A * gmap string (Blob * Time))
  : Result A * Flaky :=
  match outage self with
  | S n => (Raise (OtherError "ConnectionError"), mkFlaky n (flaky_data self))
  | O => let '(a, d) := op (flaky_data self) in (Ok a, mkFlaky O d)
  end.

#[export] Instance flaky_backend : CacheBackend Flaky := {
  backend_get key self :=
    flaky self (fun d => (MemoryCacheBackend.get key d, d));
  backend_set key value ttl now self :=
    flaky self (fun d => (tt, MemoryCacheBackend.set key value ttl now d));
  backend_delete key self :=
    flaky self (fun d => (tt, MemoryCacheBackend.delete key d))
}.

End Plain.

(** ** Scenarios *)

Module Scenario.
Import Plain.

(** The configuration `CacheConfig()` constructs. *)
Definition default_config : CacheConfig :=
  with_status_codes default_status_codes CacheConfig_defaults.

(** `CacheConfig(ttl_seconds=1, stale_while_revalidate_seconds=5)` *)
Definition swr_config : CacheConfig :=
  mkCacheConfig "default" 1 (2 * 1024 * 1024) false false false true
    "v1" [] [] true 10 5 false 86400 false 60 (86400 * 7) true 5 30
    None "gzip" default_status_codes.

(** The key builder of `test_custom_key_builder`: method, a colon, the
    URL. *)
Definition custom_builder : KeyBuilder :=
  fun method url _ _ => method +:+ ":" +:+ url.

(** `CacheConfig(ttl_seconds=60, serve_stale_on_error=True,
    key_builder=...)`, with and without the builder. *)
Definition stale_config (kb : option KeyBuilder) : CacheConfig :=
  mkCacheConfig "default" 60 (2 * 1024 * 1024) false false false true
    "v1" [] [] true 10 0 true 86400 false 60 (86400 * 7) true 5 30
    kb "gzip" default_status_codes.

Definition no_kwargs : Kwargs := mkKwargs None None None None.

Definition example_url : string := "https://example.com/a".

Definition empty_backend : gmap string (Blob * Time) := ∅.

(** A `GET` of the example URL with every keyword left out. *)
Definition get {B I : Type} `{CacheBackend B} `{!HttpClient I}
    (s : CachedSgRequests (B:=B) (I:=I)) : Result Response * CachedSgRequests :=
  request "GET" example_url None None false no_kwargs s.

(** A response with a content-type header that is there and empty. *)
Definition empty_content_type : Response :=
  mkResponse 200 [("Content-Type"%string, EmptyString)] []
    example_url "HTTP/1.1" "OK" None.

(** A facade that has cached the example URL at time 0 from a
    `DummyHttp` answering 200, seen [age] seconds later with the
    wrapped client replaced by [i]. *)
Definition aged {I : Type} `{!HttpClient I} (cfg : CacheConfig) (age : Time)
    (i : I) : CachedSgRequests (B:=gmap string (Blob * Time)) (I:=I) :=
  let s1 := snd (get (__init__ (mkDummyHttp 0 (Some 200)) empty_backend cfg 0%Q)) in
  mkFacade i (backend s1) (config s1) (stats s1) (url_matcher s1)
    (deduplicator s1) (circuit_breaker s1) age (upstream_calls s1) (threads s1).

End Scenario.

(** ** More of the package

    The parts of the package the claims above do not reach: the rest of
    the memory backend, the tiered backend and the Redis backend. *)

(** *** backends/memory.py: `cleanup_expired` *)

(** `[k for k, (_, exp) in self._data.items() if now >= exp]` *)
Definition expired_keys (now : Time) (data : gmap string (Blob * Time))
  : list string :=
  map fst
    (List.filter (fun kv => time_le (snd (snd kv)) (fl64 now))
       (map_to_list data)).

(** `cleanup_expired()` at clock reading [now]: the number of entries
    removed and the dictionary left. *)
Definition cleanup_expired (now : Time) (data : gmap string (Blob * Time))
  : Z * gmap string (Blob * Time) :=
  let keys := expired_keys now data in
  (Z.of_nat (length keys), fold_left (fun d k => base.delete k d) keys data).

(** *** backends/tiered.py *)

(** A backend that also has `clear()`, as the memory backend has. *)
Class Clearable (B : Type) : Type := {
  backend_clear : B -> Result unit * B
}.

#[global] Instance MemoryCacheBackend_clearable
  : Clearable (gmap string (Blob * Time)) := {
  backend_clear self := (Ok tt, MemoryCacheBackend.clear self)
}.

Module TieredCacheBackend.

(** The two tiers. [scaled] is `int(ttl_seconds * self.l1_ttl_ratio)` as
    a function of `ttl_seconds`, for the ratio the object was built
    with; [publish_invalidation] is the method of that name of L2 when
    L2 has one (`hasattr`). *)
Record t (B1 B2 : Type) : Type := mk {
  l1 : B1;
  l2 : B2;
  scaled : Z -> Z;
  publish_invalidation : option (string -> B2 -> Result unit * B2)
}.
Arguments mk {B1 B2}.
Arguments l1 {B1 B2}.
Arguments l2 {B1 B2}.
Arguments scaled {B1 B2}.
Arguments publish_invalidation {B1 B2}.

Section Tiers.
Context {B1 B2 : Type} `{CacheBackend B1} `{CacheBackend B2}.

Definition with_l1 (b1 : B1) (self : t B1 B2) : t B1 B2 :=
  mk b1 (l2 self) (scaled self) (publish_invalidation self).

Definition with_l2 (b2 : B2) (self : t B1 B2) : t B1 B2 :=
  mk (l1 self) b2 (scaled self) (publish_invalidation self).

(** `get(key)` at clock reading [now]: L1, then L2 with promotion into
    L1 for 60 s; a failure of the promotion is logged and dropped. *)
Definition get (now : Time) (key : string) (self : t B1 B2)
  : Result (option Blob) * t B1 B2 :=
  match backend_get key (l1 self) with
  | (Raise e, b1) => (Raise e, with_l1 b1 self)
  | (Ok (Some val), b1) => (Ok (Some val), with_l1 b1 self)
  | (Ok None, b1) =>
      match backend_get key (l2 self) with
      | (Raise e, b2) => (Raise e, with_l2 b2 (with_l1 b1 self))
      | (Ok (Some val), b2) =>
          let '(_, b1') := backend_set key val 60 now b1 in
          (Ok (Some val), with_l2 b2 (with_l1 b1' self))
      | (Ok None, b2) => (Ok None, with_l2 b2 (with_l1 b1 self))
      end
  end.

(** The publication after a write or a delete, when L2 can publish. *)
Definition publish (key : string) (self : t B1 B2) : Result unit * t B1 B2 :=
  match publish_invalidation self with
  | Some p => let '(r, b2) := p key (l2 self) in (r, with_l2 b2 self)
  | None => (Ok tt, self)
  end.

(** `set(key, value, ttl_seconds)` *)
Definition set (now : Time) (key : string) (value : Blob) (ttl_seconds : Z)
    (self : t B1 B2) : Result unit * t B1 B2 :=
  let l1_ttl := Z.max 60 (scaled self ttl_seconds) in
  match backend_set key value l1_ttl now (l1 self) with
  | (Raise e, b1) => (Raise e, with_l1 b1 self)
  | (Ok _, b1) =>
      match backend_set key value ttl_seconds now (l2 self) with
      | (Raise e, b2) => (Raise e, with_l2 b2 (with_l1 b1 self))
      | (Ok _, b2) => publish key (with_l2 b2 (with_l1 b1 self))
      end
  end.

(** `delete(key)` *)
Definition delete (key : string) (self : t B1 B2) : Result unit * t B1 B2 :=
  match backend_delete key (l1 self) with
  | (Raise e, b1) => (Raise e, with_l1 b1 self)
  | (Ok _, b1) =>
      match backend_delete key (l2 self) with
      | (Raise e, b2) => (Raise e, with_l2 b2 (with_l1 b1 self))
      | (Ok _, b2) => publish key (with_l2 b2 (with_l1 b1 self))
      end
  end.

(** `_on_invalidation(pattern)`: the star and every other pattern with a
    star in it clear L1, a pattern without one deletes that key from
    L1. *)
Definition _on_invalidation `{!Clearable B1} (pattern : string)
    (self : t B1 B2) : Result unit * t B1 B2 :=
  if String.eqb pattern "*" then
    let '(r, b1) := backend_clear (l1 self) in (r, with_l1 b1 self)
  else if negb (str_contains "*" pattern) then
    let '(r, b1) := backend_delete pattern (l1 self) in (r, with_l1 b1 self)
  else
    let '(r, b1) := backend_clear (l1 self) in (r, with_l1 b1 self).

End Tiers.

End TieredCacheBackend.

(** *** backends/redis.py *)

(** `key.encode("utf-8")` for code points below 256: one byte below
    128, two bytes from there on. *)
Definition utf8_char (c : ascii) : bytes :=
  let n := N_of_ascii c in
  if (n <? 128)%N then [byte_of_ascii c]
  else [byte_of_ascii (ascii_of_N (192 + n / 64));
        byte_of_ascii (ascii_of_N (128 + n mod 64))].

Fixpoint encode_utf8 (s : string) : bytes :=
  match s with
  | EmptyString => []
  | String c s' => utf8_char c ++ encode_utf8 s'
  end.

(** The Redis client the backend holds, over its state [C]: `get`,
    `set(name, value, ex=)`, `delete` and `ping`, each of which may
    raise. *)
Class RedisClient (C : Type) : Type := {
  redis_get : string -> C -> Result (option Blob) * C;
  redis_set : string -> Blob -> Z -> C -> Result unit * C;
  redis_delete : string -> C -> Result unit * C;
  redis_ping : C -> Result bool * C
}.

Module RedisCacheBackend.

Record t (C : Type) : Type := mk {
  _client : C;
  key_prefix : string
}.
Arguments mk {C}.
Arguments _client {C}.
Arguments key_prefix {C}.

Section Redis.
Context `{Hashlib} {C : Type} `{RedisClient C}.

Definition with_client (c : C) (self : t C) : t C := mk c (key_prefix self).

(** `_k(key)`: keys longer than 512 characters are replaced by their
    SHA-256 digest. *)
Definition _k (self : t C) (key : string) : string :=
  if 512 <? Z.of_nat (String.length key) then
    key_prefix self +:+ sha256_hexdigest (encode_utf8 key)
  else key_prefix self +:+ key.

Definition get (key : string) (self : t C) : Result (option Blob) * t C :=
  match redis_get (_k self key) (_client self) with
  | (Ok data, c) => (Ok data, with_client c self)
  | (Raise _, c) => (Ok None, with_client c self)
  end.

Definition set (key : string) (value : Blob) (ttl_seconds : Z) (self : t C)
  : Result unit * t C :=
  match redis_set (_k self key) value ttl_seconds (_client self) with
  | (_, c) => (Ok tt, with_client c self)
  end.

Definition delete (key : string) (self : t C) : Result unit * t C :=
  match redis_delete (_k self key) (_client self) with
  | (_, c) => (Ok tt, with_client c self)
  end.

Definition health_check (self : t C) : Result bool * t C :=
  match redis_ping (_client self) with
  | (Ok alive, c) => (Ok alive, with_client c self)
  | (Raise _, c) => (Ok false, with_client c self)
  end.

End Redis.

End RedisCacheBackend.

#[global] Instance RedisCacheBackend_backend `{Hashlib} {C : Type}
    `{RedisClient C} : CacheBackend (RedisCacheBackend.t C) := {
  backend_get key self := RedisCacheBackend.get key self;
  backend_set key value ttl _ self := RedisCacheBackend.set key value ttl self;
  backend_delete key self := RedisCacheBackend.delete key self
}.

(** A Redis client whose server cannot be reached: every command
    raises. *)
Inductive DownRedis : Type := down_redis.

#[global] Instance down_redis_client : RedisClient DownRedis := {
  redis_get _ c := (Raise (OtherError "redis.exceptions.ConnectionError"), c);
  redis_set _ _ _ c := (Raise (OtherError "redis.exceptions.ConnectionError"), c);
  redis_delete _ c := (Raise (OtherError "redis.exceptions.ConnectionError"), c);
  redis_ping c := (Raise (OtherError "redis.exceptions.ConnectionError"), c)
}.

(** ** Vocabulary of the statements *)

(** The recovery timeout of an open breaker has passed at [now]:
    `time.time() - self.last_failure_time > self.timeout`, the
    difference being the double the subtraction yields. *)
Definition recovery_due (now : Time) (cb : CircuitBreaker.t) : Prop :=
  (inject_Z (CircuitBreaker.timeout cb)
     < fsub now (CircuitBreaker.last_failure_time cb))%Q.

(** A breaker that has counted one more failure at time [now], in state
    [s]. *)
Definition failed_at (now : Time) (s : CircuitBreaker.State)
    (cb : CircuitBreaker.t) : CircuitBreaker.t :=
  CircuitBreaker.mk (CircuitBreaker.threshold cb) (CircuitBreaker.timeout cb)
    (CircuitBreaker.failures cb + 1) now s.

(** A breaker closed again with its count at zero. *)
Definition recovered (cb : CircuitBreaker.t) : CircuitBreaker.t :=
  CircuitBreaker.mk (CircuitBreaker.threshold cb) (CircuitBreaker.timeout cb)
    0 (CircuitBreaker.last_failure_time cb) CircuitBreaker.CLOSED.

(** An operation that returns, one that raises, and the breaker a call
    of one of them at time [now] leaves. *)
Definition succeeding : unit -> Result string * unit :=
  fun w => (Ok "ok"%string, w).

Definition failing : unit -> Result string * unit :=
  fun w => (Raise (OtherError "fail"), w).

Definition breaker_after (now : Time) (fn : unit -> Result string * unit)
    (cb : CircuitBreaker.t) : CircuitBreaker.t :=
  snd (fst (CircuitBreaker.call (fun _ => now) fn cb tt)).

(** The constraints section 6 of the specification lists. *)
Definition section6_constraints (c : CacheConfigInit) : Prop :=
  0 <= ttl_seconds c /\
  0 <= max_bytes c /\
  In (compression c) COMPRESSORS_keys /\
  (0 <= min_ttl c /\ min_ttl c <= max_ttl c) /\
  1 <= circuit_breaker_threshold c /\
  0 <= circuit_breaker_timeout c /\
  1 <= deduplication_timeout_seconds c /\
  0 <= stale_while_revalidate_seconds c /\
  0 <= max_stale_age_seconds c.

(** The constraints `__post_init__` checks. *)
Definition checked_constraints (c : CacheConfigInit) : Prop :=
  0 <= ttl_seconds c /\
  0 <= max_bytes c /\
  In (compression c) COMPRESSORS_keys /\
  (0 <= min_ttl c /\ min_ttl c <= max_ttl c) /\
  1 <= circuit_breaker_threshold c /\
  1 <= deduplication_timeout_seconds c.

(** The status codes a constructed configuration carries. *)
Definition status_codes_of (c : CacheConfigInit) : gset Z :=
  match cacheable_status_codes c with
  | None => default_status_codes
  | Some s => s
  end.

(** The defaults with a negative `circuit_breaker_timeout`, a negative
    `stale_while_revalidate_seconds` and a negative
    `max_stale_age_seconds`. *)
Definition unchecked_negatives : CacheConfigInit :=
  mkCacheConfig "default" 86400 (2 * 1024 * 1024) false false false true
    "v1" [] [] true 10 (-1) false (-1) false 60 (86400 * 7) true 5 (-1)
    None "gzip" None.

(** Two URLs that differ at most in the order of their query
    parameters: the same scheme, host and path, and queries that hold
    the same parameters the same number of times. *)
Definition same_up_to_query_order `{Httpx} (url1 url2 : string) : Prop :=
  let u1 := URL_parse url1 in
  let u2 := URL_parse url2 in
  scheme u1 = scheme u2 /\ host u1 = host u2 /\ path u1 = path u2 /\
  str_truthy (query u1) = str_truthy (query u2) /\
  QueryParams_multi_items (query u1) ≡ₚ QueryParams_multi_items (query u2).

(** The values a query gives for one name, in order of appearance. *)
Definition values_of (name : string) (items : list (string * string))
  : list string :=
  map snd (List.filter (fun kv => String.eqb (fst kv) name) items).



(** A codec tag of the four that can be used: its library is there. *)
Definition codec_supported `{Codecs} (c : string) : Prop :=
  c = "gzip"%string \/ (c = "lz4"%string /\ HAS_LZ4 = true) \/
  (c = "zstd"%string /\ HAS_ZSTD = true) \/ c = "none"%string.


(** The content type `_is_cacheable` looks at. *)
Definition content_type_of (r : Response) : string :=
  str_lower (Headers_get (headers r) "content-type" EmptyString).

(** A content type the predicate lets through by its prefix. *)
Definition cacheable_prefix (ctype : string) : Prop :=
  startswith ctype "text/" = true \/
  startswith ctype "application/json" = true \/
  startswith ctype "application/xhtml" = true.

(** The cacheability predicate in the words of the specification: the
    content-type header is absent or begins with one of the prefixes. *)
Definition cacheable_as_specified (r : Response) (cfg : CacheConfig) : Prop :=
  status_code r ∈ cacheable_status_codes cfg /\
  status_code r <> 204 /\
  (header_values (headers r) "content-type" = [] \/
   cacheable_prefix (content_type_of r)) /\
  len_bytes (content r) <= max_bytes cfg.

(** The predicate the code computes: a content type that is there but
    empty is let through as well. *)
Definition cacheable (r : Response) (cfg : CacheConfig) : Prop :=
  status_code r ∈ cacheable_status_codes cfg /\
  status_code r <> 204 /\
  (content_type_of r = EmptyString \/ cacheable_prefix (content_type_of r)) /\
  len_bytes (content r) <= max_bytes cfg.

Section FacadeVocabulary.
Context `{Httpx} {B I : Type}.

Local Abbreviation Facade := (CachedSgRequests (B:=B) (I:=I)).

(** Two facade states that differ at most in the backend and in the
    circuit breaker. *)
Definition same_but_cache (s s' : Facade) : Prop :=
  inner s' = inner s /\ config s' = config s /\ stats s' = stats s /\
  url_matcher s' = url_matcher s /\ deduplicator s' = deduplicator s /\
  clock s' = clock s /\ upstream_calls s' = upstream_calls s /\
  threads s' = threads s.

(** No fetch for the key is announced in the deduplicator. *)
Definition dedup_idle (key : string) (s : Facade) : Prop :=
  match deduplicator s with
  | Some d => key ∉ RequestDeduplicator._in_flight d
  | None => True
  end.

(** The breaker lets a call at time [now] through: there is none, it is
    not open, or its recovery timeout has passed. *)
Definition breaker_admits (s : Facade) : Prop :=
  match circuit_breaker s with
  | None => True
  | Some cb =>
      CircuitBreaker.state cb <> CircuitBreaker.OPEN \/
      recovery_due (clock s) cb
  end.

(** What a request that ends as a miss leaves as it found it, apart
    from the counters, the breaker and the world around the facade. *)
Definition settled (key : string) (s s' : Facade) : Prop :=
  backend s' = backend s /\ config s' = config s /\
  url_matcher s' = url_matcher s /\ dedup_idle key s'.

End FacadeVocabulary.

(** ** Vocabulary of the further statements *)

(** A breaker driven through a sequence of calls, each with the clock
    reading at which it is made and whether the operation returns. *)
Fixpoint breaker_run (calls : list (Time * bool)) (cb : CircuitBreaker.t)
  : CircuitBreaker.t :=
  match calls with
  | [] => cb
  | (now, returns) :: rest =>
      breaker_run rest
        (breaker_after now (if returns then succeeding else failing) cb)
  end.

(** The number of calls of a sequence in which the operation raises. *)
Definition failed_calls (calls : list (Time * bool)) : Z :=
  Z.of_nat (length (List.filter (fun c => negb (snd c)) calls)).

(** The counters after an event: [dh] more hits, [dm] more misses, and
    the total moved by both. *)
Definition counted (s s' : CacheStats.t) (dh dm : Z) : Prop :=
  CacheStats.hits s' = CacheStats.hits s + dh /\
  CacheStats.misses s' = CacheStats.misses s + dm /\
  CacheStats.total_requests s' = CacheStats.total_requests s + dh + dm.

(** `CacheConfig(namespace=ns, cache_version=version,
    vary_user_agent=vary, vary_cookies=vary)` *)
Definition keyed_config (version ns : string) (vary : bool) : CacheConfig :=
  mkCacheConfig ns 86400 (2 * 1024 * 1024) vary vary false true
    version [] [] true 10 0 false 86400 false 60 (86400 * 7) true 5 30
    None "gzip" default_status_codes.

(** `CacheConfig(exclude_patterns=patterns)` *)
Definition excluding_config (patterns : list string) : CacheConfig :=
  mkCacheConfig "default" 86400 (2 * 1024 * 1024) false false false true
    "v1" [] patterns true 10 0 false 86400 false 60 (86400 * 7) true 5 30
    None "gzip" default_status_codes.

(** `CacheConfig(compression="lz4")` *)
Definition lz4_config : CacheConfig :=
  mkCacheConfig "default" 86400 (2 * 1024 * 1024) false false false true
    "v1" [] [] true 10 0 false 86400 false 60 (86400 * 7) true 5 30
    None "lz4" default_status_codes.

(** An installation with gzip only: neither lz4 nor zstandard can be
    imported. *)
Definition gzip_only_codecs : Codecs := {|
  gzip_write b := b;
  gzip_read b := Ok b;
  HAS_LZ4 := false;
  lz4_frame_compress b := b;
  lz4_frame_decompress b := Ok b;
  HAS_ZSTD := false;
  zstd_compress b := b;
  zstd_decompress b := Ok b
|}.

(** Header parsers that read `max-age=n` out of every cache-control
    value and no date out of an expires value. *)
Definition max_age_parsers (n : Z) : HeaderParsers := {|
  re_search_max_age _ := Some n;
  expires_in _ _ := Raise (ValueError "unparsed date")
|}.

(** A backend none of whose three operations ever raises. *)
Definition quiet_backend (B : Type) `{CacheBackend B} : Prop :=
  (forall key b, is_ok (fst (backend_get key b)) = true) /\
  (forall key value ttl now b,
     is_ok (fst (backend_set key value ttl now b)) = true) /\
  (forall key b, is_ok (fst (backend_delete key b)) = true).

Section FacadeFurtherVocabulary.
Context `{Httpx} {B I : Type}.

Local Abbreviation Facade := (CachedSgRequests (B:=B) (I:=I)).

(** The breaker, when there is one, is closed. *)
Definition breaker_closed (s : Facade) : Prop :=
  match circuit_breaker s with
  | Some cb => CircuitBreaker.state cb = CircuitBreaker.CLOSED
  | None => True
  end.

(** The facade a read block hands on, however it ended. *)
Definition outcome_state (o : ReadOutcome (B:=B) (I:=I)) : Facade :=
  match o with
  | FreshHit _ s | StaleHit _ s | Missed s | ReadRaised _ s => s
  end.

(** Two facade states between which the wrapped client has not been
    called and nothing of the configuration has changed. *)
Definition same_upstream (s s' : Facade) : Prop :=
  inner s' = inner s /\ config s' = config s /\
  url_matcher s' = url_matcher s /\ deduplicator s' = deduplicator s /\
  clock s' = clock s /\ upstream_calls s' = upstream_calls s.

(** The breaker, when there is one, is not open. *)
Definition breaker_not_open (s : Facade) : Prop :=
  match circuit_breaker s with
  | Some cb => CircuitBreaker.state cb <> CircuitBreaker.OPEN
  | None => True
  end.

(** What a fetch that called the wrapped client once leaves: the
    client's new state, the clock after the call, one more entry in the
    log, no fetch announced for the key, and the rest as it was. *)
Definition fetched (method url key : string) (i' : I) (now' : Time)
    (s s' : Facade) : Prop :=
  inner s' = i' /\ clock s' = now' /\
  upstream_calls s' = upstream_calls s ++ [(method, url)] /\
  backend s' = backend s /\ config s' = config s /\ stats s' = stats s /\
  url_matcher s' = url_matcher s /\
  circuit_breaker s' = circuit_breaker s /\ threads s' = threads s /\
  dedup_idle key s'.

End FacadeFurtherVocabulary.

(** * Properties *)

(** ** Clock comparisons *)

Lemma time_le_spec (a b : Time) : time_le a b = true <-> (a <= b)%Q.
Proof. unfold time_le. apply Qle_bool_iff. Qed.

Lemma time_gt_spec (a b : Time) : time_gt a b = true <-> (b < a)%Q.
Proof.
  unfold time_gt. rewrite negb_true_iff. split.
  - intros Hb. apply Qnot_le_lt. intros Hle.
    apply Qle_bool_iff in Hle. congruence.
  - intros Hlt. destruct (Qle_bool a b) eqn:E; [|reflexivity].
    apply Qle_bool_iff in E. exfalso. exact (Qlt_not_le _ _ Hlt E).
Qed.

Lemma time_gt_false (a b : Time) : time_gt a b = false <-> ~ (b < a)%Q.
Proof.
  rewrite <- time_gt_spec. destruct (time_gt a b); split; intros; congruence.
Qed.

(** ** Doubles *)

(** Rounding to the nearest integer is off by half at most. *)
Lemma round_half_even_nearest (n d : Z) :
  0 < d -> 2 * Z.abs (d * round_half_even n d - n) <= d.
Proof.
  intros Hd. unfold round_half_even.
  pose proof (Z.div_mod n d ltac:(lia)) as Hdm.
  pose proof (Z.mod_pos_bound n d Hd) as Hr.
  destruct (Z.compare_spec (2 * (n mod d)) d) as [E|E|E];
    [destruct (Z.even (n / d))| |]; nia.
Qed.

(** The doubles of some decimal literals, and their differences and
    sums as Python computes them: `1.1 - 0.1 == 1.0`,
    `1.2 - 0.1 == 1.0999999999999999`, `0.1 + 0.2 ==
    0.30000000000000004`; integers of moderate size are doubles. *)
Example doubles_of_literals :
  fl64 (1 # 10) = (3602879701896397 # 36028797018963968)%Q /\
  fl64 (11 # 10) = (2476979795053773 # 2251799813685248)%Q /\
  fsub (11 # 10) (1 # 10) = 1%Q /\
  fsub (12 # 10) (1 # 10) = (4953959590107545 # 4503599627370496)%Q /\
  fl64 (fl64 (1 # 10) + fl64 (2 # 10)) =
    (1351079888211149 # 4503599627370496)%Q /\
  fl64 86400%Q = 86400%Q /\
  fadd 0%Q 86400 = 86400%Q /\
  fl64 (inject_Z (2 ^ 53 + 1)) = inject_Z (2 ^ 53).
Proof. vm_compute. repeat split. Qed.

(** ** The circuit breaker *)

Lemma init_tripped_only_at_threshold (threshold timeout : Z) :
  CircuitBreaker.tripped_only_at_threshold (CircuitBreaker.init threshold timeout).
Proof. intros Hs. simpl in Hs. congruence. Qed.

Lemma reset_tripped_only_at_threshold (cb : CircuitBreaker.t) :
  CircuitBreaker.tripped_only_at_threshold (CircuitBreaker.reset cb).
Proof. intros Hs. simpl in Hs. congruence. Qed.

Lemma on_failure_tripped_only_at_threshold (now : Time) (cb : CircuitBreaker.t) :
  CircuitBreaker.tripped_only_at_threshold cb ->
  CircuitBreaker.tripped_only_at_threshold (CircuitBreaker.on_failure now cb).
Proof.
  intros Hinv. unfold CircuitBreaker.on_failure. simpl.
  destruct (Z.leb_spec (CircuitBreaker.threshold cb) (CircuitBreaker.failures cb + 1)) as [Hle|Hlt].
  - intros _. simpl. lia.
  - intros Hs. simpl in *. specialize (Hinv Hs). lia.
Qed.

(** Every call leaves the breaker in a state `__init__`, `call` and
    `reset` can explain. *)
Lemma call_tripped_only_at_threshold {W A : Type} (time_time : W -> Time)
    (fn : W -> Result A * W) (cb : CircuitBreaker.t) (w : W) :
  CircuitBreaker.tripped_only_at_threshold cb ->
  CircuitBreaker.tripped_only_at_threshold
    (snd (fst (CircuitBreaker.call time_time fn cb w))).
Proof.
  intros Hinv. unfold CircuitBreaker.call, CircuitBreaker.enter_call.
  destruct (CircuitBreaker.state cb) eqn:Es.
  - destruct (fn w) as [[a|e] w']; simpl.
    + unfold CircuitBreaker.on_success. rewrite Es. exact Hinv.
    + apply on_failure_tripped_only_at_threshold. exact Hinv.
  - destruct (time_gt _ _); [|exact Hinv].
    destruct (fn w) as [[a|e] w']; simpl.
    + intros Hs. simpl in Hs. congruence.
    + apply on_failure_tripped_only_at_threshold.
      intros _. simpl. apply Hinv. congruence.
  - destruct (fn w) as [[a|e] w']; simpl.
    + unfold CircuitBreaker.on_success. rewrite Es.
      intros Hs. simpl in Hs. congruence.
    + apply on_failure_tripped_only_at_threshold. exact Hinv.
Qed.

(** C4. `CircuitBreaker.call` is the three-state machine, for a breaker
    as `__init__`, `call` and `reset` leave it.
    - CLOSED: the operation runs; a success changes nothing; a failure
      adds one to `failures`, records the time, and opens the circuit
      when the count has reached the threshold.
    - OPEN: while `now - last_failure_time > timeout` does not hold the
      call raises `CircuitBreakerOpenError` and the operation is not run
      (world and breaker are unchanged, whatever the operation is); once
      it holds the operation runs as a probe, with the outcomes of
      HALF_OPEN. The difference is the one the code computes, a double:
      the exact difference of the two readings rounded.
    - HALF_OPEN: a successful probe closes the circuit and sets
      `failures` to 0; a failed one opens it and records the time. *)
Theorem call_three_state_machine {W A : Type} (time_time : W -> Time)
    (fn : W -> Result A * W) (cb : CircuitBreaker.t) (w : W) :
  CircuitBreaker.tripped_only_at_threshold cb ->
  (CircuitBreaker.state cb = CircuitBreaker.CLOSED ->
     (forall a w', fn w = (Ok a, w') ->
        CircuitBreaker.call time_time fn cb w = (Ok a, cb, w')) /\
     (forall e w', fn w = (Raise e, w') ->
        CircuitBreaker.call time_time fn cb w =
          (Raise e,
           failed_at (time_time w')
             (if CircuitBreaker.threshold cb <=? CircuitBreaker.failures cb + 1
              then CircuitBreaker.OPEN else CircuitBreaker.CLOSED) cb,
           w'))) /\
  (CircuitBreaker.state cb = CircuitBreaker.OPEN ->
     (~ recovery_due (time_time w) cb ->
        CircuitBreaker.call time_time fn cb w =
          (Raise CircuitBreakerOpenError, cb, w)) /\
     (recovery_due (time_time w) cb ->
        (forall a w', fn w = (Ok a, w') ->
           CircuitBreaker.call time_time fn cb w = (Ok a, recovered cb, w')) /\
        (forall e w', fn w = (Raise e, w') ->
           CircuitBreaker.call time_time fn cb w =
             (Raise e, failed_at (time_time w') CircuitBreaker.OPEN cb, w')))) /\
  (CircuitBreaker.state cb = CircuitBreaker.HALF_OPEN ->
     (forall a w', fn w = (Ok a, w') ->
        CircuitBreaker.call time_time fn cb w = (Ok a, recovered cb, w')) /\
     (forall e w', fn w = (Raise e, w') ->
        CircuitBreaker.call time_time fn cb w =
          (Raise e, failed_at (time_time w') CircuitBreaker.OPEN cb, w'))).
Proof.
  intros Hinv.
  assert (Htrip : CircuitBreaker.state cb <> CircuitBreaker.CLOSED ->
                  (CircuitBreaker.threshold cb <=? CircuitBreaker.failures cb + 1) = true).
  { intros Hs. apply Z.leb_le. specialize (Hinv Hs). lia. }
  unfold CircuitBreaker.call, CircuitBreaker.enter_call.
  split; [|split]; intros Hs; rewrite Hs.
  - split.
    + intros a w' Hfn. rewrite Hfn. unfold CircuitBreaker.on_success.
      rewrite Hs. reflexivity.
    + intros e w' Hfn. rewrite Hfn. unfold CircuitBreaker.on_failure. simpl.
      destruct (_ <=? _); unfold failed_at, CircuitBreaker.with_state,
        CircuitBreaker.with_last_failure_time, CircuitBreaker.with_failures;
        simpl; rewrite ?Hs; reflexivity.
  - split.
    + intros Hdue. apply time_gt_false in Hdue. rewrite Hdue. reflexivity.
    + intros Hdue. apply time_gt_spec in Hdue. rewrite Hdue. split.
      * intros a w' Hfn. rewrite Hfn. reflexivity.
      * intros e w' Hfn. rewrite Hfn. unfold CircuitBreaker.on_failure. simpl.
        rewrite Htrip by congruence. reflexivity.
  - split.
    + intros a w' Hfn. rewrite Hfn. unfold CircuitBreaker.on_success.
      rewrite Hs. reflexivity.
    + intros e w' Hfn. rewrite Hfn. unfold CircuitBreaker.on_failure. simpl.
      rewrite Htrip by congruence. unfold failed_at. reflexivity.
Qed.

(** A breaker half open with its count at the threshold: a failed probe
    opens it again and records the time of the failure. *)
Lemma call_three_state_machine_witness :
  CircuitBreaker.tripped_only_at_threshold
    (CircuitBreaker.mk 3 1 3 10%Q CircuitBreaker.HALF_OPEN) /\
  CircuitBreaker.call (fun _ : unit => 12%Q)
    (fun w => (@Raise unit (OtherError "fail"), w))
    (CircuitBreaker.mk 3 1 3 10%Q CircuitBreaker.HALF_OPEN) tt =
  (Raise (OtherError "fail"),
   CircuitBreaker.mk 3 1 4 12%Q CircuitBreaker.OPEN, tt).
Proof.
  assert (Hinv : CircuitBreaker.tripped_only_at_threshold
                   (CircuitBreaker.mk 3 1 3 10%Q CircuitBreaker.HALF_OPEN)).
  { intros _. simpl. lia. }
  split; [exact Hinv|].
  destruct (call_three_state_machine (fun _ : unit => 12%Q)
              (fun w => (@Raise unit (OtherError "fail"), w))
              (CircuitBreaker.mk 3 1 3 10%Q CircuitBreaker.HALF_OPEN) tt Hinv)
    as (_ & _ & Hhalf).
  exact (proj2 (Hhalf eq_refl) (OtherError "fail") tt eq_refl).
Defined.

(** The difference is rounded before it is compared. An open breaker
    with timeout 1 s whose last failure was read at 0.1, called at 1.1:
    the two doubles differ by a little more than 1, their difference as
    a double is 1.0, which is not greater than the timeout, and the call
    is refused. One reading later the probe runs. *)
Example open_breaker_compares_rounded_difference :
  let cb := CircuitBreaker.mk 3 1 3 (1 # 10)%Q CircuitBreaker.OPEN in
  (1 < fl64 (11 # 10) - fl64 (1 # 10))%Q /\
  fsub (11 # 10) (1 # 10) = 1%Q /\
  CircuitBreaker.call (fun _ => (11 # 10)%Q) succeeding cb tt =
    (Raise CircuitBreakerOpenError, cb, tt) /\
  CircuitBreaker.call (fun _ => (12 # 10)%Q) succeeding cb tt =
    (Ok "ok"%string,
     CircuitBreaker.mk 3 1 0 (1 # 10)%Q CircuitBreaker.CLOSED, tt).
Proof. vm_compute. repeat split. Qed.

(** The scenario of `test_circuit_breaker_standalone`: threshold 3 and
    timeout 1 s; one success, three failures, a call refused while the
    circuit is open, and a probe 1.1 s later that closes it. *)
Example circuit_breaker_standalone :
  let cb0 := CircuitBreaker.init 3 1 in
  let cb1 := breaker_after 100%Q succeeding cb0 in
  let cb4 :=
    breaker_after 100%Q failing
      (breaker_after 100%Q failing (breaker_after 100%Q failing cb1)) in
  CircuitBreaker.get_state cb4 = CircuitBreaker.OPEN /\
  fst (fst (CircuitBreaker.call (fun _ => 100%Q) succeeding cb4 tt)) =
    Raise CircuitBreakerOpenError /\
  CircuitBreaker.call (fun _ => (1011 # 10)%Q) succeeding cb4 tt =
    (Ok "ok"%string, CircuitBreaker.mk 3 1 0 100%Q CircuitBreaker.CLOSED, tt).
Proof. vm_compute. repeat split. Qed.

(** ** Configuration *)

Lemma in_COMPRESSORS_spec (name : string) :
  in_COMPRESSORS name = true <-> In name COMPRESSORS_keys.
Proof.
  unfold in_COMPRESSORS. rewrite existsb_exists. split.
  - intros (x & Hin & Heq). apply String.eqb_eq in Heq. subst. exact Hin.
  - intros Hin. exists name. split; [exact Hin|apply String.eqb_refl].
Qed.

(** C9 as stated fails: a configuration with a negative
    `circuit_breaker_timeout`, `stale_while_revalidate_seconds` and
    `max_stale_age_seconds` violates section 6 and is constructed
    without an error. *)
Lemma post_init_accepts_unchecked_negatives :
  ~ section6_constraints unchecked_negatives /\
  __post_init__ unchecked_negatives =
    Ok (with_status_codes default_status_codes unchecked_negatives).
Proof.
  split.
  - unfold section6_constraints, unchecked_negatives. simpl. lia.
  - reflexivity.
Qed.

Example negative_ttl_message :
  __post_init__
    (mkCacheConfig "default" (-5) 0 false false false true "v1" [] [] true 10
       0 false 86400 false 60 (86400 * 7) true 5 30 None "gzip" None) =
  Raise (ValueError "ttl_seconds must be >= 0, got -5").
Proof. reflexivity. Qed.

(** C9, amended. Construction succeeds exactly when the configuration
    meets the constraints `__post_init__` checks (`ttl_seconds >= 0`,
    `max_bytes >= 0`, `compression` a key of `COMPRESSORS`,
    `0 <= min_ttl <= max_ttl`, `circuit_breaker_threshold >= 1`,
    `deduplication_timeout_seconds >= 1`), and then yields the
    configuration with its status codes filled in; otherwise it raises
    `ValueError`. Every configuration either constructs or raises
    there. *)
Theorem post_init_checks (c : CacheConfigInit) :
  (__post_init__ c = Ok (with_status_codes (status_codes_of c) c) <->
     checked_constraints c) /\
  ((exists msg, __post_init__ c = Raise (ValueError msg)) <->
     ~ checked_constraints c).
Proof.
  unfold __post_init__, checked_constraints, status_codes_of.
  pose proof (in_COMPRESSORS_spec (compression c)) as Hc.
  destruct (Z.ltb_spec (ttl_seconds c) 0);
    [split; split; [discriminate|lia|lia|eauto]|].
  destruct (Z.ltb_spec (max_bytes c) 0);
    [split; split; [discriminate|lia|lia|eauto]|].
  destruct (in_COMPRESSORS (compression c)); simpl.
  2:{ split; split; [discriminate| | |eauto].
      - intros (_ & _ & Hin & _). apply Hc in Hin. discriminate.
      - intros _ (_ & _ & Hin & _). apply Hc in Hin. discriminate. }
  assert (Hin : In (compression c) COMPRESSORS_keys) by (apply Hc; reflexivity).
  destruct (Z.ltb_spec (min_ttl c) 0);
    [split; split; [discriminate|lia|lia|eauto]|].
  destruct (Z.ltb_spec (max_ttl c) 0);
    [split; split; [discriminate|lia|lia|eauto]|].
  simpl.
  destruct (Z.ltb_spec (max_ttl c) (min_ttl c));
    [split; split; [discriminate|lia|lia|eauto]|].
  destruct (Z.ltb_spec (circuit_breaker_threshold c) 1);
    [split; split; [discriminate|lia|lia|eauto]|].
  destruct (Z.ltb_spec (deduplication_timeout_seconds c) 1);
    [split; split; [discriminate|lia|lia|eauto]|].
  split; split.
  - intros _. repeat split; try lia; exact Hin.
  - intros _. reflexivity.
  - intros (msg & Hm). discriminate.
  - intros Hn. exfalso. apply Hn. repeat split; try lia; exact Hin.
Qed.

(** ** The fingerprint and the order of query parameters *)

Lemma N_of_ascii_inj (x y : ascii) : N_of_ascii x = N_of_ascii y -> x = y.
Proof.
  intros Heq. rewrite <- (ascii_N_embedding x), <- (ascii_N_embedding y).
  congruence.
Qed.

Lemma str_leb_refl (a : string) : str_leb a a = true.
Proof.
  induction a as [|x a IH]; simpl; [reflexivity|].
  rewrite N.ltb_irrefl, N.eqb_refl. exact IH.
Qed.

Lemma str_leb_total (a b : string) : str_leb a b = true \/ str_leb b a = true.
Proof.
  revert b. induction a as [|x a IH]; intros [|y b]; simpl; auto.
  destruct (N.ltb_spec (N_of_ascii x) (N_of_ascii y)); [auto|].
  destruct (N.ltb_spec (N_of_ascii y) (N_of_ascii x)); [auto|].
  assert (Heq : N_of_ascii x = N_of_ascii y) by lia.
  rewrite Heq, N.eqb_refl. apply IH.
Qed.

Lemma str_leb_antisym (a b : string) :
  str_leb a b = true -> str_leb b a = true -> a = b.
Proof.
  revert b. induction a as [|x a IH]; intros [|y b]; simpl;
    try discriminate; [reflexivity|].
  destruct (N.ltb_spec (N_of_ascii x) (N_of_ascii y)) as [Hlt|Hge].
  - intros _. destruct (N.ltb_spec (N_of_ascii y) (N_of_ascii x)); [lia|].
    destruct (N.eqb_spec (N_of_ascii y) (N_of_ascii x)); [lia|discriminate].
  - destruct (N.eqb_spec (N_of_ascii x) (N_of_ascii y)) as [Heq|]; [|discriminate].
    rewrite Heq, N.ltb_irrefl, N.eqb_refl. intros H1 H2.
    apply N_of_ascii_inj in Heq. subst. f_equal. apply IH; assumption.
Qed.

Lemma str_leb_trans (a b c : string) :
  str_leb a b = true -> str_leb b c = true -> str_leb a c = true.
Proof.
  revert b c. induction a as [|x a IH]; intros [|y b] [|z c]; simpl;
    try discriminate; try reflexivity.
  destruct (N.ltb_spec (N_of_ascii x) (N_of_ascii y)) as [Hxy|Hxy].
  - intros _.
    destruct (N.ltb_spec (N_of_ascii y) (N_of_ascii z)) as [Hyz|Hyz].
    + intros _. destruct (N.ltb_spec (N_of_ascii x) (N_of_ascii z)); [reflexivity|lia].
    + destruct (N.eqb_spec (N_of_ascii y) (N_of_ascii z)); [|discriminate].
      intros _. destruct (N.ltb_spec (N_of_ascii x) (N_of_ascii z)); [reflexivity|lia].
  - destruct (N.eqb_spec (N_of_ascii x) (N_of_ascii y)) as [Exy|]; [|discriminate].
    intros Hab. rewrite Exy.
    destruct (N.ltb_spec (N_of_ascii y) (N_of_ascii z)); [reflexivity|].
    destruct (N.eqb_spec (N_of_ascii y) (N_of_ascii z)); [|discriminate].
    intros Hbc. exact (IH _ _ Hab Hbc).
Qed.

#[global] Instance pair_le_total : Total pair_le.
Proof.
  intros [a1 a2] [b1 b2]. unfold pair_le, pair_leb. simpl.
  rewrite (String.eqb_sym b1 a1).
  destruct (String.eqb_spec a1 b1); [apply str_leb_total|apply str_leb_total].
Qed.

#[global] Instance pair_le_trans : Transitive pair_le.
Proof.
  intros [a1 a2] [b1 b2] [c1 c2]. unfold pair_le, pair_leb. simpl.
  destruct (String.eqb_spec a1 b1) as [Hab|Hab];
    destruct (String.eqb_spec b1 c1) as [Hbc|Hbc];
    destruct (String.eqb_spec a1 c1) as [Hac|Hac];
    subst; try congruence; try apply str_leb_trans; auto.
  intros H1 H2. exfalso. apply Hab. apply str_leb_antisym; assumption.
Qed.

#[global] Instance pair_le_antisym : AntiSymm (=) pair_le.
Proof.
  intros [a1 a2] [b1 b2]. unfold pair_le, pair_leb. simpl.
  rewrite (String.eqb_sym b1 a1).
  destruct (String.eqb_spec a1 b1) as [->|Hne].
  - intros H1 H2. f_equal. apply str_leb_antisym; assumption.
  - intros H1 H2. exfalso. apply Hne. apply str_leb_antisym; assumption.
Qed.

(** `sorted` only depends on which pairs there are, and how often. *)
Lemma sorted_Permutation (l1 l2 : list (string * string)) :
  l1 ≡ₚ l2 -> sorted l1 = sorted l2.
Proof.
  intros Hp. unfold sorted.
  apply (Sorted_unique pair_le); try apply Sorted_merge_sort; try apply _.
  rewrite !merge_sort_Permutation. exact Hp.
Qed.

Section FingerprintCounterexample.
Import Plain.

(** C2 as stated fails in its second half: `?a=1&a=2` and `?a=2&a=1`
    repeat the name `a` with its values in a different order, and their
    fingerprints are equal. *)
Lemma duplicate_order_same_key :
  let cfg := with_status_codes default_status_codes CacheConfig_defaults in
  let url1 := "https://example.com/p?a=1&a=2"%string in
  let url2 := "https://example.com/p?a=2&a=1"%string in
  values_of "a" (QueryParams_multi_items (query (URL_parse url1))) = ["1"; "2"]%string /\
  values_of "a" (QueryParams_multi_items (query (URL_parse url2))) = ["2"; "1"]%string /\
  _build_key "GET" url1 None None cfg = _build_key "GET" url2 None None cfg.
Proof. vm_compute. repeat split. Qed.

End FingerprintCounterexample.

(** C2, amended. With the default key builder, two URLs that differ
    only in the order of their query parameters have equal
    fingerprints, whatever the method, body, headers and configuration;
    this includes two URLs that repeat a parameter name with the values
    in a different order, because the pairs are sorted by name and then
    by value. *)
Theorem query_order_same_key `{Httpx} `{Hashlib} (method url1 url2 : string)
    (body : option bytes) (hs : option RequestHeaders) (cfg : CacheConfig) :
  same_up_to_query_order url1 url2 ->
  _build_key method url1 body hs cfg = _build_key method url2 body hs cfg.
Proof.
  intros (Hs & Hh & Hp & Hq & Hperm).
  unfold _build_key, _sorted_query.
  rewrite Hs, Hh, Hp, Hq, (sorted_Permutation _ _ Hperm). reflexivity.
Qed.

Section FingerprintExamples.
Import Plain.

Lemma query_order_same_key_witness :
  same_up_to_query_order "https://example.com/p?b=2&a=1&a=0"
                         "https://example.com/p?a=0&b=2&a=1" /\
  _build_key "GET" "https://example.com/p?b=2&a=1&a=0" None None
    (with_status_codes default_status_codes CacheConfig_defaults) =
  _build_key "GET" "https://example.com/p?a=0&b=2&a=1" None None
    (with_status_codes default_status_codes CacheConfig_defaults).
Proof.
  assert (Hsame : same_up_to_query_order "https://example.com/p?b=2&a=1&a=0"
                    "https://example.com/p?a=0&b=2&a=1").
  { unfold same_up_to_query_order. simpl.
    repeat split.
    change (Plain.multi_items "b=2&a=1&a=0") with
      [("b", "2"); ("a", "1"); ("a", "0")]%string.
    change (Plain.multi_items "a=0&b=2&a=1") with
      [("a", "0"); ("b", "2"); ("a", "1")]%string.
    apply (Permutation_cons_app [("a", "0")] [("a", "1")]%string).
    apply Permutation_swap. }
  split; [exact Hsame|].
  exact (query_order_same_key "GET" _ _ None None _ Hsame).
Defined.

Example sorted_query_example :
  _sorted_query (URL_parse "https://example.com/p?b=2&a=1&a=0") =
  ("[[" +:+ dquote +:+ "a" +:+ dquote +:+ "," +:+ dquote +:+ "0" +:+ dquote
   +:+ "],[" +:+ dquote +:+ "a" +:+ dquote +:+ "," +:+ dquote +:+ "1" +:+ dquote
   +:+ "],[" +:+ dquote +:+ "b" +:+ dquote +:+ "," +:+ dquote +:+ "2" +:+ dquote
   +:+ "]]")%string.
Proof. vm_compute. reflexivity. Qed.

End FingerprintExamples.

(** ** Serialization round trip *)

#[global] Instance plain_codecs_lawful : CodecsLawful Plain.codecs.
Proof. split; reflexivity. Qed.

Lemma str_app_assoc (a b c : string) : (a +:+ b) +:+ c = a +:+ (b +:+ c).
Proof.
  induction a as [|x a IH]; [reflexivity|].
  change (String x ((a +:+ b) +:+ c) = String x (a +:+ (b +:+ c))).
  f_equal. exact IH.
Qed.




















Lemma supported_codec_roundtrip `{C : Codecs} `{!CodecsLawful C}
    (c : string) (b : bytes) :
  codec_supported c ->
  exists z, fst (COMPRESSORS_get c) b = Ok z /\ snd (COMPRESSORS_get c) z = Ok b.
Proof.
  intros [-> | [[-> Hl] | [[-> Hz] | ->]]]; unfold COMPRESSORS_get; simpl.
  - exists (gzip_write b). split; [reflexivity|apply gzip_read_write].
  - exists (lz4_frame_compress b). unfold _lz4_compress, _lz4_decompress.
    rewrite Hl. split; [reflexivity|apply lz4_decompress_compress].
  - exists (zstd_compress b). unfold _zstd_compress, _zstd_decompress.
    rewrite Hz. split; [reflexivity|apply zstd_decompress_compress].
  - exists b. split; reflexivity.
Qed.










Section SerializerExamples.
Import Plain.


End SerializerExamples.

(** ** The facade *)

Section FacadeProperties.
Context `{Httpx} `{Hashlib} `{Codecs} `{Msgpack} `{Fnmatch} `{HeaderParsers}.
Context {B I : Type} `{CacheBackend B} `{!HttpClient I}.

Local Abbreviation Facade := (CachedSgRequests (B:=B) (I:=I)).

Lemma _get_from_cache_frame (key : string) (self self1 : Facade)
    (r : Result (option Blob)) :
  _get_from_cache key self = (r, self1) -> same_but_cache self self1.
Proof.
  unfold _get_from_cache, same_but_cache.
  destruct (circuit_breaker self) as [cb|].
  - destruct (CircuitBreaker.call _ _ cb (backend self)) as [[r0 cb'] b'].
    destruct r0 as [v|e]; [|destruct (is_CircuitBreakerOpenError e)];
      intros [= <- <-]; simpl; tauto.
  - destruct (backend_get key (backend self)) as [r0 b'].
    intros [= <- <-]. simpl; tauto.
Qed.

Lemma _set_to_cache_frame (key : string) (value : Blob) (ttl : Z)
    (self self1 : Facade) (r : Result unit) :
  _set_to_cache key value ttl self = (r, self1) -> same_but_cache self self1.
Proof.
  unfold _set_to_cache, same_but_cache.
  destruct (circuit_breaker self) as [cb|].
  - destruct (CircuitBreaker.call _ _ cb (backend self)) as [[r0 cb'] b'].
    destruct r0 as [v|e]; [|destruct (is_CircuitBreakerOpenError e)];
      intros [= <- <-]; simpl; tauto.
  - destruct (backend_set key value ttl (clock self) (backend self)) as [r0 b'].
    intros [= <- <-]. simpl; tauto.
Qed.

Lemma deserialize_ok_truthy (blob : Blob) (x : Response * Time) :
  deserialize_response blob = Ok x -> blob_truthy blob = true.
Proof. destruct blob; [reflexivity|discriminate]. Qed.

(** The write block changes neither the log of upstream calls nor the
    threads. *)
Lemma write_to_cache_log (cache_write : bool) (key : string) (resp : Response)
    (self : Facade) :
  upstream_calls (write_to_cache cache_write key resp self) = upstream_calls self /\
  threads (write_to_cache cache_write key resp self) = threads self.
Proof.
  unfold write_to_cache.
  destruct (cache_write && _is_cacheable resp (config self)); [|tauto].
  destruct (serialize_response _ _ _) as [blob|e]; [|simpl; tauto].
  destruct (_set_to_cache key blob _ self) as [r self1] eqn:E.
  apply _set_to_cache_frame in E as (_ & _ & _ & _ & _ & _ & Hu & Ht).
  destruct r; simpl; rewrite Hu, Ht; tauto.
Qed.

(** `_fetch_response` calls the wrapped client once. *)
Lemma _fetch_response_log (method url : string) (kwargs : Kwargs)
    (self self1 : Facade) (r : Result Response) :
  _fetch_response method url kwargs self = (r, self1) ->
  upstream_calls self1 = upstream_calls self ++ [(method, url)] /\
  threads self1 = threads self /\ deduplicator self1 = deduplicator self.
Proof.
  unfold _fetch_response.
  destruct (inner_request method url kwargs (clock self) (inner self))
    as [[r0 i'] now'].
  destruct r0 as [resp|e]; [intros [= <- <-]; simpl; tauto|].
  cbn [config after_upstream].
  destruct (serve_stale_on_error (config self)); [|intros [= <- <-]; simpl; tauto].
  match goal with
  | |- context [backend_get ?k ?b] => destruct (backend_get k b) as [g b']
  end.
  destruct g as [[blob|]|e']; try (intros [= <- <-]; simpl; tauto).
  destruct (blob_truthy blob); [|intros [= <- <-]; simpl; tauto].
  destruct (deserialize_response blob) as [[resp cached_at]|e'];
    [|intros [= <- <-]; simpl; tauto].
  destruct (time_le _ _); intros [= <- <-]; simpl; tauto.
Qed.

(** On a miss with no fetch announced for the key, the wrapped client
    is called exactly once and no thread is started. *)
Lemma fetch_and_store_log (cache_read cache_write force_refresh : bool)
    (method url key : string) (kwargs : Kwargs) (self : Facade) :
  dedup_idle key self ->
  let out :=
    fetch_and_store cache_read cache_write force_refresh method url key
      kwargs self in
  upstream_calls (snd out) = upstream_calls self ++ [(method, url)] /\
  threads (snd out) = threads self /\ dedup_idle key (snd out).
Proof.
  intros Hidle out. subst out. unfold fetch_and_store, fetch_on_miss.
  set (self1 := with_stats _ self).
  assert (Hfetch : forall r s,
            _fetch_response method url kwargs self1 = (r, s) ->
            upstream_calls s = upstream_calls self ++ [(method, url)] /\
            threads s = threads self /\ deduplicator s = deduplicator self).
  { intros r s E. apply _fetch_response_log in E. exact E. }
  assert (Hwrite : forall (resp : Response) (s : Facade),
            upstream_calls s = upstream_calls self ++ [(method, url)] ->
            threads s = threads self -> dedup_idle key s ->
            upstream_calls (write_to_cache cache_write key resp s) =
              upstream_calls self ++ [(method, url)] /\
            threads (write_to_cache cache_write key resp s) = threads self /\
            dedup_idle key (write_to_cache cache_write key resp s)).
  { intros resp s Hu Ht Hd.
    destruct (write_to_cache_log cache_write key resp s) as [Hu' Ht'].
    rewrite Hu', Ht'. repeat split; try assumption.
    unfold dedup_idle in *.
    replace (deduplicator (write_to_cache cache_write key resp s))
      with (deduplicator s); [exact Hd|].
    unfold write_to_cache.
    destruct (cache_write && _); [|reflexivity].
    destruct (serialize_response _ _ _) as [blob|e]; [|reflexivity].
    destruct (_set_to_cache key blob _ s) as [r0 s1] eqn:E.
    apply _set_to_cache_frame in E as (_ & _ & _ & _ & Hdd & _).
    destruct r0; simpl; congruence. }
  assert (Hdirect :
    let out := match _fetch_response method url kwargs self1 with
               | (Raise e, s) => (Raise e, s)
               | (Ok resp, s) => (Ok resp, write_to_cache cache_write key resp s)
               end in
    upstream_calls (snd out) = upstream_calls self ++ [(method, url)] /\
    threads (snd out) = threads self /\ dedup_idle key (snd out)).
  { destruct (_fetch_response method url kwargs self1) as [r s] eqn:E.
    destruct (Hfetch r s eq_refl) as (Hu & Ht & Hd).
    assert (Hidle' : dedup_idle key s).
    { unfold dedup_idle. rewrite Hd. exact Hidle. }
    destruct r as [resp|e]; simpl; [apply Hwrite; assumption|tauto]. }
  change (deduplicator self1) with (deduplicator self).
  destruct (deduplicator self) as [d|] eqn:Ed; [|exact Hdirect].
  destruct ((cache_read || cache_write) && negb force_refresh); [|exact Hdirect].
  unfold RequestDeduplicator.get_or_fetch.
  unfold dedup_idle in Hidle. rewrite Ed in Hidle.
  rewrite bool_decide_eq_false_2 by exact Hidle.
  destruct (_fetch_response method url kwargs self1) as [r s] eqn:E.
  destruct (Hfetch r s eq_refl) as (Hu & Ht & Hd).
  set (d' := RequestDeduplicator.finish key r _).
  assert (Hidle' : dedup_idle key (with_deduplicator (Some d') s)).
  { unfold dedup_idle. simpl. subst d'.
    destruct r; simpl; intros Hin;
      apply elem_of_difference in Hin as [_ Hn]; apply Hn;
      apply elem_of_singleton; reflexivity. }
  destruct r as [resp|e]; simpl; [apply Hwrite; assumption|tauto].
Qed.

(** C5. A cache read that yields an entry `deserialize_response` can
    read, of age `a = now - cached_at` (the double `time.time() -
    cached_at` evaluates to, which is what the code compares):
    - `a <= ttl`: the cached response is returned as a hit; the wrapped
      client is not called and no thread is started;
    - `swr > 0` and `ttl < a <= ttl + swr`: the cached response is
      returned, the wrapped client is not called by the request, and
      exactly one refresh thread is started, for the key of the request;
    - otherwise (in particular `swr = 0` and `a > ttl`): the request
      goes on as a miss, and with no fetch for the key already announced
      the wrapped client is called once. *)
Theorem stale_while_revalidate (method0 url : string)
    (cache_read0 cache_write0 : option bool) (kwargs : Kwargs)
    (self self1 : Facade) (blob : Blob) (resp : Response) (cached_at : Time) :
  let method := str_upper method0 in
  let key := request_key method url kwargs self in
  let age := fsub (clock self) cached_at in
  let ttl := ttl_seconds (config self) in
  let swr := stale_while_revalidate_seconds (config self) in
  let out := request method0 url cache_read0 cache_write0 false kwargs self in
  effective_flag cache_read0 url self = true ->
  _get_from_cache key self = (Ok (Some blob), self1) ->
  deserialize_response blob = Ok (resp, cached_at) ->
  ((age <= inject_Z ttl)%Q ->
     out = (Ok resp, record_hit blob self1) /\
     upstream_calls (snd out) = upstream_calls self /\
     threads (snd out) = threads self) /\
  (0 < swr -> (inject_Z ttl < age)%Q -> (age <= inject_Z (ttl + swr))%Q ->
     out = (Ok resp,
            with_thread (mkRefreshTask method url key kwargs)
              (record_hit blob self1)) /\
     upstream_calls (snd out) = upstream_calls self /\
     threads (snd out) =
       threads self ++ [mkRefreshTask method url key kwargs]) /\
  (~ (age <= inject_Z ttl)%Q ->
   ~ (0 < swr /\ (age <= inject_Z (ttl + swr))%Q) ->
     out = fetch_and_store (effective_flag cache_read0 url self)
             (effective_flag cache_write0 url self) false method url key
             kwargs self1 /\
     (dedup_idle key self ->
        upstream_calls (snd out) = upstream_calls self ++ [(method, url)] /\
        threads (snd out) = threads self)).
Proof.
  intros method key age ttl swr out Hread Hget Hdes.
  pose proof (_get_from_cache_frame _ _ _ _ Hget)
    as (Hi & Hc & Hs & Hm & Hd & Hk & Hu & Ht).
  assert (Hout : out =
    if time_le age (inject_Z ttl) then (Ok resp, record_hit blob self1)
    else if (0 <? swr) && time_le age (inject_Z (ttl + swr)) then
      (Ok resp,
       with_thread (mkRefreshTask method url key kwargs) (record_hit blob self1))
    else fetch_and_store (effective_flag cache_read0 url self)
           (effective_flag cache_write0 url self) false method url key
           kwargs self1).
  { subst out. unfold request, read_from_cache.
    fold method. fold key. rewrite Hread. cbn [negb andb].
    rewrite Hget, (deserialize_ok_truthy _ _ Hdes), Hdes.
    rewrite Hc, Hk. fold age. fold ttl. fold swr.
    destruct (time_le age (inject_Z ttl)); [reflexivity|].
    destruct ((0 <? swr) && time_le age (inject_Z (ttl + swr))); reflexivity. }
  split; [|split].
  - intros Hfresh. apply time_le_spec in Hfresh. rewrite Hfresh in Hout.
    rewrite Hout. simpl. repeat split; assumption.
  - intros Hswr Hstale Hwin.
    assert (Hnf : time_le age (inject_Z ttl) = false).
    { destruct (time_le age (inject_Z ttl)) eqn:E; [|reflexivity].
      apply time_le_spec in E. exfalso. exact (Qlt_not_le _ _ Hstale E). }
    apply time_le_spec in Hwin. apply Z.ltb_lt in Hswr.
    rewrite Hnf, Hswr, Hwin in Hout. rewrite Hout. simpl.
    rewrite Hu, Ht. repeat split.
  - intros Hnf Hnw.
    assert (E1 : time_le age (inject_Z ttl) = false).
    { destruct (time_le age (inject_Z ttl)) eqn:E; [|reflexivity].
      apply time_le_spec in E. contradiction. }
    assert (E2 : (0 <? swr) && time_le age (inject_Z (ttl + swr)) = false).
    { destruct ((0 <? swr) && time_le age (inject_Z (ttl + swr))) eqn:E;
        [|reflexivity].
      apply andb_true_iff in E as [Ea Eb]. apply Z.ltb_lt in Ea.
      apply time_le_spec in Eb. exfalso. apply Hnw. split; assumption. }
    rewrite E1, E2 in Hout. split; [exact Hout|].
    intros Hidle. rewrite Hout.
    assert (Hidle1 : dedup_idle key self1).
    { unfold dedup_idle in *. rewrite Hd. exact Hidle. }
    destruct (fetch_and_store_log (effective_flag cache_read0 url self)
                (effective_flag cache_write0 url self) false method url key
                kwargs self1 Hidle1) as (Hu' & Ht' & _).
    rewrite Hu', Ht', Hu, Ht. split; reflexivity.
Qed.

Lemma enter_call_admits (s : Facade) (cb : CircuitBreaker.t) :
  circuit_breaker s = Some cb -> breaker_admits s ->
  exists cb1, CircuitBreaker.enter_call (clock s) cb = Ok cb1.
Proof.
  unfold breaker_admits, CircuitBreaker.enter_call. intros -> Hadm.
  destruct (CircuitBreaker.state cb) eqn:Es; eauto.
  destruct Hadm as [Hne|Hdue]; [congruence|].
  apply time_gt_spec in Hdue. rewrite Hdue. eauto.
Qed.

(** An open circuit on a read is a miss: nothing is raised, the backend
    is not asked. *)
Lemma open_circuit_read_is_miss (key : string) (self : Facade)
    (cb : CircuitBreaker.t) :
  circuit_breaker self = Some cb ->
  CircuitBreaker.state cb = CircuitBreaker.OPEN ->
  ~ recovery_due (clock self) cb ->
  _get_from_cache key self = (Ok None, self).
Proof.
  intros Hcb Hs Hnd. unfold _get_from_cache, CircuitBreaker.call,
    CircuitBreaker.enter_call. rewrite Hcb, Hs.
  apply time_gt_false in Hnd. rewrite Hnd. simpl.
  destruct self; simpl in *. subst. reflexivity.
Qed.

(** An exception of `backend.get` other than the breaker's own leaves
    `_get_from_cache` as it is, and with it `request`, before the
    wrapped client is called. *)
Lemma backend_get_error_leaves_request (method0 url : string)
    (cache_read0 cache_write0 : option bool) (kwargs : Kwargs)
    (self : Facade) (e : Exn) (b' : B) :
  let key := request_key (str_upper method0) url kwargs self in
  effective_flag cache_read0 url self = true ->
  breaker_admits self ->
  backend_get key (backend self) = (Raise e, b') ->
  is_CircuitBreakerOpenError e = false ->
  let out := request method0 url cache_read0 cache_write0 false kwargs self in
  fst out = Raise e /\ upstream_calls (snd out) = upstream_calls self.
Proof.
  intros key Hread Hadm Hget He out. subst out.
  unfold request, read_from_cache. fold key. rewrite Hread. cbn [negb andb].
  unfold _get_from_cache.
  destruct (circuit_breaker self) as [cb|] eqn:Ecb.
  - destruct (enter_call_admits self cb Ecb Hadm) as (cb1 & Hen).
    unfold CircuitBreaker.call. rewrite Hen, Hget, He. simpl. tauto.
  - rewrite Hget. simpl. tauto.
Qed.

End FacadeProperties.

Section ReadPathExamples.
Import Plain Scenario.

(** C3 at a failing input: a backend whose `get` raises, behind a
    closed breaker (the default configuration). The first request for a
    URL raises the backend's exception to the caller, and the wrapped
    client, which would have answered 200, is never called. *)
Lemma unreachable_backend_error_reaches_caller :
  let facade :=
    __init__ (mkDummyHttp 0 (Some 200)) unreachable default_config 0%Q in
  let out :=
    request "GET" "https://example.com/a" None None false
      (mkKwargs None None None None) facade in
  fst out = Raise (OtherError "ConnectionError") /\
  upstream_calls (snd out) = [].
Proof. vm_compute. split; reflexivity. Qed.

End ReadPathExamples.

(** ** The facade over the memory backend *)

Section MemoryFacade.
Context `{Httpx} `{Hashlib} `{Codecs} `{Msgpack} `{Fnmatch} `{HeaderParsers}.
Context {I : Type} `{!HttpClient I}.

Local Abbreviation MemFacade :=
  (CachedSgRequests (B:=gmap string (Blob * Time)) (I:=I)).

(** What `_fetch_response` returns when the wrapped client raises and
    stale entries may be served: it looks under the built-in
    fingerprint, whatever key the request was cached under. *)
Lemma _fetch_response_upstream_error (method url : string) (kwargs : Kwargs)
    (self : MemFacade) (e : Exn) (i' : I) (now' : Time) :
  inner_request method url kwargs (clock self) (inner self) = (Raise e, i', now') ->
  serve_stale_on_error (config self) = true ->
  fst (_fetch_response method url kwargs self) =
  match backend self !! _build_key method url (content_for_key method url kwargs)
                           (kw_headers kwargs) (config self) with
  | Some (blob, _) =>
      match deserialize_response blob with
      | Ok (resp, cached_at) =>
          if time_le (fsub now' cached_at)
               (inject_Z (max_stale_age_seconds (config self)))
          then Ok resp else Raise e
      | Raise _ => Raise e
      end
  | None => Raise e
  end.
Proof.
  intros Hup Hserve. unfold _fetch_response. rewrite Hup.
  cbn [config after_upstream backend clock]. rewrite Hserve.
  cbn [backend_get MemoryCacheBackend_backend]. unfold MemoryCacheBackend.get.
  destruct (backend self !! _) as [[blob exp]|]; [|reflexivity].
  destruct (deserialize_response blob) as [[resp cached_at]|e'] eqn:Ed.
  - rewrite (deserialize_ok_truthy _ _ Ed). cbn [clock config with_backend].
    destruct (time_le _ _); reflexivity.
  - destruct (blob_truthy blob); reflexivity.
Qed.

(** C10. With a `key_builder` configured, the request is cached under
    the key the builder returns, while the lookup `_fetch_response` does
    when the wrapped client raises uses the built-in `_build_key`. When
    the two keys differ, what is stored under the builder's key has no
    influence on the outcome (the entry is never found), and with
    nothing stored under the built-in key the upstream exception
    propagates, however young the entry under the builder's key is. *)
Theorem stale_lookup_ignores_key_builder (method url : string)
    (kwargs : Kwargs) (self : MemFacade) (kb : KeyBuilder) (e : Exn)
    (i' : I) (now' : Time) (entry : Blob * Time) :
  let content_bytes := content_for_key method url kwargs in
  let custom_key := kb method url content_bytes (kw_headers kwargs) in
  let default_key :=
    _build_key method url content_bytes (kw_headers kwargs) (config self) in
  let stored := with_backend (<[custom_key := entry]> (backend self)) self in
  let absent := with_backend (base.delete custom_key (backend self)) self in
  key_builder (config self) = Some kb ->
  serve_stale_on_error (config self) = true ->
  inner_request method url kwargs (clock self) (inner self) = (Raise e, i', now') ->
  custom_key <> default_key ->
  request_key method url kwargs stored = custom_key /\
  fst (_fetch_response method url kwargs stored) =
    fst (_fetch_response method url kwargs absent) /\
  (backend self !! default_key = None ->
   fst (_fetch_response method url kwargs stored) = Raise e).
Proof.
  intros content_bytes custom_key default_key stored absent Hkb Hserve Hup Hne.
  split; [unfold request_key; cbn [config stored with_backend]; rewrite Hkb; reflexivity|].
  rewrite (_fetch_response_upstream_error method url kwargs stored e i' now')
    by assumption.
  rewrite (_fetch_response_upstream_error method url kwargs absent e i' now')
    by assumption.
  cbn [backend config stored absent with_backend].
  fold content_bytes. fold default_key.
  rewrite lookup_insert_ne by exact Hne.
  rewrite lookup_delete_ne by exact Hne.
  split; [reflexivity|]. intros ->. reflexivity.
Qed.

Lemma _is_cacheable_spec (r : Response) (cfg : CacheConfig) :
  _is_cacheable r cfg = true <-> cacheable r cfg.
Proof.
  unfold _is_cacheable, cacheable, cacheable_prefix, content_type_of.
  set (ctype := str_lower _).
  destruct (bool_decide_reflect (status_code r ∈ cacheable_status_codes cfg))
    as [Hin|Hin]; cbn [negb]; [|split; [discriminate|tauto]].
  destruct (Z.eqb_spec (status_code r) 204) as [E|E];
    [split; [discriminate|tauto]|].
  destruct (Z.ltb_spec (max_bytes cfg) (len_bytes (content r))) as [Hl|Hl].
  - destruct (str_truthy ctype && _); (split; [discriminate|lia]).
  - destruct ctype as [|c s] eqn:Ec; cbn [str_truthy andb].
    + split; [|reflexivity]. intros _. repeat split; auto.
    + destruct (startswith (String c s) "text/");
        destruct (startswith (String c s) "application/json");
        destruct (startswith (String c s) "application/xhtml");
        cbn [orb negb]; split; try discriminate; try reflexivity;
        try (intros _; repeat split; auto; fail).
      intros (_ & _ & [Hemp|[Hp|[Hp|Hp]]] & _); discriminate.
Qed.

(** Under the default policy a 4xx or 5xx response is not cacheable. *)
Lemma error_status_not_cacheable (r : Response) (cfg : CacheConfig) :
  cacheable_status_codes cfg = default_status_codes ->
  400 <= status_code r < 600 ->
  _is_cacheable r cfg = false.
Proof.
  intros Hcodes Hst. unfold _is_cacheable. rewrite Hcodes.
  rewrite bool_decide_eq_false_2; [reflexivity|].
  unfold default_status_codes. rewrite elem_of_list_to_set, elem_of_seqZ. lia.
Qed.

Lemma write_to_cache_skips (cache_write : bool) (key : string)
    (resp : Response) (self : MemFacade) :
  cache_write && _is_cacheable resp (config self) = false ->
  write_to_cache cache_write key resp self = self.
Proof. intros Hno. unfold write_to_cache. rewrite Hno. reflexivity. Qed.

(** With the breaker letting the call through, a cacheable response is
    in the memory backend after the write block, under the key of the
    request, with the expiry the TTL gives. *)
Lemma write_to_cache_stores (key : string) (resp : Response)
    (self : MemFacade) (blob : Blob) :
  _is_cacheable resp (config self) = true ->
  breaker_admits self ->
  serialize_response (clock self) resp (compression (config self)) = Ok blob ->
  backend (write_to_cache true key resp self) =
    <[key := (blob, fadd (clock self) (write_ttl resp self))]>
      (backend self).
Proof.
  intros Hc Hadm Hser. unfold write_to_cache. rewrite Hc, Hser. cbn [andb].
  unfold _set_to_cache.
  destruct (circuit_breaker self) as [cb|] eqn:Ecb.
  - destruct (enter_call_admits self cb Ecb Hadm) as (cb1 & Hen).
    unfold CircuitBreaker.call. rewrite Hen. reflexivity.
  - reflexivity.
Qed.

(** A read of a key the memory backend does not hold finds nothing and
    raises nothing. *)
Lemma _get_from_cache_absent (key : string) (self : MemFacade) :
  backend self !! key = None ->
  exists self1,
    _get_from_cache key self = (Ok None, self1) /\
    same_but_cache self self1 /\ backend self1 = backend self.
Proof.
  intros Hnone. unfold _get_from_cache.
  destruct (circuit_breaker self) as [cb|] eqn:Ecb.
  - unfold CircuitBreaker.call.
    destruct (CircuitBreaker.enter_call (clock self) cb) as [cb1|e] eqn:Een.
    + cbn [backend_get MemoryCacheBackend_backend].
      unfold MemoryCacheBackend.get. rewrite Hnone.
      eexists. split; [reflexivity|]. unfold same_but_cache. simpl. tauto.
    + assert (e = CircuitBreakerOpenError) as ->.
      { unfold CircuitBreaker.enter_call in Een.
        destruct (CircuitBreaker.state cb); try discriminate.
        destruct (time_gt _ _); congruence. }
      eexists. split; [reflexivity|]. unfold same_but_cache. simpl. tauto.
  - cbn [backend_get MemoryCacheBackend_backend].
    unfold MemoryCacheBackend.get. rewrite Hnone.
    eexists. split; [reflexivity|]. unfold same_but_cache. simpl. tauto.
Qed.

(** A miss whose upstream response is not cacheable: the response is
    returned, the wrapped client has been called once, and the backend
    holds what it held. *)
Lemma fetch_and_store_uncacheable (cache_read cache_write force_refresh : bool)
    (method url key : string) (kwargs : Kwargs) (self : MemFacade)
    (resp : Response) (i' : I) (now' : Time) :
  dedup_idle key self ->
  inner_request method url kwargs (clock self) (inner self) = (Ok resp, i', now') ->
  _is_cacheable resp (config self) = false ->
  exists self',
    fetch_and_store cache_read cache_write force_refresh method url key
      kwargs self = (Ok resp, self') /\
    settled key self self' /\
    upstream_calls self' = upstream_calls self ++ [(method, url)] /\
    inner self' = i' /\ clock self' = now'.
Proof.
  intros Hidle Hup Hnc.
  pose proof (fetch_and_store_log cache_read cache_write force_refresh method
                url key kwargs self Hidle) as Hlog.
  cbv zeta in Hlog. revert Hlog.
  unfold fetch_and_store, fetch_on_miss. set (self1 := with_stats _ self).
  assert (Hfetch : _fetch_response method url kwargs self1 =
                   (Ok resp, after_upstream method url i' now' self1)).
  { unfold _fetch_response. change (clock self1) with (clock self).
    change (inner self1) with (inner self). rewrite Hup. reflexivity. }
  assert (Hskip : forall s : MemFacade, config s = config self ->
            write_to_cache cache_write key resp s = s).
  { intros s Hcfg. apply write_to_cache_skips. rewrite Hcfg, Hnc.
    apply andb_false_r. }
  change (deduplicator self1) with (deduplicator self).
  destruct (deduplicator self) as [d|] eqn:Ed.
  - destruct ((cache_read || cache_write) && negb force_refresh).
    + unfold RequestDeduplicator.get_or_fetch.
      unfold dedup_idle in Hidle. rewrite Ed in Hidle.
      rewrite bool_decide_eq_false_2 by exact Hidle.
      rewrite Hfetch. rewrite Hskip by reflexivity. cbn [snd].
      intros (Hu & _ & Hd). eexists. split; [reflexivity|].
      split; [|split; [exact Hu|split; reflexivity]].
      unfold settled. simpl. tauto.
    + rewrite Hfetch. rewrite Hskip by reflexivity. cbn [snd].
      intros (Hu & _ & Hd). eexists. split; [reflexivity|].
      split; [|split; [exact Hu|split; reflexivity]].
      unfold settled. simpl. tauto.
  - rewrite Hfetch. rewrite Hskip by reflexivity. cbn [snd].
    intros (Hu & _ & Hd). eexists. split; [reflexivity|].
    split; [|split; [exact Hu|split; reflexivity]].
    unfold settled. simpl. tauto.
Qed.

(** One request for a key the backend does not hold, answered upstream
    with a response that is not cacheable. *)
Lemma request_uncacheable (method0 url : string)
    (cache_read0 cache_write0 : option bool) (force_refresh : bool)
    (kwargs : Kwargs) (self : MemFacade) (resp : Response) (i' : I)
    (now' : Time) :
  let method := str_upper method0 in
  let key := request_key method url kwargs self in
  backend self !! key = None ->
  dedup_idle key self ->
  inner_request method url kwargs (clock self) (inner self) = (Ok resp, i', now') ->
  _is_cacheable resp (config self) = false ->
  exists self',
    request method0 url cache_read0 cache_write0 force_refresh kwargs self =
      (Ok resp, self') /\
    settled key self self' /\
    upstream_calls self' = upstream_calls self ++ [(method, url)] /\
    inner self' = i' /\ clock self' = now'.
Proof.
  intros method key Hnone Hidle Hup Hnc.
  unfold request. fold method. fold key.
  assert (Hread : exists self1,
            read_from_cache (effective_flag cache_read0 url self) force_refresh
              method url key kwargs self = Missed self1 /\
            same_but_cache self self1 /\ backend self1 = backend self).
  { unfold read_from_cache.
    destruct (effective_flag cache_read0 url self && negb force_refresh).
    - destruct (_get_from_cache_absent key self Hnone) as (self1 & Hget & Hsame & Hb).
      rewrite Hget. eauto.
    - exists self. unfold same_but_cache. tauto. }
  destruct Hread as (self1 & -> & (Hi & Hc & _ & Hm & Hd & Hk & Hu & _) & Hb).
  destruct (fetch_and_store_uncacheable (effective_flag cache_read0 url self)
              (effective_flag cache_write0 url self) force_refresh method url
              key kwargs self1 resp i' now')
    as (self' & Hout & (Hb' & Hc' & Hm' & Hd') & Hu' & Hi' & Hk').
  - unfold dedup_idle in *. rewrite Hd. exact Hidle.
  - rewrite Hk, Hi. exact Hup.
  - rewrite Hc. exact Hnc.
  - exists self'. split; [exact Hout|].
    split; [|split; [congruence|split; assumption]].
    unfold settled. repeat split; congruence.
Qed.

(** C1, amended. For every response and configuration:
    - the cacheability predicate holds iff the status is in
      `cacheable_status_codes`, is not 204, the content type (lower
      case) is absent, empty or begins with `text/`, `application/json`
      or `application/xhtml`, and the body is no longer than
      `max_bytes`;
    - after an upstream fetch that returned a response, what remains of
      the request is the write block; that block leaves the facade as
      it is unless `cache_write` is in effect and the predicate holds,
      and in that case hands the serialized response to the backend,
      where it is stored under the key of the request whenever the
      circuit breaker lets the call through;
    - under the default status policy no 4xx or 5xx response is
      cacheable, and two sequential identical requests for a key the
      backend does not hold, each answered upstream with 4xx or 5xx,
      both return the upstream response, call the wrapped client twice
      and leave the backend as it was. *)
Theorem cache_write_policy (method0 url : string)
    (cache_read0 cache_write0 : option bool) (force_refresh : bool)
    (kwargs : Kwargs) (self : MemFacade) :
  let method := str_upper method0 in
  let key := request_key method url kwargs self in
  let cache_read := effective_flag cache_read0 url self in
  let cache_write := effective_flag cache_write0 url self in
  (forall (r : Response) (cfg : CacheConfig),
     _is_cacheable r cfg = true <-> cacheable r cfg) /\
  (forall (s s2 : MemFacade) (r : Response),
     fetch_on_miss cache_read cache_write force_refresh method url key kwargs
       (with_stats (CacheStats.increment_miss (stats s)) s) = (Ok r, s2) ->
     fetch_and_store cache_read cache_write force_refresh method url key
       kwargs s = (Ok r, write_to_cache cache_write key r s2)) /\
  (forall (s : MemFacade) (r : Response) (cw : bool),
     (cw = true /\ cacheable r (config s) ->
      breaker_admits s ->
      forall blob,
        serialize_response (clock s) r (compression (config s)) = Ok blob ->
        backend (write_to_cache cw key r s) =
          <[key := (blob, fadd (clock s) (write_ttl r s))]> (backend s)) /\
     (~ (cw = true /\ cacheable r (config s)) ->
      write_to_cache cw key r s = s)) /\
  (forall (r : Response) (cfg : CacheConfig),
     cacheable_status_codes cfg = default_status_codes ->
     400 <= status_code r < 600 ->
     _is_cacheable r cfg = false) /\
  (cacheable_status_codes (config self) = default_status_codes ->
   backend self !! key = None ->
   dedup_idle key self ->
   forall (resp1 resp2 : Response) (i1 i2 : I) (now1 now2 : Time),
   inner_request method url kwargs (clock self) (inner self) =
     (Ok resp1, i1, now1) ->
   inner_request method url kwargs now1 i1 = (Ok resp2, i2, now2) ->
   400 <= status_code resp1 < 600 ->
   400 <= status_code resp2 < 600 ->
   exists s1 s2,
     request method0 url cache_read0 cache_write0 force_refresh kwargs self =
       (Ok resp1, s1) /\
     request method0 url cache_read0 cache_write0 force_refresh kwargs s1 =
       (Ok resp2, s2) /\
     upstream_calls s2 =
       upstream_calls self ++ [(method, url); (method, url)] /\
     backend s2 = backend self).
Proof.
  intros method key cache_read cache_write.
  split; [exact _is_cacheable_spec|].
  split.
  { intros s s2 r Hfetch. unfold fetch_and_store. rewrite Hfetch. reflexivity. }
  split.
  { intros s r cw. split.
    - intros [-> Hc] Hadm blob Hser. apply _is_cacheable_spec in Hc.
      apply write_to_cache_stores; assumption.
    - intros Hno. apply write_to_cache_skips.
      destruct cw; [|reflexivity].
      destruct (_is_cacheable r (config s)) eqn:E; [|reflexivity].
      exfalso. apply Hno. split; [reflexivity|].
      apply _is_cacheable_spec. exact E. }
  split; [exact error_status_not_cacheable|].
  intros Hcodes Hnone Hidle resp1 resp2 i1 i2 now1 now2 Hup1 Hup2 Hst1 Hst2.
  destruct (request_uncacheable method0 url cache_read0 cache_write0
              force_refresh kwargs self resp1 i1 now1 Hnone Hidle Hup1)
    as (s1 & Hr1 & (Hb1 & Hc1 & Hm1 & Hd1) & Hu1 & Hi1 & Hk1).
  { apply error_status_not_cacheable; assumption. }
  assert (Hkey : request_key method url kwargs s1 = key).
  { unfold key, request_key. rewrite Hc1. reflexivity. }
  destruct (request_uncacheable method0 url cache_read0 cache_write0
              force_refresh kwargs s1 resp2 i2 now2)
    as (s2 & Hr2 & (Hb2 & Hc2 & Hm2 & Hd2) & Hu2 & _).
  { fold method. rewrite Hkey, Hb1. exact Hnone. }
  { fold method. rewrite Hkey. exact Hd1. }
  { fold method. rewrite Hk1, Hi1. exact Hup2. }
  { apply error_status_not_cacheable; [rewrite Hc1; exact Hcodes|exact Hst2]. }
  exists s1, s2.
  split; [exact Hr1|]. split; [exact Hr2|].
  split; [|congruence].
  rewrite Hu2, Hu1, <- app_assoc. reflexivity.
Qed.

End MemoryFacade.

(** ** The scenarios of the test suite and of the claims, run *)

Section FacadeExamples.
Import Plain Scenario.

(** `test_get_cached_roundtrip`: the second `GET` is served from the
    cache. *)
Example get_cached_roundtrip :
  let s0 := __init__ (mkDummyHttp 0 (Some 200)) empty_backend default_config 0%Q in
  let '(r1, s1) := get s0 in
  let '(r2, s2) := get s1 in
  (content <$> (match r1 with Ok r => Some r | Raise _ => None end)) =
    Some (bytes_of_string "ok-1") /\
  (content <$> (match r2 with Ok r => Some r | Raise _ => None end)) =
    Some (bytes_of_string "ok-1") /\
  calls (inner s2) = 1%N /\
  CacheStats.hits (stats s2) = 1 /\ CacheStats.misses (stats s2) = 1.
Proof. vm_compute. repeat split. Qed.

(** `test_4xx_errors_not_cached` *)
Example errors_not_cached :
  let s0 := __init__ (mkDummyHttp 0 (Some 404)) empty_backend default_config 0%Q in
  let '(r1, s1) := get s0 in
  let '(r2, s2) := get s1 in
  (status_code <$> (match r2 with Ok r => Some r | Raise _ => None end)) = Some 404 /\
  calls (inner s2) = 2%N /\ backend s2 = ∅.
Proof. vm_compute. repeat split. Qed.

(** `test_stale_while_revalidate`, calls three and four: the stale body
    is served at 1.1 s, the refresh thread fetches `ok-2` and stores it,
    and the next call is a fresh hit on the new body without another
    upstream call. *)
Example stale_then_refreshed :
  let s := aged swr_config (11 # 10)%Q (mkDummyHttp 1 (Some 200)) in
  let '(r3, s3) := get s in
  let s3' := fold_left (fun st task => _background_refresh task st) (threads s3) s3 in
  let '(r4, s4) := get s3' in
  (content <$> (match r3 with Ok r => Some r | Raise _ => None end)) =
    Some (bytes_of_string "ok-1") /\
  calls (inner s3) = 1%N /\
  (content <$> (match r4 with Ok r => Some r | Raise _ => None end)) =
    Some (bytes_of_string "ok-2") /\
  calls (inner s4) = 2%N.
Proof. vm_compute. repeat split. Qed.

(** The age is rounded before it is compared. An entry stored at 0.1
    and read at 1.1 with a TTL of 1 s and a window of 5 s: the two
    doubles differ by a little more than 1, the age the code computes
    is 1.0, and the entry is served as a fresh hit: no refresh thread
    is started and the wrapped client is not called again. *)
Example fresh_at_rounded_age :
  let s0 :=
    __init__ (mkDummyHttp 0 (Some 200)) empty_backend swr_config (1 # 10)%Q in
  let s1 := with_clock (11 # 10)%Q (snd (get s0)) in
  let '(r2, s2) := get s1 in
  (1 < fl64 (11 # 10) - fl64 (1 # 10))%Q /\
  fsub (clock s1) (1 # 10) = 1%Q /\
  (content <$> (match r2 with Ok r => Some r | Raise _ => None end)) =
    Some (bytes_of_string "ok-1") /\
  calls (inner s2) = 1%N /\
  threads s2 = [] /\
  CacheStats.hits (stats s2) = 1.
Proof. vm_compute. repeat split. Qed.

(** C1 as stated fails: a response whose content-type header is there
    and empty does not meet the predicate in the words of the
    specification, and the facade stores it. *)
Lemma empty_content_type_is_stored :
  let s0 :=
    __init__ (mkCanned (Ok empty_content_type) 0) empty_backend
      default_config 0%Q in
  let out := get s0 in
  ~ cacheable_as_specified empty_content_type default_config /\
  effective_flag None example_url s0 = true /\
  fst out = Ok empty_content_type /\
  exists blob,
    serialize_response 0%Q empty_content_type "gzip" = Ok blob /\
    backend (snd out) !! request_key "GET" example_url no_kwargs s0 =
      Some (blob, 86400%Q).
Proof.
  split.
  { intros (_ & _ & [Habs|[Hp|[Hp|Hp]]] & _); vm_compute in *; discriminate. }
  split; [reflexivity|]. split; [reflexivity|].
  eexists. split; [reflexivity|]. vm_compute. reflexivity.
Qed.

(** The write is also subject to the circuit breaker. A backend that is
    down for five reads opens the circuit (each of the five requests
    raises the backend's error); the sixth request, one second later
    and with the backend up again, fetches a cacheable response with
    `cache_write` in effect, and nothing is stored: the seventh request
    fetches again. *)
Example open_circuit_skips_cacheable_write :
  let s0 := __init__ (mkDummyHttp 0 (Some 200)) (mkFlaky 5 ∅) default_config 0%Q in
  let s5 := snd (get (snd (get (snd (get (snd (get (snd (get s0))))))))) in
  let '(r6, s6) := get (with_clock 1%Q s5) in
  let '(r7, s7) := get s6 in
  (CircuitBreaker.state <$> circuit_breaker s5) = Some CircuitBreaker.OPEN /\
  calls (inner s5) = 0%N /\
  match r6 with Ok r => _is_cacheable r default_config | Raise _ => false end
    = true /\
  effective_flag None example_url s5 = true /\
  flaky_data (backend s6) = ∅ /\
  calls (inner s7) = 2%N.
Proof. vm_compute. repeat split. Qed.

(** Two `GET`s of one URL against a `DummyHttp` answering 404. *)
Lemma cache_write_policy_witness :
  let s0 := __init__ (mkDummyHttp 0 (Some 404)) empty_backend default_config 0%Q in
  exists s1 s2,
    get s0 = (Ok (mkResponse 404 [] (bytes_of_string "ok-1")
                    "https://example.com/" "HTTP/1.1" "OK" (Some "utf-8"%string)), s1) /\
    get s1 = (Ok (mkResponse 404 [] (bytes_of_string "ok-2")
                    "https://example.com/" "HTTP/1.1" "OK" (Some "utf-8"%string)), s2) /\
    upstream_calls s2 = [("GET", example_url); ("GET", example_url)]%string /\
    backend s2 = ∅.
Proof.
  intros s0.
  destruct (cache_write_policy "GET" example_url None None false no_kwargs s0)
    as (_ & _ & _ & _ & Htwo).
  assert (Hidle : dedup_idle (request_key (str_upper "GET") example_url no_kwargs s0) s0).
  { unfold dedup_idle. simpl. apply not_elem_of_empty. }
  destruct (Htwo eq_refl (lookup_empty _) Hidle
              (mkResponse 404 [] (bytes_of_string "ok-1")
                 "https://example.com/" "HTTP/1.1" "OK" (Some "utf-8"%string))
              (mkResponse 404 [] (bytes_of_string "ok-2")
                 "https://example.com/" "HTTP/1.1" "OK" (Some "utf-8"%string))
              (mkDummyHttp 1 (Some 404)) (mkDummyHttp 2 (Some 404)) 0%Q 0%Q
              eq_refl eq_refl)
    as (s1 & s2 & H1 & H2 & Hu & Hb); [simpl; lia|simpl; lia|].
  exists s1, s2. repeat split; assumption.
Defined.

(** The scenario of `test_stale_while_revalidate`, third call: TTL 1 s,
    window 5 s, the entry 1.1 s old. The stale body is returned, the
    wrapped client is not called, one thread is started. *)
Lemma stale_while_revalidate_witness :
  let s := aged swr_config (11 # 10)%Q (mkDummyHttp 1 (Some 200)) in
  let out := get s in
  exists resp,
    fst out = Ok resp /\
    content resp = bytes_of_string "ok-1" /\
    upstream_calls (snd out) = upstream_calls s /\
    threads (snd out) =
      [mkRefreshTask "GET" example_url
         (request_key "GET" example_url no_kwargs s) no_kwargs].
Proof.
  intros s out.
  pose (key := request_key "GET" example_url no_kwargs s).
  pose (got := _get_from_cache key s).
  pose (blob := match fst got with
                | Ok (Some b) => b
                | _ => Unreadable []
                end).
  pose (parsed := match deserialize_response blob with
                  | Ok x => x
                  | Raise _ => (empty_content_type, 0%Q)
                  end).
  assert (Hget : _get_from_cache key s = (Ok (Some blob), snd got)).
  { vm_compute. reflexivity. }
  assert (Hdes : deserialize_response blob = Ok (fst parsed, snd parsed)).
  { vm_compute. reflexivity. }
  destruct (stale_while_revalidate "GET" example_url None None no_kwargs s
              (snd got) blob (fst parsed) (snd parsed) eq_refl Hget Hdes)
    as (_ & Hstale & _).
  destruct Hstale as (Hout & Hu & Ht).
  - vm_compute. reflexivity.
  - vm_compute. reflexivity.
  - vm_compute. discriminate.
  - exists (fst parsed). subst out. unfold get.
    split; [rewrite Hout; reflexivity|].
    split; [vm_compute; reflexivity|].
    split; [exact Hu|]. rewrite Ht. reflexivity.
Defined.

(** The builder of `test_custom_key_builder`, an entry 100 s old under
    the builder's key, a limit of 86400 s, and a wrapped client that
    raises: the entry is not found and the exception propagates. *)
Lemma stale_lookup_ignores_key_builder_witness :
  let self :=
    __init__ (mkDummyHttp 1 None) empty_backend
      (stale_config (Some custom_builder)) 100%Q in
  let blob :=
    packb (mkPayload (Some 200) (Some example_url) (Some "HTTP/1.1"%string)
             (Some "OK"%string) (Some []) None (Some 0%Q) (Some "none"%string)
             (Some (bytes_of_string "ok-1")) None) in
  let stored :=
    with_backend (<["GET:https://example.com/a"%string := (blob, 60%Q)]> (backend self))
      self in
  (exists resp, deserialize_response blob = Ok (resp, 0%Q)) /\
  (fsub 100 0 <= inject_Z (max_stale_age_seconds (config self)))%Q /\
  request_key "GET" example_url no_kwargs stored = "GET:https://example.com/a"%string /\
  fst (_fetch_response "GET" example_url no_kwargs stored) =
    Raise (OtherError "httpx.ConnectError").
Proof.
  intros self blob stored.
  split; [eexists; reflexivity|].
  split; [vm_compute; discriminate|].
  assert (Hup : inner_request "GET" example_url no_kwargs (clock self) (inner self) =
                (Raise (OtherError "httpx.ConnectError"), mkDummyHttp 2 None, 100%Q)).
  { reflexivity. }
  destruct (stale_lookup_ignores_key_builder "GET" example_url no_kwargs self
              custom_builder (OtherError "httpx.ConnectError")
              (mkDummyHttp 2 None) 100%Q (blob, 60%Q) eq_refl eq_refl Hup)
    as (Hkey & _ & Hraise).
  - vm_compute. discriminate.
  - split; [exact Hkey|]. apply Hraise. apply lookup_empty.
Defined.

(** C8 at a failing input: `serve_stale_on_error` with the builder of
    `test_custom_key_builder`. The entry cached for the request is
    100 s old, readable and younger than `max_stale_age_seconds`; the
    wrapped client raises; the request raises too. Without the builder
    the same request is answered from the stale entry. *)
Lemma stale_entry_not_served_with_key_builder :
  let s := aged (stale_config (Some custom_builder)) 100%Q (mkDummyHttp 1 None) in
  let s' := aged (stale_config None) 100%Q (mkDummyHttp 1 None) in
  (exists blob expiry resp,
     backend s !! request_key "GET" example_url no_kwargs s = Some (blob, expiry) /\
     deserialize_response blob = Ok (resp, 0%Q) /\
     (fsub (clock s) 0 <= inject_Z (max_stale_age_seconds (config s)))%Q) /\
  fst (get s) = Raise (OtherError "httpx.ConnectError") /\
  (content <$> (match fst (get s') with Ok r => Some r | Raise _ => None end)) =
    Some (bytes_of_string "ok-1").
Proof.
  intros s s'. split; [|split; vm_compute; reflexivity].
  eexists. eexists. eexists.
  split; [vm_compute; reflexivity|].
  split; [vm_compute; reflexivity|vm_compute; discriminate].
Qed.

End FacadeExamples.

(** * Further properties *)

(** ** The memory backend *)

(** X1. What `set` stores `get` returns at any later time, also once
    `is_expired` reports the entry expired; other keys are not touched;
    a deleted key is gone, and deleting a key that is not there changes
    nothing. *)
Theorem memory_set_get_delete (now later : Time) (key other : string)
    (value : Blob) (ttl : Z) (data : gmap string (Blob * Time)) :
  let data' := MemoryCacheBackend.set key value ttl now data in
  MemoryCacheBackend.get key data' = Some value /\
  ((fadd now ttl <= fl64 later)%Q ->
     MemoryCacheBackend.is_expired later key data' = true /\
     MemoryCacheBackend.get key data' = Some value) /\
  (other <> key ->
     MemoryCacheBackend.get other data' = MemoryCacheBackend.get other data) /\
  MemoryCacheBackend.get key (MemoryCacheBackend.delete key data') = None /\
  (data !! key = None -> MemoryCacheBackend.delete key data = data).
Proof.
  intros data'. unfold data', MemoryCacheBackend.get, MemoryCacheBackend.set,
    MemoryCacheBackend.is_expired, MemoryCacheBackend.delete.
  rewrite lookup_insert_eq, lookup_delete_eq.
  split; [reflexivity|]. split.
  { intros Hle. split; [|reflexivity]. apply time_le_spec. exact Hle. }
  split; [intros Hne; rewrite lookup_insert_ne by congruence; reflexivity|].
  split; [reflexivity|]. apply delete_id.
Qed.

Lemma memory_set_get_delete_witness :
  (fadd 0 60 <= fl64 100)%Q /\
  MemoryCacheBackend.is_expired 100%Q "k"
    (MemoryCacheBackend.set "k" (Unreadable []) 60 0%Q ∅) = true /\
  MemoryCacheBackend.get "k"
    (MemoryCacheBackend.set "k" (Unreadable []) 60 0%Q ∅) = Some (Unreadable []).
Proof.
  assert (Hle : (fadd 0 60 <= fl64 100)%Q) by (vm_compute; discriminate).
  split; [exact Hle|].
  destruct (memory_set_get_delete 0%Q 100%Q "k" "k" (Unreadable []) 60 ∅)
    as (_ & Hexp & _).
  exact (Hexp Hle).
Defined.

Lemma fold_delete_lookup (keys : list string) (data : gmap string (Blob * Time))
    (k : string) :
  fold_left (fun d k => base.delete k d) keys data !! k =
  if bool_decide (k ∈ keys) then None else data !! k.
Proof.
  revert data. induction keys as [|k0 keys IH]; intros data.
  - case_bool_decide as Hin; [|reflexivity]. apply elem_of_nil in Hin. contradiction.
  - cbn [fold_left]. rewrite IH. destruct (decide (k = k0)) as [->|Hne].
    + rewrite lookup_delete_eq.
      rewrite (bool_decide_eq_true_2 (k0 ∈ k0 :: keys)) by left.
      case_bool_decide; reflexivity.
    + rewrite lookup_delete_ne by congruence.
      repeat case_bool_decide; try reflexivity.
      * exfalso. match goal with H : ~ _ |- _ => apply H end. right. assumption.
      * exfalso. match goal with H : _ ∈ _ :: _ |- _ =>
          apply elem_of_cons in H as [?|?] end; contradiction.
Qed.

Lemma elem_of_expired_keys (now : Time) (data : gmap string (Blob * Time))
    (k : string) :
  k ∈ expired_keys now data <->
  exists value exp,
    data !! k = Some (value, exp) /\ time_le exp (fl64 now) = true.
Proof.
  unfold expired_keys. rewrite list_elem_of_In, in_map_iff. split.
  - intros ([k' [v exp]] & Hk & Hin). simpl in Hk. subst k'.
    apply filter_In in Hin as [Hin Hexp]. simpl in Hexp.
    apply list_elem_of_In, elem_of_map_to_list in Hin. eauto.
  - intros (v & exp & Hl & Hexp). exists (k, (v, exp)). split; [reflexivity|].
    apply filter_In. split; [|exact Hexp].
    apply list_elem_of_In, elem_of_map_to_list. exact Hl.
Qed.

Lemma NoDup_fst_filter {A : Type} (f : string * A -> bool) (l : list (string * A)) :
  NoDup (map fst l) -> NoDup (map fst (List.filter f l)).
Proof.
  induction l as [|x l IH]; simpl; intros Hnd; [constructor|].
  apply NoDup_cons in Hnd as [Hnotin Hnd].
  destruct (f x); simpl; [|auto].
  apply NoDup_cons. split; [|auto].
  rewrite list_elem_of_In, in_map_iff. intros (y & Hy & Hin).
  apply filter_In in Hin as [Hin _]. apply Hnotin.
  rewrite list_elem_of_In, in_map_iff. eauto.
Qed.

Lemma fold_delete_size (keys : list string) (data : gmap string (Blob * Time)) :
  NoDup keys -> (forall k, k ∈ keys -> is_Some (data !! k)) ->
  (size (fold_left (fun d k => base.delete k d) keys data) + length keys)%nat =
  size data.
Proof.
  revert data. induction keys as [|k keys IH]; intros data Hnd Hin.
  - cbn [fold_left length]. lia.
  - apply NoDup_cons in Hnd as [Hnotin Hnd].
    cbn [fold_left length].
    assert (Hrest : forall k', k' ∈ keys -> is_Some (base.delete k data !! k')).
    { intros k' Hk'. rewrite lookup_delete_ne; [apply Hin; right; exact Hk'|].
      intros ->. contradiction. }
    pose proof (IH (base.delete k data) Hnd Hrest) as Hsz.
    destruct (Hin k) as [x Hx]; [left|].
    rewrite (map_size_delete_Some k data) in Hsz by eauto.
    assert (size data <> 0)%nat; [|lia].
    intros Hz. apply map_size_empty_iff in Hz. subst. rewrite lookup_empty in Hx.
    discriminate.
Qed.

(** X2. `cleanup_expired` removes exactly the entries whose expiry time
    has been reached and keeps the others as they are; the number it
    returns is the number of entries removed; afterwards no entry left
    is expired. *)
Theorem cleanup_expired_removes_expired (now : Time)
    (data : gmap string (Blob * Time)) :
  let '(removed, data') := cleanup_expired now data in
  (forall k,
     data' !! k =
     match data !! k with
     | Some (value, exp) =>
         if time_le exp (fl64 now) then None else Some (value, exp)
     | None => None
     end) /\
  removed = Z.of_nat (size data) - Z.of_nat (size data') /\
  (forall k, is_Some (data' !! k) ->
     MemoryCacheBackend.is_expired now k data' = false).
Proof.
  unfold cleanup_expired.
  assert (Hlook : forall k,
    fold_left (fun d k => base.delete k d) (expired_keys now data) data !! k =
    match data !! k with
    | Some (value, exp) =>
        if time_le exp (fl64 now) then None else Some (value, exp)
    | None => None
    end).
  { intros k. rewrite fold_delete_lookup.
    destruct (decide (k ∈ expired_keys now data)) as [Hin|Hnin].
    - rewrite bool_decide_eq_true_2 by exact Hin.
      apply elem_of_expired_keys in Hin as (v & exp & -> & ->). reflexivity.
    - rewrite bool_decide_eq_false_2 by exact Hnin.
      destruct (data !! k) as [[v exp]|] eqn:E; [|reflexivity].
      destruct (time_le exp (fl64 now)) eqn:Ee; [|reflexivity].
      exfalso. apply Hnin. apply elem_of_expired_keys. eauto. }
  split; [exact Hlook|]. split.
  - pose proof (fold_delete_size (expired_keys now data) data) as Hsz.
    rewrite <- Hsz.
    + lia.
    + apply NoDup_fst_filter, NoDup_fst_map_to_list.
    + intros k Hin. apply elem_of_expired_keys in Hin as (v & exp & -> & _). eauto.
  - intros k [x Hx]. unfold MemoryCacheBackend.is_expired.
    rewrite Hlook in Hx |- *.
    destruct (data !! k) as [[v exp]|]; [|discriminate].
    destruct (time_le exp (fl64 now)) eqn:Ee; [discriminate|exact Ee].
Qed.

(** ** The circuit breaker over many calls *)

Lemma breaker_run_closed (calls : list (Time * bool)) (cb : CircuitBreaker.t) :
  CircuitBreaker.state cb = CircuitBreaker.CLOSED ->
  CircuitBreaker.failures cb + failed_calls calls < CircuitBreaker.threshold cb ->
  let cb' := breaker_run calls cb in
  CircuitBreaker.state cb' = CircuitBreaker.CLOSED /\
  CircuitBreaker.failures cb' = CircuitBreaker.failures cb + failed_calls calls /\
  CircuitBreaker.threshold cb' = CircuitBreaker.threshold cb /\
  CircuitBreaker.timeout cb' = CircuitBreaker.timeout cb.
Proof.
  revert cb. induction calls as [|[now returns] calls IH]; intros cb Hs Hlt.
  - unfold failed_calls. simpl. repeat split; first [assumption | lia].
  - cbn [breaker_run]. cbv zeta.
    assert (Hcount : failed_calls ((now, returns) :: calls) =
                     (if returns then 0 else 1) + failed_calls calls).
    { unfold failed_calls. cbn [List.filter snd negb].
      destruct returns; cbn [negb length]; lia. }
    rewrite Hcount in *.
    destruct returns.
    + assert (Hstep : breaker_after now succeeding cb = cb).
      { unfold breaker_after, CircuitBreaker.call, CircuitBreaker.enter_call,
          succeeding. rewrite Hs. cbn. unfold CircuitBreaker.on_success.
        rewrite Hs. reflexivity. }
      rewrite Hstep. destruct (IH cb Hs) as (H1 & H2 & H3 & H4); [lia|].
      repeat split; first [assumption | lia].
    + assert (Hnonneg : 0 <= failed_calls calls).
      { unfold failed_calls. lia. }
      assert (Hstep : breaker_after now failing cb =
                      CircuitBreaker.mk (CircuitBreaker.threshold cb)
                        (CircuitBreaker.timeout cb)
                        (CircuitBreaker.failures cb + 1) now
                        CircuitBreaker.CLOSED).
      { unfold breaker_after, CircuitBreaker.call, CircuitBreaker.enter_call,
          failing, CircuitBreaker.on_failure. rewrite Hs. cbn.
        destruct (Z.leb_spec (CircuitBreaker.threshold cb)
                    (CircuitBreaker.failures cb + 1)) as [Hle|_]; [lia|].
        unfold CircuitBreaker.with_last_failure_time,
          CircuitBreaker.with_failures. cbn. rewrite Hs. reflexivity. }
      rewrite Hstep.
      destruct (IH (CircuitBreaker.mk (CircuitBreaker.threshold cb)
                      (CircuitBreaker.timeout cb)
                      (CircuitBreaker.failures cb + 1) now
                      CircuitBreaker.CLOSED)) as (H1 & H2 & H3 & H4);
        [reflexivity|cbn; lia|].
      cbn in H2, H3, H4. repeat split; first [assumption | lia].
Qed.

(** X3. The breaker counts failures, not consecutive failures: from
    `__init__`, through any sequence of calls of which fewer than
    `threshold` raise, the circuit stays CLOSED and `failures` is the
    number of calls that raised, however many successful calls lie in
    between; when that number is `threshold - 1`, the next call that
    raises opens the circuit. *)
Theorem failures_accumulate_across_successes (threshold timeout : Z)
    (calls : list (Time * bool)) (now : Time) :
  failed_calls calls < threshold ->
  let cb := breaker_run calls (CircuitBreaker.init threshold timeout) in
  CircuitBreaker.state cb = CircuitBreaker.CLOSED /\
  CircuitBreaker.failures cb = failed_calls calls /\
  (failed_calls calls = threshold - 1 ->
   CircuitBreaker.state (breaker_after now failing cb) = CircuitBreaker.OPEN).
Proof.
  intros Hlt cb.
  destruct (breaker_run_closed calls (CircuitBreaker.init threshold timeout))
    as (Hs & Hf & Ht & _); [reflexivity|cbn; lia|].
  fold cb in Hs, Hf, Ht. cbn in Hf, Ht.
  split; [exact Hs|]. split; [exact Hf|].
  intros Hlast. unfold breaker_after, CircuitBreaker.call,
    CircuitBreaker.enter_call, failing, CircuitBreaker.on_failure.
  rewrite Hs. cbn. rewrite Ht, Hf.
  destruct (Z.leb_spec threshold (0 + failed_calls calls + 1)) as [_|Hgt]; [|lia].
  reflexivity.
Qed.

(** Threshold 3: two failures with successes around them leave the
    circuit closed, the third failure opens it. *)
Lemma failures_accumulate_across_successes_witness :
  let calls := [(1%Q, false); (2%Q, true); (3%Q, true); (4%Q, false); (5%Q, true)] in
  failed_calls calls < 3 /\
  CircuitBreaker.state (breaker_run calls (CircuitBreaker.init 3 30)) =
    CircuitBreaker.CLOSED /\
  CircuitBreaker.state
    (breaker_after 6%Q failing (breaker_run calls (CircuitBreaker.init 3 30))) =
    CircuitBreaker.OPEN.
Proof.
  intros calls.
  assert (Hlt : failed_calls calls < 3) by (vm_compute; reflexivity).
  split; [exact Hlt|].
  destruct (failures_accumulate_across_successes 3 30 calls 6%Q Hlt)
    as (Hs & _ & Hopen).
  split; [exact Hs|]. apply Hopen. vm_compute. reflexivity.
Defined.

(** ** The deduplicator, one caller *)

(** X4. `get_or_fetch` for a key nobody is fetching runs `fetch_fn`
    exactly once and returns or raises what it did; the key is not left
    in flight; until the cleanup timer fires the outcome is on record
    for waiters; and once the timer has fired the three tables are what
    they were before the call. *)
Theorem get_or_fetch_idle_then_cleanup {R W : Type} (key : string)
    (fetch_fn : W -> Result R * W) (self : RequestDeduplicator.t R) (w : W) :
  key ∉ RequestDeduplicator._in_flight self ->
  RequestDeduplicator._results self !! key = None ->
  RequestDeduplicator._errors self !! key = None ->
  let out := RequestDeduplicator.get_or_fetch key fetch_fn self w in
  let self' := snd (fst out) in
  let cleaned := RequestDeduplicator._cleanup key self' in
  (fst (fst out), snd out) = fetch_fn w /\
  (key ∉ RequestDeduplicator._in_flight self') /\
  RequestDeduplicator.after_wait key self' =
    match fst (fst out) with
    | Ok r => RequestDeduplicator.ReturnRecorded r
    | Raise e => RequestDeduplicator.RaiseRecorded e
    end /\
  RequestDeduplicator._in_flight cleaned = RequestDeduplicator._in_flight self /\
  RequestDeduplicator._results cleaned = RequestDeduplicator._results self /\
  RequestDeduplicator._errors cleaned = RequestDeduplicator._errors self.
Proof.
  intros Hidle Hres Herr out self' cleaned. subst cleaned self' out.
  unfold RequestDeduplicator.get_or_fetch.
  rewrite bool_decide_eq_false_2 by exact Hidle.
  destruct (fetch_fn w) as [r w'].
  assert (Hfl : (RequestDeduplicator._in_flight self ∪ {[key]}) ∖ {[key]} =
                RequestDeduplicator._in_flight self).
  { apply set_eq. intros x.
    rewrite elem_of_difference, elem_of_union, elem_of_singleton.
    split; [intros [[Hx|Hx] Hn]; [exact Hx|contradiction]|].
    intros Hx. split; [left; exact Hx|]. intros ->. contradiction. }
  unfold RequestDeduplicator.after_wait, RequestDeduplicator._cleanup.
  destruct r as [r|e]; simpl.
  - rewrite !lookup_insert_eq, !delete_insert_eq, !delete_id by assumption.
    rewrite Hfl. repeat split. exact Hidle.
  - rewrite !lookup_insert_eq, delete_insert_eq, !delete_id by assumption.
    rewrite Hfl. repeat split. exact Hidle.
Qed.

Lemma get_or_fetch_idle_then_cleanup_witness :
  let fetch_fn := fun n : Z => (@Ok string "body"%string, n + 1) in
  let out :=
    RequestDeduplicator.get_or_fetch "k" fetch_fn (RequestDeduplicator.init 10) 0 in
  ("k"%string ∉
     RequestDeduplicator._in_flight (RequestDeduplicator.init (R:=string) 10)) /\
  (fst (fst out), snd out) = (Ok "body"%string, 1) /\
  RequestDeduplicator._results
    (RequestDeduplicator._cleanup "k" (snd (fst out))) = ∅.
Proof.
  intros fetch_fn out.
  assert (Hidle : "k"%string ∉
            RequestDeduplicator._in_flight (RequestDeduplicator.init (R:=string) 10)).
  { apply not_elem_of_empty. }
  split; [exact Hidle|].
  destruct (get_or_fetch_idle_then_cleanup "k" fetch_fn
              (RequestDeduplicator.init 10) 0 Hidle
              (lookup_empty _) (lookup_empty _))
    as (Hrun & _ & _ & _ & Hres & _).
  split; [exact Hrun|exact Hres].
Defined.

(** ** The adaptive TTL *)

(** X5. With `min_ttl <= max_ttl`, the TTL `_calculate_adaptive_ttl`
    returns is either the default it was given, as it is, or lies
    between `min_ttl` and `max_ttl`; it is the default when the response
    has neither `max-age=` in its cache-control header nor an expires
    header. The default itself is not clamped. *)
Theorem adaptive_ttl_bounds `{HeaderParsers} (now : Time) (resp : Response)
    (default_ttl min_ttl max_ttl : Z) :
  min_ttl <= max_ttl ->
  let ttl := _calculate_adaptive_ttl now resp default_ttl min_ttl max_ttl in
  (ttl = default_ttl \/ min_ttl <= ttl <= max_ttl) /\
  (str_contains "max-age="
     (Headers_get (headers resp) "cache-control" EmptyString) = false ->
   header_values (headers resp) "expires" = [] ->
   ttl = default_ttl).
Proof.
  intros Hle ttl. subst ttl. unfold _calculate_adaptive_ttl, clamp_ttl.
  split.
  - destruct (str_contains _ _);
      [destruct (re_search_max_age _) as [t|]; [right; lia|]|];
      (destruct (header_values (headers resp) "expires") as [|v vs];
         [left; reflexivity|];
       destruct (str_truthy _); [|left; reflexivity];
       destruct (expires_in _ now) as [t|e]; [right; lia|left; reflexivity]).
  - intros -> ->. reflexivity.
Qed.

(** A response with `Cache-Control: max-age=5` under the default
    bounds: the TTL is raised to `min_ttl`. *)
Lemma adaptive_ttl_bounds_witness :
  let resp :=
    mkResponse 200 [("Cache-Control", "max-age=5")]%string [] "https://example.com/a"
      "HTTP/1.1" "OK" None in
  let ttl :=
    _calculate_adaptive_ttl (H:=max_age_parsers 5) 0%Q resp 86400 60 (86400 * 7) in
  60 <= 86400 * 7 /\ ttl = 60 /\ (ttl = 86400 \/ 60 <= ttl <= 86400 * 7).
Proof.
  intros resp ttl.
  assert (Hle : 60 <= 86400 * 7) by lia.
  split; [exact Hle|]. split; [vm_compute; reflexivity|].
  exact (proj1 (adaptive_ttl_bounds (H:=max_age_parsers 5) 0%Q resp 86400 60
                  (86400 * 7) Hle)).
Defined.

(** ** The fingerprint, component by component *)

Lemma str_length_app (a b : string) :
  String.length (a +:+ b) = (String.length a + String.length b)%nat.
Proof. induction a as [|c a IH]; simpl; [reflexivity|rewrite IH; reflexivity]. Qed.

Lemma str_app_inv_head (a b c : string) : a +:+ b = a +:+ c -> b = c.
Proof.
  induction a as [|x a IH]; simpl; intros Heq; [exact Heq|].
  injection Heq as Heq. auto.
Qed.

Lemma str_app_inv_tail (a b c : string) : a +:+ c = b +:+ c -> a = b.
Proof.
  revert b. induction a as [|x a IH]; intros [|y b] Heq; simpl in Heq.
  - reflexivity.
  - exfalso. apply (f_equal String.length) in Heq.
    rewrite ?str_length_app in Heq. simpl in Heq.
    rewrite ?str_length_app in Heq. lia.
  - exfalso. apply (f_equal String.length) in Heq.
    rewrite ?str_length_app in Heq. simpl in Heq.
    rewrite ?str_length_app in Heq. lia.
  - injection Heq as -> Heq. f_equal. apply IH. exact Heq.
Qed.

Section FingerprintComponents.
Context `{Httpx} `{Hashlib}.

(** X6. A change of `cache_version` alone, or of `namespace` alone,
    changes the key of every request: two configurations that vary the
    key by the same headers, and differ in the version but not in the
    namespace or in the namespace but not in the version, give no
    request the same key. *)
Theorem build_key_version_namespace {S : Type} (method url : string)
    (content : option bytes) (hs : option RequestHeaders)
    (cfg1 cfg2 : CacheConfigOf S) :
  vary_user_agent cfg1 = vary_user_agent cfg2 ->
  vary_cookies cfg1 = vary_cookies cfg2 ->
  (namespace cfg1 = namespace cfg2 /\ cache_version cfg1 <> cache_version cfg2) \/
  (cache_version cfg1 = cache_version cfg2 /\ namespace cfg1 <> namespace cfg2) ->
  _build_key method url content hs cfg1 <> _build_key method url content hs cfg2.
Proof.
  intros Hua Hck Hdiff Hkey. unfold _build_key, join in Hkey. cbv zeta in Hkey.
  cbn [String.concat] in Hkey. rewrite Hua, Hck in Hkey.
  destruct Hdiff as [[Heq Hne]|[Heq Hne]]; apply Hne; rewrite Heq in Hkey.
  - apply str_app_inv_tail, str_app_inv_head in Hkey. exact Hkey.
  - do 2 apply str_app_inv_head in Hkey.
    apply str_app_inv_tail, str_app_inv_head in Hkey. exact Hkey.
Qed.

(** X7. The body in the key. For a method other than POST, PUT and
    PATCH the body is not part of the key: any two bodies give the same
    key. For POST, PUT and PATCH two non-empty bodies give the same key
    exactly when their SHA-256 digests are equal. *)
Theorem build_key_body {S : Type} (method url : string) (c1 c2 : bytes)
    (hs : option RequestHeaders) (cfg : CacheConfigOf S) :
  (method_has_body method = false ->
   _build_key method url (Some c1) hs cfg =
   _build_key method url (Some c2) hs cfg) /\
  (method_has_body method = true ->
   bytes_truthy c1 = true -> bytes_truthy c2 = true ->
   (_build_key method url (Some c1) hs cfg =
    _build_key method url (Some c2) hs cfg <->
    sha256_hexdigest c1 = sha256_hexdigest c2)).
Proof.
  unfold _build_key, join, _hash_bytes. cbv zeta. cbn [String.concat].
  split.
  - intros ->. reflexivity.
  - intros -> -> ->. cbn [andb]. split.
    + intros Hkey. do 10 apply str_app_inv_head in Hkey.
      apply str_app_inv_tail, str_app_inv_head in Hkey. exact Hkey.
    + intros ->. reflexivity.
Qed.

(** X8. The key does not keep its fields apart: the parts are joined
    with `|` and no part is escaped. With both `vary_user_agent` and
    `vary_cookies` set, a request whose user agent is `a|ck:b` and whose
    cookie is empty has the key of a request whose user agent is `a` and
    whose cookie is `b|ck:`, for every `a` and `b`, method, URL and
    body. *)
Theorem build_key_fields_not_separated {S : Type} (method url : string)
    (content : option bytes) (cfg : CacheConfigOf S) (a b : string) :
  vary_user_agent cfg = true ->
  vary_cookies cfg = true ->
  let hs1 := DictHeaders [("user-agent", a +:+ "|ck:" +:+ b);
                          ("cookie", EmptyString)]%string in
  let hs2 := DictHeaders [("user-agent", a); ("cookie", b +:+ "|ck:")]%string in
  _build_key method url content (Some hs1) cfg =
  _build_key method url content (Some hs2) cfg /\
  h_get hs1 "user-agent" <> h_get hs2 "user-agent".
Proof.
  intros Hua Hck hs1 hs2. split.
  - unfold _build_key, join. cbv zeta. cbn [String.concat].
    rewrite Hua, Hck. subst hs1 hs2.
    cbn [headers_truthy andb h_get dict_get String.eqb Ascii.eqb Bool.eqb
         default option.default fst snd].
    unfold id. rewrite !str_app_assoc. cbn [String.append]. reflexivity.
  - subst hs1 hs2. cbn. intros Heq.
    apply (f_equal String.length) in Heq. rewrite str_length_app in Heq.
    simpl in Heq. lia.
Qed.

End FingerprintComponents.

Section FingerprintComponentExamples.
Import Plain Scenario.

(** The same request under version v1 and under version v2. *)
Lemma build_key_version_namespace_witness :
  _build_key "GET" example_url None None (keyed_config "v1" "default" false) <>
  _build_key "GET" example_url None None (keyed_config "v2" "default" false).
Proof.
  apply build_key_version_namespace; [reflexivity|reflexivity|].
  left. split; [reflexivity|discriminate].
Defined.

(** A user agent `curl|ck:sid=1` without a cookie and a user agent
    `curl` with the cookie `sid=1|ck:`. *)
Lemma build_key_fields_not_separated_witness :
  _build_key "GET" example_url None
    (Some (DictHeaders [("user-agent", "curl" +:+ "|ck:" +:+ "sid=1");
                        ("cookie", EmptyString)]%string))
    (keyed_config "v1" "default" true) =
  _build_key "GET" example_url None
    (Some (DictHeaders [("user-agent", "curl"); ("cookie", "sid=1" +:+ "|ck:")]%string))
    (keyed_config "v1" "default" true).
Proof.
  exact (proj1 (build_key_fields_not_separated "GET" example_url None
                  (keyed_config "v1" "default" true) "curl" "sid=1"
                  eq_refl eq_refl)).
Defined.

End FingerprintComponentExamples.

(** ** The Redis backend *)

Lemma prefix_app (p x : string) : String.prefix p (p +:+ x) = true.
Proof.
  induction p as [|c p IH]; simpl; [destruct x; reflexivity|].
  destruct (ascii_dec c c) as [_|Hne]; [exact IH|contradiction].
Qed.

Section RedisProperties.
Context `{Hashlib} {C : Type} `{RedisClient C}.

(** X9. `_k` puts the prefix in front of every key, maps no two keys
    of at most 512 characters to the same Redis key, and maps a longer
    key to the Redis key of the short key that spells its digest (when
    that digest has at most 512 characters, as a SHA-256 digest has). *)
Theorem redis_key_mapping (self : RedisCacheBackend.t C) (k1 k2 : string) :
  startswith (RedisCacheBackend._k self k1) (RedisCacheBackend.key_prefix self)
    = true /\
  (Z.of_nat (String.length k1) <= 512 -> Z.of_nat (String.length k2) <= 512 ->
   RedisCacheBackend._k self k1 = RedisCacheBackend._k self k2 -> k1 = k2) /\
  (512 < Z.of_nat (String.length k1) ->
   Z.of_nat (String.length (sha256_hexdigest (encode_utf8 k1))) <= 512 ->
   RedisCacheBackend._k self (sha256_hexdigest (encode_utf8 k1)) =
   RedisCacheBackend._k self k1).
Proof.
  unfold RedisCacheBackend._k, startswith. split; [|split].
  - destruct (512 <? _); apply prefix_app.
  - intros H1 H2.
    destruct (Z.ltb_spec 512 (Z.of_nat (String.length k1))); [lia|].
    destruct (Z.ltb_spec 512 (Z.of_nat (String.length k2))); [lia|].
    apply str_app_inv_head.
  - intros H1 H2.
    destruct (Z.ltb_spec 512 (Z.of_nat (String.length k1))); [|lia].
    destruct (Z.ltb_spec 512
                (Z.of_nat (String.length (sha256_hexdigest (encode_utf8 k1)))));
      [lia|reflexivity].
Qed.

(** Whatever the client does, the three operations of the backend
    return. *)
Lemma redis_backend_quiet : quiet_backend (RedisCacheBackend.t C).
Proof.
  split; [|split].
  - intros key b. cbn [backend_get RedisCacheBackend_backend].
    unfold RedisCacheBackend.get.
    destruct (redis_get _ _) as [[d|e] c]; reflexivity.
  - intros key value ttl now b. cbn [backend_set RedisCacheBackend_backend].
    unfold RedisCacheBackend.set.
    destruct (redis_set _ _ _ _) as [r c]; reflexivity.
  - intros key b. cbn [backend_delete RedisCacheBackend_backend].
    unfold RedisCacheBackend.delete.
    destruct (redis_delete _ _) as [r c]; reflexivity.
Qed.

End RedisProperties.

(** ** The tiered backend over a memory L1 *)

Section TieredProperties.
Context {B2 : Type} `{CacheBackend B2}.

Local Abbreviation Tiered :=
  (TieredCacheBackend.t (gmap string (Blob * Time)) B2).

Lemma with_l1_id (self : Tiered) :
  TieredCacheBackend.with_l1 (TieredCacheBackend.l1 self) self = self.
Proof. destruct self; reflexivity. Qed.

Lemma publish_keeps_l1 (key : string) (self : Tiered) :
  TieredCacheBackend.l1 (snd (TieredCacheBackend.publish key self)) =
  TieredCacheBackend.l1 self.
Proof.
  unfold TieredCacheBackend.publish.
  destruct (TieredCacheBackend.publish_invalidation self) as [p|]; [|reflexivity].
  destruct (p key (TieredCacheBackend.l2 self)) as [r b2]. reflexivity.
Qed.

(** X10. A key L1 does not hold and L2 does: `get` returns L2's value
    and puts it into L1 with an expiry 60 s ahead. From then on `get`
    answers from L1 without asking L2, at any later time, also after
    those 60 s have passed. *)
Theorem tiered_get_promotes (now later : Time) (key : string) (self : Tiered)
    (value : Blob) (b2 : B2) :
  TieredCacheBackend.l1 self !! key = None ->
  backend_get key (TieredCacheBackend.l2 self) = (Ok (Some value), b2) ->
  let out := TieredCacheBackend.get now key self in
  fst out = Ok (Some value) /\
  TieredCacheBackend.l1 (snd out) =
    <[key := (value, fadd now 60)]> (TieredCacheBackend.l1 self) /\
  TieredCacheBackend.l2 (snd out) = b2 /\
  TieredCacheBackend.get later key (snd out) = (Ok (Some value), snd out).
Proof.
  intros Hl1 Hl2 out.
  assert (Hout : out =
    (Ok (Some value),
     TieredCacheBackend.with_l2 b2
       (TieredCacheBackend.with_l1
          (<[key := (value, fadd now 60)]> (TieredCacheBackend.l1 self))
          self))).
  { subst out. unfold TieredCacheBackend.get.
    cbn [backend_get backend_set MemoryCacheBackend_backend].
    unfold MemoryCacheBackend.get. rewrite Hl1, Hl2. reflexivity. }
  rewrite Hout. cbn [fst snd].
  split; [reflexivity|]. split; [reflexivity|]. split; [reflexivity|].
  unfold TieredCacheBackend.get.
  cbn [backend_get MemoryCacheBackend_backend TieredCacheBackend.l1
       TieredCacheBackend.with_l1 TieredCacheBackend.with_l2].
  unfold MemoryCacheBackend.get. rewrite lookup_insert_eq. reflexivity.
Qed.

(** What `set` leaves in L1, whatever L2 and the publication did. *)
Lemma tiered_set_l1 (now : Time) (key : string) (value : Blob) (ttl : Z)
    (self : Tiered) :
  TieredCacheBackend.l1 (snd (TieredCacheBackend.set now key value ttl self)) =
    <[key := (value,
              fadd now (Z.max 60 (TieredCacheBackend.scaled self ttl)))]>
      (TieredCacheBackend.l1 self).
Proof.
  unfold TieredCacheBackend.set.
  cbn [backend_set MemoryCacheBackend_backend TieredCacheBackend.l2
       TieredCacheBackend.with_l1].
  destruct (backend_set key value ttl now (TieredCacheBackend.l2 self))
    as [[u|e] b2]; [|reflexivity].
  rewrite publish_keeps_l1. reflexivity.
Qed.

(** X11. `set` writes L1 before L2: whatever L2 and the publication do,
    L1 holds the value afterwards, with an expiry `max(60, scaled ttl)`
    seconds ahead, and `get` returns it at any later time; when L2's
    `set` raises, `set` raises that exception with the value already in
    L1. *)
Theorem tiered_set_writes_l1_first (now later : Time) (key : string)
    (value : Blob) (ttl : Z) (self : Tiered) :
  let out := TieredCacheBackend.set now key value ttl self in
  TieredCacheBackend.l1 (snd out) =
    <[key := (value,
              fadd now (Z.max 60 (TieredCacheBackend.scaled self ttl)))]>
      (TieredCacheBackend.l1 self) /\
  fst (TieredCacheBackend.get later key (snd out)) = Ok (Some value) /\
  (forall e b2,
     backend_set key value ttl now (TieredCacheBackend.l2 self) = (Raise e, b2) ->
     fst out = Raise e).
Proof.
  intros out.
  pose proof (tiered_set_l1 now key value ttl self) as Hl1. fold out in Hl1.
  split; [exact Hl1|]. split.
  - unfold TieredCacheBackend.get.
    cbn [backend_get MemoryCacheBackend_backend].
    unfold MemoryCacheBackend.get. rewrite Hl1, lookup_insert_eq. reflexivity.
  - intros e b2 Hset. subst out. unfold TieredCacheBackend.set.
    cbn [backend_set MemoryCacheBackend_backend TieredCacheBackend.l2
         TieredCacheBackend.with_l1].
    rewrite Hset. reflexivity.
Qed.

(** X12. The invalidation a `set` publishes, delivered to the tier that
    published it, takes the value out of its L1 again and leaves L2 as
    it is: a key without a star is deleted from L1 and the other keys
    stay, a key with a star in it empties L1. *)
Theorem own_invalidation_undoes_l1_write (now : Time) (key : string)
    (value : Blob) (ttl : Z) (self : Tiered) :
  let written := snd (TieredCacheBackend.set now key value ttl self) in
  let out := TieredCacheBackend._on_invalidation key written in
  fst out = Ok tt /\
  TieredCacheBackend.l1 (snd out) !! key = None /\
  TieredCacheBackend.l2 (snd out) = TieredCacheBackend.l2 written /\
  (str_contains "*" key = false ->
   forall k, k <> key ->
     TieredCacheBackend.l1 (snd out) !! k = TieredCacheBackend.l1 self !! k) /\
  (str_contains "*" key = true -> TieredCacheBackend.l1 (snd out) = ∅).
Proof.
  intros written out.
  pose proof (tiered_set_l1 now key value ttl self) as Hl1.
  fold written in Hl1.
  subst out. unfold TieredCacheBackend._on_invalidation.
  cbn [backend_clear backend_delete MemoryCacheBackend_clearable
       MemoryCacheBackend_backend].
  unfold MemoryCacheBackend.clear, MemoryCacheBackend.delete.
  destruct (String.eqb_spec key "*") as [->|Hne].
  - cbn. repeat split; try reflexivity. intros Hc. discriminate.
  - destruct (str_contains "*" key) eqn:Hstar; cbn [negb fst snd
      TieredCacheBackend.l1 TieredCacheBackend.l2 TieredCacheBackend.with_l1].
    + repeat split; try reflexivity. intros Hc. discriminate.
    + rewrite Hl1. split; [reflexivity|]. split; [apply lookup_delete_eq|].
      split; [reflexivity|]. split; [|intros Hc; discriminate].
      intros _ k Hk. rewrite lookup_delete_ne by congruence.
      rewrite lookup_insert_ne by congruence. reflexivity.
Qed.

End TieredProperties.

(** X24. Two memory tiers, L2 without a publisher (as a memory backend
    is): after `set` and then `delete` of a key neither tier holds it
    and `get` returns nothing for it, while `get` of any other key
    returns what it returned before the two calls. *)
Theorem tiered_delete_then_get (now later : Time) (key other : string)
    (value : Blob) (ttl : Z) (b1 b2 : gmap string (Blob * Time))
    (ratio : Z -> Z) :
  let self := TieredCacheBackend.mk b1 b2 ratio None in
  let written := snd (TieredCacheBackend.set now key value ttl self) in
  let deleted := snd (TieredCacheBackend.delete key written) in
  fst (TieredCacheBackend.delete key written) = Ok tt /\
  TieredCacheBackend.l1 deleted !! key = None /\
  TieredCacheBackend.l2 deleted !! key = None /\
  fst (TieredCacheBackend.get later key deleted) = Ok None /\
  (other <> key ->
   fst (TieredCacheBackend.get later other deleted) =
   fst (TieredCacheBackend.get later other self)).
Proof.
  intros self written deleted.
  assert (Hd : deleted =
    TieredCacheBackend.mk
      (base.delete key
         (<[key := (value, fadd now (Z.max 60 (ratio ttl)))]> b1))
      (base.delete key (<[key := (value, fadd now ttl)]> b2))
      ratio None) by reflexivity.
  split; [reflexivity|]. rewrite Hd.
  cbn [TieredCacheBackend.l1 TieredCacheBackend.l2].
  split; [apply lookup_delete_eq|]. split; [apply lookup_delete_eq|].
  unfold TieredCacheBackend.get.
  cbn [backend_get backend_set MemoryCacheBackend_backend
       TieredCacheBackend.l1 TieredCacheBackend.l2 self].
  unfold MemoryCacheBackend.get. split.
  - rewrite !lookup_delete_eq. reflexivity.
  - intros Hne.
    rewrite !lookup_delete_ne, !lookup_insert_ne by congruence.
    destruct (b1 !! other) as [[v1 e1]|]; [reflexivity|].
    destruct (b2 !! other) as [[v2 e2]|]; reflexivity.
Qed.

Section TieredExamples.

(** An empty L1 over an L2 that holds the key. *)
Lemma tiered_get_promotes_witness :
  let self :=
    TieredCacheBackend.mk (∅ : gmap string (Blob * Time))
      (<["k" := (Unreadable [], 100%Q)]> (∅ : gmap string (Blob * Time)))
      (fun ttl => ttl / 10) None in
  fst (TieredCacheBackend.get 5%Q "k" self) = Ok (Some (Unreadable [])) /\
  TieredCacheBackend.get 500%Q "k" (snd (TieredCacheBackend.get 5%Q "k" self)) =
    (Ok (Some (Unreadable [])), snd (TieredCacheBackend.get 5%Q "k" self)).
Proof.
  intros self.
  assert (Hl2 : backend_get "k" (TieredCacheBackend.l2 self) =
                (Ok (Some (Unreadable [])), TieredCacheBackend.l2 self))
    by (vm_compute; reflexivity).
  destruct (tiered_get_promotes 5%Q 500%Q "k" self (Unreadable [])
              (TieredCacheBackend.l2 self) (lookup_empty _) Hl2)
    as (Hres & _ & _ & Hagain).
  split; [exact Hres|exact Hagain].
Defined.

End TieredExamples.

(** ** The facade over any backend *)

Section FacadeFurther.
Context `{Httpx} `{Hashlib} `{Codecs} `{Msgpack} `{Fnmatch} `{HeaderParsers}.
Context {B I : Type} `{CacheBackend B} `{!HttpClient I}.

Local Abbreviation Facade := (CachedSgRequests (B:=B) (I:=I)).

(** `_fetch_response` touches neither the counters nor the breaker. *)
Lemma _fetch_response_frame (method url : string) (kwargs : Kwargs)
    (self self1 : Facade) (r : Result Response) :
  _fetch_response method url kwargs self = (r, self1) ->
  stats self1 = stats self /\ config self1 = config self /\
  url_matcher self1 = url_matcher self /\
  circuit_breaker self1 = circuit_breaker self /\
  deduplicator self1 = deduplicator self.
Proof.
  unfold _fetch_response.
  destruct (inner_request method url kwargs (clock self) (inner self))
    as [[r0 i'] now'].
  destruct r0 as [resp|e]; [intros [= <- <-]; simpl; tauto|].
  cbn [config after_upstream].
  destruct (serve_stale_on_error (config self)); [|intros [= <- <-]; simpl; tauto].
  match goal with
  | |- context [backend_get ?k ?b] => destruct (backend_get k b) as [g b']
  end.
  destruct g as [[blob|]|e']; try (intros [= <- <-]; simpl; tauto).
  destruct (blob_truthy blob); [|intros [= <- <-]; simpl; tauto].
  destruct (deserialize_response blob) as [[resp cached_at]|e'];
    [|intros [= <- <-]; simpl; tauto].
  destruct (time_le _ _); intros [= <- <-]; simpl; tauto.
Qed.

Lemma fetch_on_miss_frame (cache_read cache_write force_refresh : bool)
    (method url key : string) (kwargs : Kwargs) (self self1 : Facade)
    (r : Result Response) :
  fetch_on_miss cache_read cache_write force_refresh method url key kwargs self
    = (r, self1) ->
  stats self1 = stats self /\ config self1 = config self /\
  url_matcher self1 = url_matcher self /\
  circuit_breaker self1 = circuit_breaker self.
Proof.
  unfold fetch_on_miss.
  assert (Hdirect : _fetch_response method url kwargs self = (r, self1) ->
            stats self1 = stats self /\ config self1 = config self /\
            url_matcher self1 = url_matcher self /\
            circuit_breaker self1 = circuit_breaker self).
  { intros E. apply _fetch_response_frame in E. tauto. }
  destruct (deduplicator self) as [d|]; [|exact Hdirect].
  destruct ((cache_read || cache_write) && negb force_refresh); [|exact Hdirect].
  unfold RequestDeduplicator.get_or_fetch.
  destruct (bool_decide _).
  - destruct (RequestDeduplicator.after_wait key d) as [e|r0|].
    + intros [= <- <-]. simpl. tauto.
    + intros [= <- <-]. simpl. tauto.
    + destruct (_fetch_response method url kwargs self) as [r0 s0] eqn:E.
      apply _fetch_response_frame in E. intros [= <- <-]. simpl. tauto.
  - destruct (_fetch_response method url kwargs self) as [r0 s0] eqn:E.
    apply _fetch_response_frame in E. intros [= <- <-]. simpl. tauto.
Qed.

(** The write block counts writes and errors only. *)
Lemma write_to_cache_counts (cache_write : bool) (key : string)
    (resp : Response) (self : Facade) :
  counted (stats self) (stats (write_to_cache cache_write key resp self)) 0 0.
Proof.
  unfold write_to_cache, counted.
  destruct (cache_write && _); [|lia].
  destruct (serialize_response _ _ _) as [blob|e]; [|simpl; lia].
  destruct (_set_to_cache key blob _ self) as [r self1] eqn:E.
  apply _set_to_cache_frame in E as (_ & _ & Hs & _).
  destruct r; simpl; rewrite Hs; lia.
Qed.

(** What a request that found nothing to return adds to the counters:
    one miss. *)
Lemma fetch_and_store_counts (cache_read cache_write force_refresh : bool)
    (method url key : string) (kwargs : Kwargs) (self : Facade) :
  counted (stats self)
    (stats (snd (fetch_and_store cache_read cache_write force_refresh method
                   url key kwargs self))) 0 1.
Proof.
  unfold fetch_and_store.
  destruct (fetch_on_miss _ _ _ _ _ _ _ _) as [r s2] eqn:E.
  apply fetch_on_miss_frame in E as (Hs & _). cbn [stats with_stats] in Hs.
  destruct r as [resp|e]; cbn [snd].
  - pose proof (write_to_cache_counts cache_write key resp s2) as Hw.
    unfold counted in *. rewrite Hs in Hw. simpl in Hw. lia.
  - unfold counted. rewrite Hs. simpl. lia.
Qed.

(** The read block: what it leaves alone, and what it counts. *)
Lemma read_from_cache_frame (cache_read force_refresh : bool)
    (method url key : string) (kwargs : Kwargs) (self : Facade) :
  let o := read_from_cache cache_read force_refresh method url key kwargs self in
  same_upstream self (outcome_state o) /\
  match o with
  | FreshHit _ s | StaleHit _ s => counted (stats self) (stats s) 1 0
  | Missed s | ReadRaised _ s => counted (stats self) (stats s) 0 0
  end.
Proof.
  unfold read_from_cache, same_upstream, counted.
  destruct (cache_read && negb force_refresh); [|simpl; repeat split; lia].
  destruct (_get_from_cache key self) as [r self1] eqn:E.
  apply _get_from_cache_frame in E as (Hi & Hc & Hs & Hm & Hd & Hk & Hu & Ht).
  destruct r as [[blob|]|e]; try (simpl; rewrite Hs; repeat split; (assumption || lia)).
  destruct (blob_truthy blob);
    [|simpl; rewrite Hs; repeat split; (assumption || lia)].
  destruct (deserialize_response blob) as [[resp cached_at]|e].
  - destruct (time_le _ _);
      [simpl; rewrite Hs; repeat split; (assumption || lia)|].
    destruct (_ && _); simpl; rewrite Hs; repeat split; (assumption || lia).
  - cbn [backend with_stats].
    destruct (backend_delete key (backend self1)) as [[u|e'] b'];
      simpl; rewrite Hs; repeat split; (assumption || lia).
Qed.

(** X13. Every request is counted once, as a hit or as a miss, unless
    the cache read raised, and then it is not counted at all: a request
    that returns adds one hit or one miss, one that raises adds one miss
    or nothing, and `total_requests` moves with them; so when
    `total_requests` equals `hits + misses` before a request it does so
    after it. *)
Theorem request_counts_once (method0 url : string)
    (cache_read0 cache_write0 : option bool) (force_refresh : bool)
    (kwargs : Kwargs) (self : Facade) :
  let out := request method0 url cache_read0 cache_write0 force_refresh kwargs self in
  let s := stats self in
  let s' := stats (snd out) in
  match fst out with
  | Ok _ => counted s s' 1 0 \/ counted s s' 0 1
  | Raise _ => counted s s' 0 1 \/ counted s s' 0 0
  end /\
  (CacheStats.total_requests s = CacheStats.hits s + CacheStats.misses s ->
   CacheStats.total_requests s' = CacheStats.hits s' + CacheStats.misses s').
Proof.
  intros out s s'.
  assert (Hmain :
    match fst out with
    | Ok _ => counted s s' 1 0 \/ counted s s' 0 1
    | Raise _ => counted s s' 0 1 \/ counted s s' 0 0
    end).
  { subst out s s'. unfold request.
    pose proof (read_from_cache_frame
                  (effective_flag cache_read0 url self) force_refresh
                  (str_upper method0) url
                  (request_key (str_upper method0) url kwargs self) kwargs self)
      as [_ Hread]. cbv zeta in Hread.
    destruct (read_from_cache _ _ _ _ _ _ _) as [resp s1|resp s1|s1|e s1];
      cbn [fst snd]; try tauto.
    pose proof (fetch_and_store_counts
                  (effective_flag cache_read0 url self)
                  (effective_flag cache_write0 url self) force_refresh
                  (str_upper method0) url
                  (request_key (str_upper method0) url kwargs self) kwargs s1)
      as Hfetch.
    destruct (fetch_and_store _ _ _ _ _ _ _ _) as [r s2]. cbn [fst snd] in *.
    assert (Hc : counted (stats self) (stats s2) 0 1).
    { unfold counted in *. lia. }
    destruct r; tauto. }
  split; [exact Hmain|].
  intros Hinv. unfold counted in Hmain.
  destruct (fst out); destruct Hmain as [Hc|Hc]; lia.
Qed.

Lemma quiet_call {A : Type} (fn : B -> Result A * B) (cb : CircuitBreaker.t)
    (now : Time) (b : B) :
  is_ok (fst (fn b)) = true ->
  let '(r, cb', b') := CircuitBreaker.call (fun _ => now) fn cb b in
  (is_ok r = true \/ r = Raise CircuitBreakerOpenError) /\
  (CircuitBreaker.state cb = CircuitBreaker.CLOSED -> cb' = cb).
Proof.
  intros Hok. unfold CircuitBreaker.call, CircuitBreaker.enter_call.
  destruct (CircuitBreaker.state cb) eqn:Es.
  - destruct (fn b) as [[a|e] b']; [|discriminate].
    split; [left; reflexivity|]. intros _.
    unfold CircuitBreaker.on_success. rewrite Es. reflexivity.
  - destruct (time_gt _ _).
    + destruct (fn b) as [[a|e] b']; [|discriminate].
      split; [left; reflexivity|discriminate].
    + split; [right; reflexivity|discriminate].
  - destruct (fn b) as [[a|e] b']; [|discriminate].
    split; [left; reflexivity|discriminate].
Qed.

(** Over a quiet backend a cache read returns, and leaves a closed
    breaker as it is. *)
Lemma _get_from_cache_quiet (key : string) (self : Facade) :
  quiet_backend B ->
  exists o self1,
    _get_from_cache key self = (Ok o, self1) /\
    (breaker_closed self -> circuit_breaker self1 = circuit_breaker self).
Proof.
  intros (Hget & _ & _). unfold _get_from_cache, breaker_closed.
  destruct (circuit_breaker self) as [cb|] eqn:Ecb.
  - pose proof (quiet_call (backend_get key) cb (clock self) (backend self)
                  (Hget key (backend self))) as Hcall.
    destruct (CircuitBreaker.call _ _ cb (backend self)) as [[r cb'] b'].
    destruct Hcall as [[Hok| ->] Hcb].
    + destruct r as [o|e]; [|discriminate]. eexists _, _. split; [reflexivity|].
      intros Hs. simpl. rewrite (Hcb Hs). reflexivity.
    + simpl. eexists _, _. split; [reflexivity|].
      intros Hs. simpl. rewrite (Hcb Hs). reflexivity.
  - specialize (Hget key (backend self)).
    destruct (backend_get key (backend self)) as [[o|e] b']; [|discriminate].
    eexists _, _. split; [reflexivity|]. intros _. simpl. exact Ecb.
Qed.

Lemma _set_to_cache_quiet (key : string) (value : Blob) (ttl : Z)
    (self : Facade) :
  quiet_backend B ->
  exists self1,
    _set_to_cache key value ttl self = (Ok tt, self1) /\
    (breaker_closed self -> circuit_breaker self1 = circuit_breaker self).
Proof.
  intros (_ & Hset & _). unfold _set_to_cache, breaker_closed.
  destruct (circuit_breaker self) as [cb|] eqn:Ecb.
  - pose proof (quiet_call (backend_set key value ttl (clock self)) cb
                  (clock self) (backend self)
                  (Hset key value ttl (clock self) (backend self))) as Hcall.
    destruct (CircuitBreaker.call _ _ cb (backend self)) as [[r cb'] b'].
    destruct Hcall as [[Hok| ->] Hcb].
    + destruct r as [o|e]; [|discriminate]. eexists. split; [reflexivity|].
      intros Hs. simpl. rewrite (Hcb Hs). reflexivity.
    + simpl. eexists. split; [reflexivity|].
      intros Hs. simpl. rewrite (Hcb Hs). reflexivity.
  - specialize (Hset key value ttl (clock self) (backend self)).
    destruct (backend_set key value ttl (clock self) (backend self))
      as [[[]|e] b']; [|discriminate].
    eexists. split; [reflexivity|]. intros _. simpl. exact Ecb.
Qed.

(** Over a quiet backend the read block never raises, and leaves a
    closed breaker as it is. *)
Lemma read_from_cache_quiet (cache_read force_refresh : bool)
    (method url key : string) (kwargs : Kwargs) (self : Facade) :
  quiet_backend B ->
  let o := read_from_cache cache_read force_refresh method url key kwargs self in
  (forall e s, o <> ReadRaised e s) /\
  (breaker_closed self ->
   circuit_breaker (outcome_state o) = circuit_breaker self).
Proof.
  intros Hq. pose proof Hq as (_ & _ & Hdel). unfold read_from_cache.
  destruct (cache_read && negb force_refresh);
    [|split; [discriminate|reflexivity]].
  destruct (_get_from_cache_quiet key self Hq) as (o & self1 & -> & Hcb).
  destruct o as [blob|]; [|split; [discriminate|exact Hcb]].
  destruct (blob_truthy blob); [|split; [discriminate|exact Hcb]].
  destruct (deserialize_response blob) as [[resp cached_at]|e].
  - destruct (time_le _ _); [split; [discriminate|exact Hcb]|].
    destruct (_ && _); split; try discriminate; exact Hcb.
  - cbn [backend with_stats].
    specialize (Hdel key (backend self1)).
    destruct (backend_delete key (backend self1)) as [[u|e'] b'];
      [|discriminate].
    split; [discriminate|exact Hcb].
Qed.

(** X15. Over a backend whose operations never raise, a breaker that is
    closed is never changed by a request: it counts no failure and does
    not open, whatever the backend returned and whatever the store
    behind it did. *)
Theorem quiet_backend_breaker_stays_closed (method0 url : string)
    (cache_read0 cache_write0 : option bool) (force_refresh : bool)
    (kwargs : Kwargs) (self : Facade) :
  quiet_backend B ->
  breaker_closed self ->
  circuit_breaker
    (snd (request method0 url cache_read0 cache_write0 force_refresh kwargs self))
  = circuit_breaker self.
Proof.
  intros Hq Hclosed. unfold request.
  set (method := str_upper method0).
  set (key := request_key method url kwargs self).
  pose proof (read_from_cache_quiet (effective_flag cache_read0 url self)
                force_refresh method url key kwargs self Hq) as [_ Hcb].
  cbv zeta in Hcb. specialize (Hcb Hclosed).
  destruct (read_from_cache _ _ _ _ _ _ _) as [resp s1|resp s1|s1|e1 s1];
    cbn [outcome_state snd] in *; try exact Hcb.
  unfold fetch_and_store.
  destruct (fetch_on_miss _ _ _ _ _ _ _ _) as [r s2] eqn:E.
  apply fetch_on_miss_frame in E as (_ & _ & _ & Hb).
  cbn [circuit_breaker with_stats] in Hb.
  destruct r as [resp|e]; cbn [snd]; [|congruence].
  unfold write_to_cache.
  destruct (_ && _); [|congruence].
  destruct (serialize_response _ _ _) as [blob|e]; [|simpl; congruence].
  destruct (_set_to_cache_quiet key blob (write_ttl resp s2) s2 Hq)
    as (s3 & -> & Hcb3).
  simpl. rewrite Hcb3; [congruence|].
  unfold breaker_closed in *. rewrite Hb, Hcb. exact Hclosed.
Qed.

(** X16. A URL the patterns exclude bypasses the cache, also when the
    call asks for `cache_read=True` and `cache_write=True`: when the
    wrapped client returns, or stale entries are not served on errors,
    the outcome is the wrapped client's, the backend, the breaker and
    the deduplicator are not touched, and the request is counted as a
    miss. *)
Theorem excluded_url_bypasses_cache (method0 url : string)
    (cache_read0 cache_write0 : option bool) (force_refresh : bool)
    (kwargs : Kwargs) (self : Facade) (r : Result Response) (i' : I)
    (now' : Time) :
  URLMatcher.should_cache (url_matcher self) url = false ->
  inner_request (str_upper method0) url kwargs (clock self) (inner self) =
    (r, i', now') ->
  is_ok r = true \/ serve_stale_on_error (config self) = false ->
  request method0 url cache_read0 cache_write0 force_refresh kwargs self =
    (r, after_upstream (str_upper method0) url i' now'
          (with_stats (CacheStats.increment_miss (stats self)) self)).
Proof.
  intros Hex Hup Hok. unfold request, effective_flag. rewrite Hex, !andb_false_r.
  unfold read_from_cache. cbn [andb].
  unfold fetch_and_store, fetch_on_miss. cbn [orb andb deduplicator with_stats].
  assert (Hfetch :
    _fetch_response (str_upper method0) url kwargs
      (with_stats (CacheStats.increment_miss (stats self)) self) =
    (r, after_upstream (str_upper method0) url i' now'
          (with_stats (CacheStats.increment_miss (stats self)) self))).
  { unfold _fetch_response. cbn [clock inner with_stats]. rewrite Hup.
    destruct r as [resp|e]; [reflexivity|].
    destruct Hok as [Hok|Hno]; [discriminate|].
    cbn [config after_upstream with_stats]. rewrite Hno. reflexivity. }
  destruct (deduplicator self); rewrite Hfetch;
    (destruct r as [resp|e]; [|reflexivity]);
    unfold write_to_cache; reflexivity.
Qed.

End FacadeFurther.

Section FacadeFurtherExamples.
Import Plain Scenario.

(** Redis is down and the wrapped client answers: the breaker of the
    facade has counted nothing. *)
Lemma quiet_backend_breaker_stays_closed_witness :
  let facade :=
    __init__ (mkDummyHttp 0 (Some 200))
      (RedisCacheBackend.mk down_redis "sgcache:") default_config 0%Q in
  circuit_breaker
    (snd (request "GET" example_url None None false no_kwargs facade)) =
  circuit_breaker facade.
Proof.
  intros facade. apply quiet_backend_breaker_stays_closed.
  - apply redis_backend_quiet.
  - reflexivity.
Defined.

(** The example URL excluded, requested with `cache_read=True` and
    `cache_write=True`. *)
Lemma excluded_url_bypasses_cache_witness :
  let facade :=
    __init__ (mkDummyHttp 0 (Some 200)) empty_backend
      (excluding_config [example_url]) 0%Q in
  let up := inner_request "GET" example_url no_kwargs (clock facade) (inner facade) in
  request "GET" example_url (Some true) (Some true) false no_kwargs facade =
    (fst (fst up),
     after_upstream "GET" example_url (snd (fst up)) (snd up)
       (with_stats (CacheStats.increment_miss (stats facade)) facade)).
Proof.
  intros facade up.
  apply (excluded_url_bypasses_cache "GET" example_url (Some true) (Some true)
           false no_kwargs facade (fst (fst up)) (snd (fst up)) (snd up)).
  - vm_compute. reflexivity.
  - reflexivity.
  - left. reflexivity.
Defined.

End FacadeFurtherExamples.

(** ** The facade over the memory backend, request after request *)

(** What `serialize_response` writes `deserialize_response` reads. *)
Lemma serialize_then_deserialize `{Httpx} `{C : Codecs} `{!CodecsLawful C}
    (now : Time) (r : Response) (c : string) :
  codec_supported c ->
  exists blob r',
    serialize_response now r c = Ok blob /\
    deserialize_response blob = Ok (r', now) /\
    status_code r' = status_code r /\ content r' = content r.
Proof.
  intros Hc.
  destruct (supported_codec_roundtrip c (content r) Hc) as (z & Hz & Hback).
  unfold serialize_response. rewrite Hz.
  eexists _, _. split; [reflexivity|].
  unfold deserialize_response, unpackb, packb, payload_body.
  cbn [p_body_compressed p_compression p_url p_status p_headers p_reason
       p_encoding p_cached_at from_option id default].
  rewrite Hback. split; [reflexivity|]. split; reflexivity.
Qed.

Lemma call_returns_not_open {W A : Type} (time_time : W -> Time)
    (fn : W -> Result A * W) (cb cb' : CircuitBreaker.t) (w w' : W) (a : A) :
  CircuitBreaker.call time_time fn cb w = (Ok a, cb', w') ->
  CircuitBreaker.state cb' <> CircuitBreaker.OPEN.
Proof.
  unfold CircuitBreaker.call, CircuitBreaker.enter_call.
  destruct (CircuitBreaker.state cb) eqn:Es.
  - destruct (fn w) as [[x|e] w1]; [|discriminate].
    intros [= _ <- _]. unfold CircuitBreaker.on_success. rewrite Es. congruence.
  - destruct (time_gt _ _); [|discriminate].
    destruct (fn w) as [[x|e] w1]; [|discriminate].
    intros [= _ <- _]. simpl. discriminate.
  - destruct (fn w) as [[x|e] w1]; [|discriminate].
    intros [= _ <- _]. unfold CircuitBreaker.on_success. rewrite Es.
    simpl. discriminate.
Qed.

Section MemoryFacadeFurther.
Context `{Httpx} `{Hashlib} `{C : Codecs} `{!CodecsLawful C} `{Msgpack}
  `{Fnmatch} `{HeaderParsers}.
Context {I : Type} `{!HttpClient I}.

Local Abbreviation MemFacade :=
  (CachedSgRequests (B:=gmap string (Blob * Time)) (I:=I)).

Lemma breaker_not_open_admits (s : MemFacade) :
  breaker_not_open s -> breaker_admits s.
Proof.
  unfold breaker_not_open, breaker_admits.
  destruct (circuit_breaker s); [|trivial]. intros Hs. left. exact Hs.
Qed.

(** A cache read over the memory backend with the breaker letting the
    call through. *)
Lemma _get_from_cache_memory (key : string) (self : MemFacade) :
  breaker_admits self ->
  exists self1,
    _get_from_cache key self =
      (Ok (MemoryCacheBackend.get key (backend self)), self1) /\
    same_but_cache self self1 /\ backend self1 = backend self /\
    breaker_not_open self1.
Proof.
  intros Hadm. unfold _get_from_cache.
  destruct (circuit_breaker self) as [cb|] eqn:Ecb.
  - destruct (enter_call_admits self cb Ecb Hadm) as (cb1 & Hen).
    destruct (CircuitBreaker.call (fun _ => clock self) (backend_get key) cb
                (backend self)) as [[r cb'] b'] eqn:Ecall.
    pose proof Ecall as Ecall'.
    unfold CircuitBreaker.call in Ecall'. rewrite Hen in Ecall'.
    cbn [backend_get MemoryCacheBackend_backend] in Ecall'.
    injection Ecall' as <- <- <-.
    eexists. split; [reflexivity|].
    split; [unfold same_but_cache; simpl; tauto|]. split; [reflexivity|].
    unfold breaker_not_open. cbn [circuit_breaker with_breaker].
    exact (call_returns_not_open _ _ _ _ _ _ _ Ecall).
  - cbn [backend_get MemoryCacheBackend_backend].
    eexists. split; [reflexivity|].
    split; [unfold same_but_cache; simpl; tauto|]. split; [reflexivity|].
    unfold breaker_not_open. cbn [circuit_breaker with_backend].
    rewrite Ecb. exact Logic.I.
Qed.

(** A cache write over the memory backend with the breaker letting the
    call through. *)
Lemma _set_to_cache_memory (key : string) (value : Blob) (ttl : Z)
    (self : MemFacade) :
  breaker_admits self ->
  exists self1,
    _set_to_cache key value ttl self = (Ok tt, self1) /\
    same_but_cache self self1 /\
    backend self1 =
      <[key := (value, fadd (clock self) ttl)]> (backend self) /\
    breaker_not_open self1.
Proof.
  intros Hadm. unfold _set_to_cache.
  destruct (circuit_breaker self) as [cb|] eqn:Ecb.
  - destruct (enter_call_admits self cb Ecb Hadm) as (cb1 & Hen).
    destruct (CircuitBreaker.call (fun _ => clock self)
                (backend_set key value ttl (clock self)) cb (backend self))
      as [[r cb'] b'] eqn:Ecall.
    pose proof Ecall as Ecall'.
    unfold CircuitBreaker.call in Ecall'. rewrite Hen in Ecall'.
    cbn [backend_set MemoryCacheBackend_backend] in Ecall'.
    injection Ecall' as <- <- <-.
    eexists. split; [reflexivity|].
    split; [unfold same_but_cache; simpl; tauto|]. split; [reflexivity|].
    unfold breaker_not_open. cbn [circuit_breaker with_breaker].
    exact (call_returns_not_open _ _ _ _ _ _ _ Ecall).
  - cbn [backend_set MemoryCacheBackend_backend].
    eexists. split; [reflexivity|].
    split; [unfold same_but_cache; simpl; tauto|]. split; [reflexivity|].
    unfold breaker_not_open. cbn [circuit_breaker with_backend].
    rewrite Ecb. exact Logic.I.
Qed.

(** The write block for a cacheable response, the breaker letting the
    call through: the entry is in the backend and nothing else of what
    later requests look at has changed. *)
Lemma write_to_cache_memory (key : string) (resp : Response)
    (self : MemFacade) (blob : Blob) :
  _is_cacheable resp (config self) = true ->
  breaker_admits self ->
  serialize_response (clock self) resp (compression (config self)) = Ok blob ->
  let self' := write_to_cache true key resp self in
  backend self' =
    <[key := (blob, fadd (clock self) (write_ttl resp self))]>
      (backend self) /\
  same_upstream self self' /\ threads self' = threads self /\
  breaker_not_open self'.
Proof.
  intros Hc Hadm Hser self'. subst self'. unfold write_to_cache.
  rewrite Hc, Hser. cbn [andb].
  destruct (_set_to_cache_memory key blob (write_ttl resp self) self Hadm)
    as (s1 & -> & (Hi & Hcfg & Hst & Hm & Hd & Hk & Hu & Ht) & Hb & Hno).
  cbn [backend with_stats]. split; [exact Hb|].
  split; [unfold same_upstream; simpl; tauto|]. split; [exact Ht|].
  exact Hno.
Qed.

(** A fetch on a miss with no fetch for the key announced, when
    `_fetch_response` returns a response. *)
Lemma fetch_on_miss_returns (cache_read cache_write force_refresh : bool)
    (method url key : string) (kwargs : Kwargs) (self s0 : MemFacade)
    (resp : Response) :
  dedup_idle key self ->
  _fetch_response method url kwargs self = (Ok resp, s0) ->
  exists s',
    fetch_on_miss cache_read cache_write force_refresh method url key kwargs
      self = (Ok resp, s') /\
    inner s' = inner s0 /\ clock s' = clock s0 /\
    upstream_calls s' = upstream_calls s0 /\ backend s' = backend s0 /\
    config s' = config s0 /\ stats s' = stats s0 /\
    url_matcher s' = url_matcher s0 /\
    circuit_breaker s' = circuit_breaker s0 /\ threads s' = threads s0 /\
    dedup_idle key s'.
Proof.
  intros Hidle Hfetch.
  pose proof (_fetch_response_frame _ _ _ _ _ _ Hfetch) as (_ & _ & _ & _ & Hd).
  assert (Hidle0 : dedup_idle key s0).
  { unfold dedup_idle in *. rewrite Hd. exact Hidle. }
  unfold fetch_on_miss.
  destruct (deduplicator self) as [d|] eqn:Ed;
    [|exists s0; rewrite Hfetch; repeat split; exact Hidle0].
  destruct ((cache_read || cache_write) && negb force_refresh);
    [|exists s0; rewrite Hfetch; repeat split; exact Hidle0].
  unfold RequestDeduplicator.get_or_fetch.
  unfold dedup_idle in Hidle. rewrite Ed in Hidle.
  rewrite bool_decide_eq_false_2 by exact Hidle.
  rewrite Hfetch. eexists. split; [reflexivity|].
  repeat split. unfold dedup_idle. simpl. intros Hin.
  apply elem_of_difference in Hin as [_ Hn]. apply Hn.
  apply elem_of_singleton. reflexivity.
Qed.

(** The read block over the memory backend when it finds nothing it
    can return: the key is absent, or the entry has aged past the TTL
    and the stale window. *)
Lemma read_from_cache_memory_miss (cache_read force_refresh : bool)
    (method url key : string) (kwargs : Kwargs) (self : MemFacade) :
  breaker_not_open self ->
  (backend self !! key = None \/
   exists blob exp resp cached_at,
     backend self !! key = Some (blob, exp) /\
     deserialize_response blob = Ok (resp, cached_at) /\
     time_le (fsub (clock self) cached_at) (inject_Z (ttl_seconds (config self)))
       = false /\
     (0 <? stale_while_revalidate_seconds (config self)) &&
     time_le (fsub (clock self) cached_at)
       (inject_Z (ttl_seconds (config self) +
                  stale_while_revalidate_seconds (config self))) = false) ->
  exists self1,
    read_from_cache cache_read force_refresh method url key kwargs self =
      Missed self1 /\
    same_but_cache self self1 /\ backend self1 = backend self /\
    breaker_not_open self1.
Proof.
  intros Hno Hentry. unfold read_from_cache.
  destruct (cache_read && negb force_refresh);
    [|exists self; repeat split; assumption].
  destruct (_get_from_cache_memory key self (breaker_not_open_admits _ Hno))
    as (s1 & -> & Hsame & Hb & Hno1).
  pose proof Hsame as (_ & Hc & _ & _ & _ & Hk & _).
  unfold MemoryCacheBackend.get.
  destruct Hentry as [-> | (blob & exp & resp & cached_at & -> & Hdes & Hold & Hswr)].
  - exists s1. repeat split; try assumption; apply Hsame.
  - rewrite (deserialize_ok_truthy _ _ Hdes), Hdes, Hc, Hk, Hold, Hswr.
    exists s1. repeat split; try assumption; apply Hsame.
Qed.


(** X18. An entry `deserialize_response` cannot read. With the cache
    read in effect and the breaker not open, a non-empty entry that
    does not deserialize is deleted from the backend and one error is
    counted, and the request goes on as a miss from there; an entry
    that is the empty byte string is left where it is, nothing is
    counted, and the request goes on as a miss as well. *)
Theorem unreadable_entry_is_dropped (method0 url : string)
    (cache_read0 cache_write0 : option bool) (kwargs : Kwargs)
    (self : MemFacade) (blob : Blob) (exp : Time) (e : Exn) :
  let method := str_upper method0 in
  let key := request_key method url kwargs self in
  effective_flag cache_read0 url self = true ->
  breaker_not_open self ->
  backend self !! key = Some (blob, exp) ->
  deserialize_response blob = Raise e ->
  exists s1,
    request method0 url cache_read0 cache_write0 false kwargs self =
      fetch_and_store true (effective_flag cache_write0 url self) false method
        url key kwargs s1 /\
    same_upstream self s1 /\ breaker_not_open s1 /\
    (blob_truthy blob = true ->
     backend s1 = base.delete key (backend self) /\
     CacheStats.errors (stats s1) = CacheStats.errors (stats self) + 1) /\
    (blob_truthy blob = false ->
     backend s1 = backend self /\ stats s1 = stats self).
Proof.
  intros method key Hread Hno Hentry Hdes.
  destruct (_get_from_cache_memory key self (breaker_not_open_admits _ Hno))
    as (s1 & Hget & (Hi & Hc & Hs & Hm & Hd & Hk & Hu & Ht) & Hb & Hno1).
  unfold MemoryCacheBackend.get in Hget. rewrite Hentry in Hget.
  unfold request. fold method. fold key. rewrite Hread.
  unfold read_from_cache. cbn [negb andb]. rewrite Hget.
  destruct (blob_truthy blob) eqn:Etruthy.
  - rewrite Hdes. cbn [backend_delete MemoryCacheBackend_backend backend
      with_stats].
    eexists. split; [reflexivity|].
    split; [unfold same_upstream; simpl; tauto|].
    split; [exact Hno1|].
    split; [|discriminate]. intros _. cbn [backend with_backend stats with_stats
      CacheStats.errors CacheStats.increment_error].
    unfold MemoryCacheBackend.delete. rewrite Hb, Hs. split; reflexivity.
  - exists s1. split; [reflexivity|].
    split; [unfold same_upstream; tauto|]. split; [exact Hno1|].
    split; [discriminate|]. intros _. split; assumption.
Qed.

(** X19. Serving a stale entry re-stamps it. With `serve_stale_on_error`
    set and no `key_builder`, a request whose entry is too old to be
    returned and whose upstream call raises returns the stored
    response, provided the entry is no older than
    `max_stale_age_seconds`; and, the response being cacheable and
    cache writes in effect, the entry is written again with the time of
    the failed call as its `cached_at`, so that its age starts again
    from zero. *)
Theorem served_stale_entry_is_restamped (method0 url : string)
    (cache_read0 cache_write0 : option bool) (kwargs : Kwargs)
    (self : MemFacade) (blob0 : Blob) (exp0 : Time) (resp0 : Response)
    (cached0 : Time) (e : Exn) (i' : I) (now' : Time) :
  let method := str_upper method0 in
  let key := request_key method url kwargs self in
  let age := fsub (clock self) cached0 in
  let ttl := ttl_seconds (config self) in
  let swr := stale_while_revalidate_seconds (config self) in
  key_builder (config self) = None ->
  serve_stale_on_error (config self) = true ->
  effective_flag cache_write0 url self = true ->
  codec_supported (compression (config self)) ->
  breaker_not_open self ->
  dedup_idle key self ->
  backend self !! key = Some (blob0, exp0) ->
  deserialize_response blob0 = Ok (resp0, cached0) ->
  ~ (age <= inject_Z ttl)%Q ->
  ~ (0 < swr /\ (age <= inject_Z (ttl + swr))%Q) ->
  inner_request method url kwargs (clock self) (inner self) = (Raise e, i', now') ->
  (fsub now' cached0 <= inject_Z (max_stale_age_seconds (config self)))%Q ->
  _is_cacheable resp0 (config self) = true ->
  exists s1 blob1 exp1 resp1,
    request method0 url cache_read0 cache_write0 false kwargs self =
      (Ok resp0, s1) /\
    backend s1 !! key = Some (blob1, exp1) /\
    deserialize_response blob1 = Ok (resp1, now') /\
    status_code resp1 = status_code resp0 /\
    content resp1 = content resp0.
Proof.
  intros method key age ttl swr Hkb Hserve Hwrite Hcodec Hno Hidle Hentry
    Hdes Hold Hswr Hup Hmax Hcacheable.
  destruct (serialize_then_deserialize now' resp0 (compression (config self))
              Hcodec) as (blob1 & resp1 & Hser & Hdes1 & Hst & Hbody).
  assert (E1 : time_le age (inject_Z ttl) = false).
  { destruct (time_le age (inject_Z ttl)) eqn:E; [|reflexivity].
    apply time_le_spec in E. contradiction. }
  assert (E2 : (0 <? swr) && time_le age (inject_Z (ttl + swr)) = false).
  { destruct ((0 <? swr) && time_le age (inject_Z (ttl + swr))) eqn:E;
      [|reflexivity].
    apply andb_true_iff in E as [Ea Eb]. apply Z.ltb_lt in Ea.
    apply time_le_spec in Eb. exfalso. apply Hswr. split; assumption. }
  destruct (read_from_cache_memory_miss (effective_flag cache_read0 url self)
              false method url key kwargs self Hno)
    as (r1 & Hmiss & (Hi1 & Hc1 & Hs1 & Hm1 & Hd1 & Hk1 & Hu1 & Ht1) & Hb1 & Hno1).
  { right. exists blob0, exp0, resp0, cached0. repeat split; assumption. }
  set (r2 := with_stats (CacheStats.increment_miss (stats r1)) r1).
  assert (Hkey : _build_key method url (content_for_key method url kwargs)
                   (kw_headers kwargs) (config self) = key).
  { unfold key, request_key. rewrite Hkb. reflexivity. }
  assert (Hfetch : _fetch_response method url kwargs r2 =
            (Ok resp0,
             with_backend (backend r1) (after_upstream method url i' now' r2))).
  { subst r2. unfold _fetch_response. cbn [clock inner with_stats].
    rewrite Hk1, Hi1, Hup.
    cbn [config after_upstream with_stats backend]. rewrite Hc1, Hserve, Hkey.
    cbn [backend_get MemoryCacheBackend_backend].
    unfold MemoryCacheBackend.get. rewrite Hb1, Hentry.
    rewrite (deserialize_ok_truthy _ _ Hdes), Hdes.
    cbn [clock config with_backend after_upstream with_stats]. rewrite Hc1.
    apply time_le_spec in Hmax. rewrite Hmax. reflexivity. }
  assert (Hidle2 : dedup_idle key r2).
  { unfold dedup_idle in *. change (deduplicator r2) with (deduplicator r1).
    rewrite Hd1. exact Hidle. }
  destruct (fetch_on_miss_returns (effective_flag cache_read0 url self)
              (effective_flag cache_write0 url self) false method url key
              kwargs r2 _ resp0 Hidle2 Hfetch)
    as (r3 & Hfm & Hi3 & Hk3 & Hu3 & Hb3 & Hc3 & Hs3 & Hm3 & Hcb3 & Ht3 & Hidle3).
  cbn [inner clock upstream_calls backend config stats url_matcher
       circuit_breaker threads after_upstream with_stats with_backend r2] in
    Hi3, Hk3, Hu3, Hb3, Hc3, Hs3, Hm3, Hcb3, Ht3.
  assert (Hno3 : breaker_not_open r3).
  { unfold breaker_not_open in *. rewrite Hcb3. exact Hno1. }
  destruct (write_to_cache_memory key resp0 r3 blob1) as (Hbw & _).
  { rewrite Hc3, Hc1. exact Hcacheable. }
  { apply breaker_not_open_admits. exact Hno3. }
  { rewrite Hk3, Hc3, Hc1. exact Hser. }
  cbv zeta in Hbw.
  exists (write_to_cache true key resp0 r3), blob1,
    (fadd (clock r3) (write_ttl resp0 r3)), resp1.
  split.
  { unfold request. fold method. fold key. rewrite Hmiss.
    unfold fetch_and_store. fold r2. rewrite Hfm, Hwrite. reflexivity. }
  split; [rewrite Hbw; apply lookup_insert_eq|].
  split; [exact Hdes1|]. split; assumption.
Qed.


End MemoryFacadeFurther.

(** ** A codec whose library is missing *)

Section MissingCodec.
Context `{Httpx} `{Hashlib} `{Codecs} `{Msgpack} `{Fnmatch} `{HeaderParsers}.
Context {B I : Type} `{CacheBackend B} `{!HttpClient I}.

Local Abbreviation Facade := (CachedSgRequests (B:=B) (I:=I)).

(** X21. With `compression` set to lz4 or zstd and that library not
    installed, nothing is ever written to the cache: for every
    cacheable response the write block counts one error and leaves the
    backend and the breaker untouched, and the response is returned to
    the caller all the same. *)
Theorem missing_codec_disables_writes (key : string) (resp : Response)
    (self : Facade) :
  (compression (config self) = "lz4"%string /\ HAS_LZ4 = false) \/
  (compression (config self) = "zstd"%string /\ HAS_ZSTD = false) ->
  _is_cacheable resp (config self) = true ->
  write_to_cache true key resp self =
    with_stats (CacheStats.increment_error (stats self)) self /\
  (forall (cache_read force_refresh : bool) (method url : string)
          (kwargs : Kwargs) (s0 s2 : Facade),
     config s0 = config self ->
     fetch_on_miss cache_read true force_refresh method url key kwargs
       (with_stats (CacheStats.increment_miss (stats s0)) s0) = (Ok resp, s2) ->
     fetch_and_store cache_read true force_refresh method url key kwargs s0 =
       (Ok resp, with_stats (CacheStats.increment_error (stats s2)) s2)).
Proof.
  intros Hcodec Hcacheable.
  assert (Hser : forall now, exists e,
            serialize_response now resp (compression (config self)) = Raise e).
  { intros now. unfold serialize_response, COMPRESSORS_get.
    destruct Hcodec as [[-> Hno]|[-> Hno]]; cbn [String.eqb Ascii.eqb Bool.eqb fst];
      [unfold _lz4_compress|unfold _zstd_compress]; rewrite Hno; cbn [negb];
      eexists; reflexivity. }
  split.
  - unfold write_to_cache. rewrite Hcacheable. cbn [andb].
    destruct (Hser (clock self)) as (e & ->). reflexivity.
  - intros cache_read force_refresh method url kwargs s0 s2 Hcfg Hfetch.
    unfold fetch_and_store. rewrite Hfetch.
    pose proof (fetch_on_miss_frame _ _ _ _ _ _ _ _ _ _ Hfetch)
      as (_ & Hc2 & _).
    cbn [config with_stats] in Hc2.
    unfold write_to_cache. rewrite Hc2, Hcfg, Hcacheable. cbn [andb].
    destruct (Hser (clock s2)) as (e & ->). reflexivity.
Qed.

End MissingCodec.

Section MemoryFacadeFurtherExamples.
Import Plain Scenario.


(** An entry msgpack cannot read, under the key of the example URL. *)
Lemma unreadable_entry_is_dropped_witness :
  let facade0 := __init__ (mkDummyHttp 0 (Some 200)) empty_backend default_config 0%Q in
  let key := request_key "GET" example_url no_kwargs facade0 in
  let facade :=
    with_backend (<[key := (Unreadable [Byte.x01], 100%Q)]> empty_backend)
      facade0 in
  exists s1,
    get facade = fetch_and_store true true false "GET" example_url key no_kwargs s1 /\
    backend s1 = base.delete key (backend facade).
Proof.
  intros facade0 key facade.
  assert (Hno : breaker_not_open facade).
  { unfold breaker_not_open. simpl. discriminate. }
  assert (Hentry : backend facade !!
                     request_key (str_upper "GET") example_url no_kwargs facade =
                   Some (Unreadable [Byte.x01], 100%Q)).
  { vm_compute. reflexivity. }
  destruct (unreadable_entry_is_dropped "GET" example_url None None no_kwargs
              facade (Unreadable [Byte.x01]) 100%Q
              (OtherError "msgpack.exceptions.UnpackException")
              eq_refl Hno Hentry eq_refl)
    as (s1 & Hreq & _ & _ & Hdrop & _).
  exists s1. split; [exact Hreq|]. exact (proj1 (Hdrop eq_refl)).
Defined.

(** The entry of the example URL 100 s after it was cached with a TTL
    of 60 s, and a wrapped client that raises. *)
Lemma served_stale_entry_is_restamped_witness :
  let s := aged (stale_config None) 100%Q (mkDummyHttp 1 None) in
  let key := request_key "GET" example_url no_kwargs s in
  exists resp0 s1 blob1 exp1 resp1,
    get s = (Ok resp0, s1) /\
    backend s1 !! key = Some (blob1, exp1) /\
    deserialize_response blob1 = Ok (resp1, 100%Q) /\
    content resp1 = content resp0.
Proof.
  intros s key.
  pose (entry := match backend s !! key with
                 | Some x => x
                 | None => (Unreadable [], 0%Q)
                 end).
  pose (parsed := match deserialize_response (fst entry) with
                  | Ok x => x
                  | Raise _ => (empty_content_type, 0%Q)
                  end).
  assert (Hno : breaker_not_open s).
  { unfold breaker_not_open. vm_compute. discriminate. }
  assert (Hidle : dedup_idle (request_key (str_upper "GET") example_url no_kwargs s) s).
  { unfold dedup_idle.
    assert (Hd : exists d,
              deduplicator s = Some d /\
              bool_decide
                (request_key (str_upper "GET") example_url no_kwargs s
                 ∈ RequestDeduplicator._in_flight d) = false).
    { eexists. split; vm_compute; reflexivity. }
    destruct Hd as (d & -> & Hd). apply bool_decide_eq_false_1 in Hd. exact Hd. }
  assert (Hentry : backend s !!
                     request_key (str_upper "GET") example_url no_kwargs s =
                   Some (fst entry, snd entry)).
  { vm_compute. reflexivity. }
  assert (Hdes : deserialize_response (fst entry) = Ok (fst parsed, snd parsed)).
  { vm_compute. reflexivity. }
  assert (Hup : inner_request (str_upper "GET") example_url no_kwargs (clock s)
                  (inner s) =
                (Raise (OtherError "httpx.ConnectError"), mkDummyHttp 2 None,
                 100%Q)).
  { reflexivity. }
  destruct (served_stale_entry_is_restamped "GET" example_url None None
              no_kwargs s (fst entry) (snd entry) (fst parsed) (snd parsed)
              (OtherError "httpx.ConnectError") (mkDummyHttp 2 None) 100%Q
              eq_refl eq_refl eq_refl (or_introl eq_refl) Hno Hidle Hentry Hdes)
    as (s1 & blob1 & exp1 & resp1 & Hreq & Hb & Hd & _ & Hbody).
  - vm_compute. intros Hle. apply Hle. reflexivity.
  - intros [Hswr _]. vm_compute in Hswr. discriminate.
  - exact Hup.
  - vm_compute. discriminate.
  - vm_compute. reflexivity.
  - exists (fst parsed), s1, blob1, exp1, resp1.
    split; [exact Hreq|]. split; [exact Hb|]. split; [exact Hd|exact Hbody].
Defined.


End MemoryFacadeFurtherExamples.

Section MissingCodecExamples.
Import Plain Scenario.
#[local] Existing Instance gzip_only_codecs | 0.

(** `compression="lz4"` where lz4 cannot be imported. *)
Lemma missing_codec_disables_writes_witness :
  let facade := __init__ (mkDummyHttp 0 (Some 200)) empty_backend lz4_config 0%Q in
  let resp :=
    mkResponse 200 [] (bytes_of_string "ok-1") "https://example.com/"
      "HTTP/1.1" "OK" (Some "utf-8"%string) in
  write_to_cache (H1:=gzip_only_codecs) true "k" resp facade =
    with_stats (CacheStats.increment_error (stats facade)) facade.
Proof.
  intros facade resp.
  exact (proj1 (missing_codec_disables_writes (H1:=gzip_only_codecs) "k" resp
                  facade (or_introl (conj eq_refl eq_refl)) eq_refl)).
Defined.

End MissingCodecExamples.

(** ** Forced refreshes and expired entries *)

Section MemoryFacadeReads.
Context `{Httpx} `{Hashlib} `{C : Codecs} `{!CodecsLawful C} `{Msgpack}
  `{Fnmatch} `{HeaderParsers}.
Context {I : Type} `{!HttpClient I}.

Local Abbreviation MemFacade :=
  (CachedSgRequests (B:=gmap string (Blob * Time)) (I:=I)).


(** X23. The facade never looks at the expiry the memory backend keeps:
    an entry whose expiry has passed, so that `is_expired` reports it
    expired, is returned as a fresh hit as long as the entry is no older
    than `ttl_seconds` by its own `cached_at`. The wrapped client is not
    called and the backend is left as it is. The TTL an entry was
    written with (the adaptive one included) decides nothing here. *)
Theorem expired_entry_served_while_young (method0 url : string)
    (cache_read0 cache_write0 : option bool) (kwargs : Kwargs)
    (self : MemFacade) (blob : Blob) (exp : Time) (resp : Response)
    (cached_at : Time) :
  let method := str_upper method0 in
  let key := request_key method url kwargs self in
  effective_flag cache_read0 url self = true ->
  breaker_not_open self ->
  backend self !! key = Some (blob, exp) ->
  (exp <= fl64 (clock self))%Q ->
  deserialize_response blob = Ok (resp, cached_at) ->
  (fsub (clock self) cached_at <= inject_Z (ttl_seconds (config self)))%Q ->
  MemoryCacheBackend.is_expired (clock self) key (backend self) = true /\
  exists s1,
    request method0 url cache_read0 cache_write0 false kwargs self =
      (Ok resp, s1) /\
    upstream_calls s1 = upstream_calls self /\
    backend s1 = backend self /\
    threads s1 = threads self /\
    CacheStats.hits (stats s1) = CacheStats.hits (stats self) + 1.
Proof.
  intros method key Hread Hno Hentry Hexp Hdes Hfresh.
  split.
  { unfold MemoryCacheBackend.is_expired. rewrite Hentry.
    apply time_le_spec. exact Hexp. }
  destruct (_get_from_cache_memory key self (breaker_not_open_admits _ Hno))
    as (s1 & Hget & (Hi & Hc & Hs & Hm & Hd & Hk & Hu & Ht) & Hb & _).
  unfold MemoryCacheBackend.get in Hget. rewrite Hentry in Hget.
  exists (record_hit blob s1). split.
  { unfold request. fold method. fold key. rewrite Hread.
    unfold read_from_cache. cbn [negb andb].
    rewrite Hget, (deserialize_ok_truthy _ _ Hdes), Hdes, Hk, Hc.
    apply time_le_spec in Hfresh. rewrite Hfresh. reflexivity. }
  cbn [upstream_calls backend threads stats record_hit with_stats
       CacheStats.hits CacheStats.increment_hit].
  rewrite Hs. repeat split; assumption.
Qed.

End MemoryFacadeReads.

Section MemoryFacadeReadsExamples.
Import Plain Scenario.


(** An entry written at time 0 with an expiry 5 s ahead, read at time
    10 under the default TTL of a day. *)
Lemma expired_entry_served_while_young_witness :
  let facade0 := __init__ (mkDummyHttp 0 (Some 200)) empty_backend default_config 10%Q in
  let key := request_key "GET" example_url no_kwargs facade0 in
  let blob :=
    packb (mkPayload (Some 200) (Some example_url) (Some "HTTP/1.1"%string)
             (Some "OK"%string) (Some []) None (Some 0%Q) (Some "none"%string)
             (Some (bytes_of_string "ok-1")) None) in
  let facade := with_backend (<[key := (blob, 5%Q)]> empty_backend) facade0 in
  MemoryCacheBackend.is_expired 10%Q key (backend facade) = true /\
  exists resp s1,
    get facade = (Ok resp, s1) /\
    content resp = bytes_of_string "ok-1" /\
    upstream_calls s1 = [].
Proof.
  intros facade0 key blob facade.
  assert (Hno : breaker_not_open facade).
  { unfold breaker_not_open. simpl. discriminate. }
  assert (Hentry : backend facade !!
                     request_key (str_upper "GET") example_url no_kwargs facade =
                   Some (blob, 5%Q)).
  { vm_compute. reflexivity. }
  assert (Hexp : (5 <= fl64 (clock facade))%Q) by (vm_compute; discriminate).
  assert (Hfresh : (fsub (clock facade) 0 <= inject_Z (ttl_seconds (config facade)))%Q)
    by (vm_compute; discriminate).
  destruct (expired_entry_served_while_young "GET" example_url None None
              no_kwargs facade blob 5%Q _ 0%Q eq_refl Hno Hentry Hexp eq_refl
              Hfresh)
    as (Hexpired & s1 & Hreq & Hu & _).
  split; [exact Hexpired|].
  eexists _, s1. split; [exact Hreq|]. split; [reflexivity|exact Hu].
Defined.

End MemoryFacadeReadsExamples.
